(** * ilastik: serializer, split-body carving operators and multicut GUI

    A shallow embedding of three files of the ilastik repository:

    - [ilastik-shell/applets/pixelClassification/pixelClassificationSerializer.py]
    - [ilastik/applets/splitBodyCarving/opSplitBodyCarving.py]
    - [ilastik/applets/multicut/multicutGui.py]

    Python objects are modelled by explicit state records, exceptions by
    an outcome type that keeps the state reached when the exception was
    raised, dictionaries by [gmap], numpy arrays by a shape together
    with the row-major list of their elements. *)

From Stdlib Require Import ZArith String Ascii List Bool Lia.
From Stdlib Require Import Decimal DecimalString DecimalPos DecimalZ.
From Stdlib Require Import QArith_base.
From stdpp Require Import gmap strings list fin_maps sorting.

Local Open Scope Z_scope.
Local Open Scope string_scope.

(** ** Python built-ins used by the sources *)

Module Py.

(** A Python value that is either [None] or an [int]. *)
Inductive value : Type :=
| None_ : value
| Int : Z -> value.

Definition value_eqb (a b : value) : bool :=
  match a, b with
  | None_, None_ => true
  | Int x, Int y => Z.eqb x y
  | _, _ => false
  end.

(** [str(v)] for [None] and for integers (decimal, with a leading minus
    sign for negative numbers). *)
Definition str (v : value) : string :=
  match v with
  | None_ => "None"
  | Int z => NilZero.string_of_int (Z.to_int z)
  end.

(** The characters [str.strip()] and [int()] treat as white space. *)
Definition whitespace : list ascii :=
  [" "%char; "009"%char; "010"%char; "011"%char; "012"%char; "013"%char].

Definition is_space (c : ascii) : bool :=
  existsb (Ascii.eqb c) whitespace.

Fixpoint lstrip (s : string) : string :=
  match s with
  | String c r => if is_space c then lstrip r else s
  | EmptyString => EmptyString
  end.

Fixpoint rstrip (s : string) : string :=
  match s with
  | EmptyString => EmptyString
  | String c r =>
      match rstrip r with
      | EmptyString => if is_space c then EmptyString else String c EmptyString
      | r' => String c r'
      end
  end.

Definition strip (s : string) : string := rstrip (lstrip s).

(** A non-empty run of decimal digits. *)
Definition digits (s : string) : option Z :=
  match s with
  | EmptyString => None
  | _ => option_map Z.of_uint (NilEmpty.uint_of_string s)
  end.

(** [int(s)] as Python 2 has it: surrounding white space is ignored, one
    optional sign, then at least one digit; [None] stands for
    [ValueError]. *)
Definition int (s : string) : option Z :=
  match strip s with
  | EmptyString => None
  | String c r =>
      if Ascii.eqb c "-" then option_map Z.opp (digits r)
      else if Ascii.eqb c "+" then digits r
      else digits (String c r)
  end.

(** [s[:-1]] *)
Fixpoint drop_last (s : string) : string :=
  match s with
  | EmptyString => EmptyString
  | String c r =>
      match r with
      | EmptyString => EmptyString
      | _ => String c (drop_last r)
      end
  end.

(** [s[1:]] *)
Definition drop_first (s : string) : string :=
  match s with
  | EmptyString => EmptyString
  | String _ r => r
  end.

(** [s[1:-1]] *)
Definition strip_ends (s : string) : string := drop_first (drop_last s).

(** [s.split(sep)] for a one-character separator: never an empty list. *)
Fixpoint split (sep : ascii) (s : string) : list string :=
  match s with
  | EmptyString => [EmptyString]
  | String c r =>
      if Ascii.eqb c sep then EmptyString :: split sep r
      else match split sep r with
           | h :: t => String c h :: t
           | [] => [String c EmptyString]
           end
  end.

(** The built-in [slice(start, stop, step)] object. *)
Record slice : Type := Slice { start : value; stop : value; step : value }.

(** [slice(start, stop)] leaves the step at [None]. *)
Definition slice2 (a b : Z) : slice := Slice (Int a) (Int b) None_.

Definition slice_eqb (a b : slice) : bool :=
  value_eqb (start a) (start b) && value_eqb (stop a) (stop b)
  && value_eqb (step a) (step b).

(** Every character of the string satisfies the test. *)
Fixpoint all_chars (P : ascii -> bool) (s : string) : bool :=
  match s with
  | EmptyString => true
  | String c r => P c && all_chars P r
  end.

Definition is_digit (c : ascii) : bool :=
  existsb (Ascii.eqb c)
    ["0"%char; "1"%char; "2"%char; "3"%char; "4"%char;
     "5"%char; "6"%char; "7"%char; "8"%char; "9"%char].

(** [sep.join(items)] *)
Fixpoint join (sep : ascii) (items : list string) : string :=
  match items with
  | [] => EmptyString
  | [x] => x
  | x :: rest => x ++ String sep (join sep rest)
  end.

End Py.

(** ** pixelClassificationSerializer.py: slicing (de)serialization *)

Module Slicing.
Import Py.

(** One iteration of the loop of [slicingToString]. *)
Definition append_slice (strSlicing : string) (s : slice) : string :=
  (((strSlicing ++ str (start s)) ++ ":") ++ str (stop s)) ++ ",".

(** Convert the given slicing into a string of the form '[0:1,2:3,4:5]' *)
Definition slicingToString (slicing : list slice) : string :=
  let strSlicing := fold_left append_slice slicing "[" in
  (* Drop the last comma *)
  let strSlicing := drop_last strSlicing in
  strSlicing ++ "]".

(** The body of the loop of [stringToSlicing]; [None] when [int] raises
    [ValueError] or [ends[1]] raises [IndexError]. *)
Definition parse_slice (s : string) : option slice :=
  let ends := split ":" s in
  match ends with
  | e0 :: e1 :: _ =>
      match int e0 with
      | Some a =>
          match int e1 with
          | Some b => Some (slice2 a b)
          | None => None
          end
      | None => None
      end
  | _ => None
  end.

Fixpoint parse_slices (sliceStrings : list string) : option (list slice) :=
  match sliceStrings with
  | [] => Some []
  | s :: rest =>
      match parse_slice s with
      | Some sl =>
          match parse_slices rest with
          | Some sls => Some (sl :: sls)
          | None => None
          end
      | None => None
      end
  end.

(** Parse a string of the form '[0:1,2:3,4:5]' into a slicing. *)
Definition stringToSlicing (strSlicing : string) : option (list slice) :=
  (* Drop brackets *)
  let strSlicing := strip_ends strSlicing in
  let sliceStrings := split "," strSlicing in
  parse_slices sliceStrings.

(** The slices the round trip is stated for: both bounds are
    non-negative integers. *)
Definition nonneg_bounds (s : slice) : Prop :=
  exists a b, start s = Int a /\ stop s = Int b /\ (0 <= a)%Z /\ (0 <= b)%Z.

(** A slice without a step, as [slice(start, stop)] makes them. *)
Definition no_step (s : slice) : Prop := step s = None_.

(** What one slice contributes to the string. *)
Definition slice_text (s : slice) : string :=
  str (start s) ++ String ":" (str (stop s)).

End Slicing.

(** ** Exceptions and stateful code *)

Module Eff.

Inductive exn : Type :=
| KeyError
| ValueError
| IndexError
| AssertionError
| UnboundLocalError
| NotReadyError
| RecursionError
| ExternalError (msg : string).

(** The result of running a method on a state of type [S]: it returns
    normally, or it raises; either way the mutations made so far stay. *)
Inductive outcome (S A : Type) : Type :=
| Returned (a : A) (s : S)
| Raised (e : exn) (s : S).
Arguments Returned {S A} a s.
Arguments Raised {S A} e s.

Definition M (S A : Type) : Type := S -> outcome S A.

Definition ret {S A} (a : A) : M S A := fun s => Returned a s.

Definition bind {S A B} (c : M S A) (k : A -> M S B) : M S B :=
  fun s => match c s with
           | Returned a s' => k a s'
           | Raised e s' => Raised e s'
           end.

Definition raise {S A} (e : exn) : M S A := fun s => Raised e s.
Definition get {S} : M S S := fun s => Returned s s.
Definition modify {S} (f : S -> S) : M S unit := fun s => Returned tt (f s).
Definition when_ {S} (b : bool) (c : M S unit) : M S unit :=
  if b then c else ret tt.

(** An external call that either yields a value or raises. *)
Definition try_ {S A} (r : A + exn) : M S A :=
  fun s => match r with inl a => Returned a s | inr e => Raised e s end.

(** Running a method [n] times in a row. *)
Fixpoint times {S} (n : nat) (c : M S unit) : M S unit :=
  match n with
  | O => ret tt
  | Datatypes.S n' => bind c (fun _ => times n' c)
  end.

Definition final_state {S A} (o : outcome S A) : S :=
  match o with Returned _ s => s | Raised _ s => s end.

Definition returned {S A} (o : outcome S A) : bool :=
  match o with Returned _ _ => true | Raised _ _ => false end.

#[global] Instance M_ret {S} : MRet (M S) := fun A a => ret a.
#[global] Instance M_bind {S} : MBind (M S) := fun A B k c => bind c k.

End Eff.


(** ** pixelClassificationSerializer.py: PixelClassificationSerializer *)

Module Serializer.
Import Eff.

(** [class Section] *)
Definition Section_Labels : Z := 0.
Definition Section_Classifier : Z := 1.
Definition Section_Predictions : Z := 2.

(** Modelled from the spec: the engine's slot, which is not part of the
    reviewed sources. A slot holds either a connection to an upstream
    producer or a directly assigned value; it is ready iff it is
    connected to a value-producing source or has a direct value.
    [producer] is the value the upstream operator computes when asked
    ([None] while it cannot produce one). *)
Inductive source (V : Type) : Type :=
| Unconnected
| Connected (producer : option V)
| Direct (v : V).
Arguments Unconnected {V}.
Arguments Connected {V} producer.
Arguments Direct {V} v.

(** Modelled from the spec: a slot together with the number of times its
    upstream producer has been asked to (re)compute the value. *)
Record slot (V : Type) : Type := Slot {
  slot_source : source V;
  recomputations : nat
}.
Arguments Slot {V} _ _.
Arguments slot_source {V} _.
Arguments recomputations {V} _.

(** Modelled from the spec: [ready()] of the engine's slot. *)
Definition ready {V} (sl : slot V) : bool :=
  match slot_source sl with
  | Unconnected => false
  | Connected p => match p with Some _ => true | None => false end
  | Direct _ => true
  end.

(** Modelled from the spec: the [value] property of the engine's slot. A
    direct value is returned as it is; a connected slot asks its
    producer, which counts as one recomputation. *)
Definition value {V} (sl : slot V) : (V * slot V) + exn :=
  match slot_source sl with
  | Direct v => inl (v, sl)
  | Connected (Some v) => inl (v, Slot (slot_source sl) (S (recomputations sl)))
  | _ => inr NotReadyError
  end.

(** Modelled from the spec: [forceValue] of the classifier cache, a
    direct assignment that bypasses recomputation. *)
Definition forceValue {V} (v : V) (sl : slot V) : slot V :=
  Slot (Direct v) (recomputations sl).

(** The dictionary [_initDirtyFlags] installs. *)
Definition clean_flags : gmap Z bool :=
  <[Section_Labels := false]>
    (<[Section_Classifier := false]> (<[Section_Predictions := false]> ∅)).

Section WithExternals.

(** What an HDF5 object of the project file holds, the classifier
    objects of vigra, and the label data of the operator. *)
Variables Node Clf LabelData : Type.

(** Lines 79-98: the group 'LabelSets' that is created and then filled
    with the label blocks of the operator. When one of these lines
    raises, the group is in the file as far as it had been written
    ([None] when it is the creation of the group that raises). *)
Variable export_labels : LabelData -> Node + exn * option Node.
(** Lines 157-168: the 'LabelSets' group written into the label inputs.
    When one of these lines raises, the label inputs stay as far as they
    had been resized and assigned. *)
Variable import_labels : Node -> LabelData -> LabelData + exn * LabelData.
(** Lines 118-128: the classifier written by vigra to a temporary file,
    the group copied from there (line 124), and the temporary file
    removed. A line that raises before the copy is made leaves no group
    ([None]), a line that raises after it leaves the group that was
    copied. *)
Variable export_classifier : Clf -> Node + exn * option Node.
(** Lines 184-192: [vigra.learning.RandomForest] read from the group. *)
Variable import_classifier : Node -> Clf + exn.

Record state : Type := State {
  _dirtyFlags : gmap Z bool;
  (** the values passed to [progressSignal.emit], oldest first *)
  progressSignal : list Z;
  (** the HDF5 group of this applet in the project file *)
  topGroup : gmap string Node;
  (** [mainOperator.Classifier]; its value may be Python's [None] *)
  Classifier : slot (option Clf);
  (** [mainOperator.classifier_cache] *)
  classifier_cache : slot Clf;
  labels : LabelData
}.

Definition set_dirtyFlags (f : gmap Z bool) (s : state) : state :=
  State f (progressSignal s) (topGroup s) (Classifier s) (classifier_cache s) (labels s).
Definition set_topGroup (g : gmap string Node) (s : state) : state :=
  State (_dirtyFlags s) (progressSignal s) g (Classifier s) (classifier_cache s) (labels s).
Definition set_Classifier (c : slot (option Clf)) (s : state) : state :=
  State (_dirtyFlags s) (progressSignal s) (topGroup s) c (classifier_cache s) (labels s).
Definition set_classifier_cache (c : slot Clf) (s : state) : state :=
  State (_dirtyFlags s) (progressSignal s) (topGroup s) (Classifier s) c (labels s).
Definition set_labels (l : LabelData) (s : state) : state :=
  State (_dirtyFlags s) (progressSignal s) (topGroup s) (Classifier s) (classifier_cache s) l.

(** [self.progressSignal.emit(v)] *)
Definition emit (v : Z) : M state unit :=
  modify (fun s => State (_dirtyFlags s) (progressSignal s ++ [v]) (topGroup s)
                         (Classifier s) (classifier_cache s) (labels s)).

(** [self._dirtyFlags[section]] *)
Definition getFlag (section : Z) : M state bool :=
  s ← get;
  match _dirtyFlags s !! section with
  | Some b => mret b
  | None => raise KeyError
  end.

(** [self._dirtyFlags[section] = b] *)
Definition setFlag (section : Z) (b : bool) : M state unit :=
  modify (fun s => set_dirtyFlags (<[section := b]> (_dirtyFlags s)) s).

Definition _initDirtyFlags : M state unit :=
  modify (set_dirtyFlags clean_flags).

(** The closure [handleDirty] of [__init__], the dirty callback. *)
Definition handleDirty (section : Z) : M state unit :=
  setFlag section true.

(** [dict.values()] *)
Definition values (m : gmap Z bool) : list bool := (map_to_list m).*2.

(** [sum(...)] over booleans *)
Definition sum_bools (l : list bool) : Z :=
  fold_right (fun (b : bool) acc => (if b then 1 else 0) + acc) 0 l.

(** [any(...)] *)
Definition any (l : list bool) : bool := existsb (fun b => b) l.

(** [self.deleteIfPresent(topGroup, name)] is a method of the base class
    [AppletSerializer]; it is taken to remove the entry when there is
    one. *)
Definition _serializeLabels : M state unit :=
  (* Delete all labels from the file *)
  modify (fun s => set_topGroup (delete "LabelSets" (topGroup s)) s);;
  s ← get;
  match export_labels (labels s) with
  | inl labelSetDir =>
      modify (fun s => set_topGroup (<["LabelSets" := labelSetDir]> (topGroup s)) s);;
      setFlag Section_Labels false
  | inr (e, None) => raise e
  | inr (e, Some labelSetDir) =>
      (* the group was created before the loop that raised *)
      modify (fun s => set_topGroup (<["LabelSets" := labelSetDir]> (topGroup s)) s);;
      raise e
  end.

Definition _serializeClassifier : M state unit :=
  modify (fun s => set_topGroup (delete "Classifier" (topGroup s)) s);;
  setFlag Section_Classifier false;;
  s ← get;
  if negb (ready (Classifier s)) then mret tt
  else
    r ← try_ (value (Classifier s));
    modify (set_Classifier r.2);;
    match r.1 with
    | None =>
        (* Classifier can be None if there isn't any training data yet. *)
        mret tt
    | Some classifier =>
        match export_classifier classifier with
        | inl group =>
            modify (fun s => set_topGroup (<["Classifier" := group]> (topGroup s)) s)
        | inr (e, None) => raise e
        | inr (e, Some group) =>
            (* the copy was made before the line that raised *)
            modify (fun s => set_topGroup (<["Classifier" := group]> (topGroup s)) s);;
            raise e
        end
    end.

(** The local variable [increment] is bound only when [numSteps > 0]. *)
Definition use_increment (increment : option Z) : M state Z :=
  match increment with
  | Some i => mret i
  | None => raise UnboundLocalError
  end.

Definition _serializeToHdf5 : M state unit :=
  s ← get;
  let numSteps := sum_bools (values (_dirtyFlags s)) in
  let progress := 0 in
  let increment := if (0 <? numSteps)%Z then Some (100 / numSteps)%Z else None in
  labelsDirty ← getFlag Section_Labels;
  progress ← (if labelsDirty : bool then
                _serializeLabels;;
                i ← use_increment increment;
                emit (progress + i);;
                mret (progress + i)
              else mret progress);
  classifierDirty ← getFlag Section_Classifier;
  _ ← (if classifierDirty : bool then
         _serializeClassifier;;
         i ← use_increment increment;
         emit (progress + i);;
         mret (progress + i)
       else mret progress);
  (* Clear the dirty flags (project file is now in sync with the operator) *)
  _initDirtyFlags.

Definition _deserializeLabels (topGroup : gmap string Node) : M state unit :=
  match topGroup !! "LabelSets" with
  | None => raise KeyError
  | Some labelSetGroup =>
      s ← get;
      match import_labels labelSetGroup (labels s) with
      | inl l =>
          modify (set_labels l);;
          setFlag Section_Labels false
      | inr (e, l) =>
          (* the label inputs as they were when the loop raised *)
          modify (set_labels l);;
          raise e
      end
  end.

Definition _deserializeClassifier (topGroup : option (gmap string Node)) : M state unit :=
  match topGroup with
  | None => mret tt
  | Some topGroup =>
      match topGroup !! "Classifier" with
      | None => mret tt
      | Some classifierGroup =>
          classifier ← try_ (import_classifier classifierGroup);
          (* Now force the classifier into our classifier cache. *)
          modify (fun s => set_classifier_cache (forceValue classifier (classifier_cache s)) s)
      end;;
      setFlag Section_Classifier false
  end.

Definition _deserializeFromHdf5 (topGroup : option (gmap string Node)) : M state unit :=
  match topGroup with
  | None => mret tt
  | Some g =>
      emit 0;;
      _deserializeLabels g;;
      emit 50;;
      _deserializeClassifier topGroup;;
      emit 100
  end.

(** Return true if the current state of this item (in memory) does not
    match the state of the HDF5 group on disk. *)
Definition isDirty (s : state) : bool := any (values (_dirtyFlags s)).

End WithExternals.

Arguments State {Node Clf LabelData} _ _ _ _ _ _.
Arguments _dirtyFlags {Node Clf LabelData} _.
Arguments progressSignal {Node Clf LabelData} _.
Arguments topGroup {Node Clf LabelData} _.
Arguments Classifier {Node Clf LabelData} _.
Arguments classifier_cache {Node Clf LabelData} _.
Arguments labels {Node Clf LabelData} _.
Arguments set_dirtyFlags {Node Clf LabelData} _ _.
Arguments set_topGroup {Node Clf LabelData} _ _.
Arguments set_Classifier {Node Clf LabelData} _ _.
Arguments set_classifier_cache {Node Clf LabelData} _ _.
Arguments set_labels {Node Clf LabelData} _ _.
Arguments emit {Node Clf LabelData} _ _.
Arguments getFlag {Node Clf LabelData} _ _.
Arguments setFlag {Node Clf LabelData} _ _ _.
Arguments _initDirtyFlags {Node Clf LabelData} _.
Arguments handleDirty {Node Clf LabelData} _ _.
Arguments use_increment {Node Clf LabelData} _ _.
Arguments _serializeLabels {Node Clf LabelData} _ _.
Arguments _serializeClassifier {Node Clf LabelData} _ _.
Arguments _serializeToHdf5 {Node Clf LabelData} _ _ _.
Arguments _deserializeLabels {Node Clf LabelData} _ _ _.
Arguments _deserializeClassifier {Node Clf LabelData} _ _ _.
Arguments _deserializeFromHdf5 {Node Clf LabelData} _ _ _ _.
Arguments isDirty {Node Clf LabelData} _.

(** A serializer over a project file that holds unit values; its labels
    and its classifier have been marked dirty. *)
Definition example_state : state unit unit unit :=
  State (<[Section_Labels := true]> (<[Section_Classifier := true]> clean_flags))
        [] ∅ (Slot (Direct (Some tt)) 0) (Slot (Connected None) 0) tt.

(** The project file it writes. *)
Definition example_file : gmap string unit :=
  <["Classifier" := tt]> (<["LabelSets" := tt]> ∅).

End Serializer.

(** ** numpy arrays *)

Module Numpy.

(** An n-dimensional array: its shape and its elements in row-major
    (C) order. *)
Record ndarray (A : Type) : Type := NdArray { shape : list Z; data : list A }.
Arguments NdArray {A} _ _.
Arguments shape {A} _.
Arguments data {A} _.

(** The number of elements of an array of the given shape. *)
Definition size_of (shape : list Z) : Z := fold_right Z.mul 1%Z shape.

Definition wf {A} (a : ndarray A) : Prop :=
  Z.of_nat (length (data a)) = size_of (shape a).

(** A scalar or an array, as an argument of [numpy.where]. *)
Inductive operand : Type :=
| Scalar (v : Z)
| Array (a : ndarray Z).

Definition shapes_eqb (s1 s2 : list Z) : bool :=
  bool_decide (s1 = s2).

(** [result[:] = v] for a scalar [v] *)
Definition fill (result : ndarray Z) (v : Z) : ndarray Z :=
  NdArray (shape result) (map (fun _ => v) (data result)).

(** [result[:] = a] for an array [a]: the shapes have to agree
    (broadcasting between different shapes is not modelled, it is a
    [ValueError] here). *)
Definition assign (result a : ndarray Z) : option (ndarray Z) :=
  if shapes_eqb (shape a) (shape result)
  then Some (NdArray (shape result) (data a))
  else None.

(** [a == v] for a scalar [v], elementwise *)
Definition eq_scalar (a : ndarray Z) (v : Z) : ndarray bool :=
  NdArray (shape a) (map (fun x => Z.eqb x v) (data a)).

(** The elements of an operand seen at the shape of the condition. *)
Definition elements_as (cond : ndarray bool) (x : operand) : option (list Z) :=
  match x with
  | Scalar v => Some (map (fun _ => v) (data cond))
  | Array a => if shapes_eqb (shape a) (shape cond) then Some (data a) else None
  end.

Fixpoint select (cond : list bool) (xs ys : list Z) : list Z :=
  match cond, xs, ys with
  | c :: cond', x :: xs', y :: ys' => (if c then x else y) :: select cond' xs' ys'
  | _, _, _ => []
  end.

(** [numpy.where(cond, x, y)] *)
Definition where_ (cond : ndarray bool) (x y : operand) : option (ndarray Z) :=
  match elements_as cond x, elements_as cond y with
  | Some xs, Some ys => Some (NdArray (shape cond) (select (data cond) xs ys))
  | _, _ => None
  end.

(** The offset of an index in the row-major order; [None] outside of the
    shape (only non-negative indices are modelled). *)
Fixpoint offset (shape idx : list Z) : option Z :=
  match shape, idx with
  | [], [] => Some 0%Z
  | n :: ns, i :: idx' =>
      if (0 <=? i)%Z && (i <? n)%Z
      then option_map (fun o => (i * size_of ns + o)%Z) (offset ns idx')
      else None
  | _, _ => None
  end.

(** [a[idx]] for a full index tuple *)
Definition getitem {A} (a : ndarray A) (idx : list Z) : option A :=
  match offset (shape a) idx with
  | Some o => data a !! Z.to_nat o
  | None => None
  end.

End Numpy.

(** ** The parts of the lazyflow engine the operators call *)

Module Lazyflow.
Import Numpy.

(** A region of interest, [roi.start] and [roi.stop]. *)
Record Roi : Type := mkRoi { roi_start : list Z; roi_stop : list Z }.

(** [stop - start], elementwise *)
Definition extent (start stop : list Z) : list Z :=
  zip_with Z.sub stop start.

(** Modelled from the spec: a ROI is valid when it has a stop that is at
    least the start on every axis. *)
Definition valid_roi (start stop : list Z) : Prop :=
  Forall2 Z.le start stop.

(** [p] lies in the box from [start] to [stop]. *)
Inductive in_box : list Z -> list Z -> list Z -> Prop :=
| in_box_nil : in_box [] [] []
| in_box_cons s e x start stop p :
    (s <= x < e)%Z -> in_box start stop p ->
    in_box (s :: start) (e :: stop) (x :: p).

Definition zrange (s e : Z) : list Z :=
  map (fun i => (s + Z.of_nat i)%Z) (seq 0 (Z.to_nat (e - s))).

(** The coordinates of a box in row-major order. *)
Fixpoint coords (start stop : list Z) : list (list Z) :=
  match start, stop with
  | s :: start', e :: stop' =>
      flat_map (fun x => map (cons x) (coords start' stop')) (zrange s e)
  | _, _ => [[]]
  end.

(** The data behind a slot: the value at every coordinate. *)
Definition volume : Type := list Z -> Z.

(** Modelled from the spec: [slot(start, stop).wait()], the data of the
    slot over the region, in an array of the region's extent. *)
Definition request (v : volume) (start stop : list Z) : ndarray Z :=
  NdArray (extent start stop) (map v (coords start stop)).

(** Modelled from the spec: [slot(start, stop).writeInto(result).wait()]
    fills the given destination with the data of the slot over the
    region and returns it. The destination is pre-allocated with the
    region's extent; for a destination of another shape neither the
    spec nor the sources say what happens, and the model has no array
    for it ([None]). The properties below are about destinations of
    the region's extent. *)
Definition writeInto (v : volume) (start stop : list Z) (result : ndarray Z)
  : option (ndarray Z) :=
  if shapes_eqb (shape result) (extent start stop)
  then Some (NdArray (shape result) (map v (coords start stop)))
  else None.

(** Modelled from the spec: the destination the engine allocates for a
    request, of the region's extent; what it holds before [execute]
    fills it is arbitrary ([junk]). *)
Definition allocate (start stop : list Z) (junk : Z) : ndarray Z :=
  NdArray (extent start stop)
          (map (fun _ => junk) (coords start stop)).

(** Modelled from the spec: a dirty region is a bounded box or the
    unbounded marker, which means the entire volume. *)
Inductive region : Type :=
| EntireDomain
| Box (start stop : list Z).

(** The three ways the sources call [setDirty]; the roi a dirty callback
    receives, and may pass on, is a region. *)
Inductive dirty_args : Type :=
| start_stop (start stop : list Z)   (* setDirty( roi.start, roi.stop ) *)
| slice_None                         (* setDirty( slice(None) ) *)
| roi_object (roi : region).         (* setDirty( roi ) *)

Definition region_of (a : dirty_args) : region :=
  match a with
  | start_stop b e => Box b e
  | slice_None => EntireDomain
  | roi_object r => r
  end.

Definition region_of_roi (r : Roi) : region := Box (roi_start r) (roi_stop r).

(** [outer] contains [inner]. *)
Definition contains (outer inner : region) : Prop :=
  match outer, inner with
  | EntireDomain, _ => True
  | Box _ _, EntireDomain => False
  | Box b e, Box b' e' => Forall2 Z.le b b' /\ Forall2 Z.le e' e
  end.

(** The metadata of a slot. *)
Record MetaDict : Type := mkMeta {
  meta_shape : option (list Z);
  meta_dtype : option string;
  meta_axistags : option string
}.

(** [meta.assignFrom(other)] *)
Definition assignFrom (self other : MetaDict) : MetaDict := other.

End Lazyflow.

(** ** opSplitBodyCarving.py: OpHighlightLabel *)

Module OpHighlightLabel.
Import Eff Numpy Lazyflow.

Inductive Slot : Type :=
| Input
| HighlightLabel
| Output
| OtherSlot (name : string).

#[global] Instance Slot_eq_dec : EqDecision Slot.
Proof. solve_decision. Defined.

(** What the input slots deliver. *)
Record inputs : Type := Inputs {
  Input_data : volume;
  Input_meta : MetaDict;
  HighlightLabel_value : Z
}.

Record state : Type := State {
  Output_meta : MetaDict;
  (** the calls of [self.Output.setDirty], oldest first *)
  Output_setDirty : list dirty_args
}.

Definition setDirty_Output (a : dirty_args) : M state unit :=
  modify (fun s => State (Output_meta s) (Output_setDirty s ++ [a])).

Definition setupOutputs (i : inputs) : M state unit :=
  modify (fun s => State (assignFrom (Output_meta s) (Input_meta i)) (Output_setDirty s)).

Definition numpy_call {A} (r : option A) : A + exn :=
  match r with Some a => inl a | None => inr ValueError end.

(** For a destination that does not have the roi's extent, which the
    engine does not hand out, the model stops where the source calls
    [writeInto]; see there. *)
Definition execute (i : inputs) (slot : Slot) (roi : Roi) (result : ndarray Z)
  : ndarray Z + exn :=
  if negb (bool_decide (slot = Output)) then inr AssertionError
  else if (HighlightLabel_value i =? 0)%Z then
    inl (fill result 0)
  else
    match writeInto (Input_data i) (roi_start roi) (roi_stop roi) result with
    | None => inr ValueError
    | Some result =>
        match where_ (eq_scalar result (HighlightLabel_value i)) (Scalar 1) (Scalar 0) with
        | None => inr ValueError
        | Some w => numpy_call (assign result w)
        end
    end.

Definition propagateDirty (slot : Slot) (roi : Roi) : M state unit :=
  if bool_decide (slot = Input) then
    setDirty_Output (start_stop (roi_start roi) (roi_stop roi))
  else if bool_decide (slot = HighlightLabel) then
    setDirty_Output slice_None
  else raise AssertionError.

(** Modelled from the spec: a read of the output slot; the engine
    allocates the destination and hands it to [execute]. *)
Definition call_Output (i : inputs) (start stop : list Z) (junk : Z)
  : ndarray Z + exn :=
  execute i Output (mkRoi start stop) (allocate start stop junk).

End OpHighlightLabel.

(** ** opSplitBodyCarving.py: OpSplitBodyCarving *)

Module OpSplitBodyCarving.
Import Eff Numpy Lazyflow.

Inductive Slot : Type :=
| RavelerLabels
| CurrentRavelerLabel
| HighlightedRavelerObject
| MaskedSegmentation
| Segmentation
| Inherited (name : string).

#[global] Instance Slot_eq_dec : EqDecision Slot.
Proof. solve_decision. Defined.

(** A function registered with [notifyDirty]: a closure made by
    [setupOutputs] (every call makes a new function object), or a
    subscriber outside of this operator. *)
Inductive callback : Type :=
| handleDirtySegmentation (closure : nat)
| subscriber (id : nat).

Record inputs : Type := Inputs {
  RavelerLabels_data : volume;
  RavelerLabels_meta : MetaDict;
  CurrentRavelerLabel_value : Z
}.

(** The connections made by [__init__]. *)
Definition _opHighlighter_inputs (i : inputs) : OpHighlightLabel.inputs :=
  OpHighlightLabel.Inputs (RavelerLabels_data i) (RavelerLabels_meta i)
                          (CurrentRavelerLabel_value i).

Section WithOpCarving.

(** The base class [OpCarving] is not part of the reviewed sources: its
    state and its three methods are parameters, and so is what its
    output slot [Segmentation] delivers. *)
Variable Base : Type.
Variable Segmentation_meta : Base -> MetaDict.
Variable Segmentation_data : Base -> volume.
Variable OpCarving_setupOutputs : Base -> Base + exn.
Variable OpCarving_execute : Slot -> Roi -> ndarray Z -> Base -> ndarray Z + exn.
(** [OpCarving.propagateDirty] yields the calls of [setDirty] it makes
    on [Segmentation]. *)
Variable OpCarving_propagateDirty : Slot -> Roi -> Base -> (Base * list dirty_args) + exn.

Record state : Type := State {
  base : Base;
  (** the functions registered with [Segmentation.notifyDirty], oldest first *)
  Segmentation_callbacks : list callback;
  MaskedSegmentation_meta : MetaDict;
  (** the calls of [self.MaskedSegmentation.setDirty], oldest first *)
  MaskedSegmentation_setDirty : list dirty_args;
  (** the calls received by the subscribers outside of this operator *)
  delivered : list (nat * region);
  (** the number of closures made so far *)
  closures : nat
}.

Definition set_base (b : Base) (s : state) : state :=
  State b (Segmentation_callbacks s) (MaskedSegmentation_meta s)
        (MaskedSegmentation_setDirty s) (delivered s) (closures s).

Definition setDirty_MaskedSegmentation (a : dirty_args) : M state unit :=
  modify (fun s => State (base s) (Segmentation_callbacks s) (MaskedSegmentation_meta s)
                         (MaskedSegmentation_setDirty s ++ [a]) (delivered s) (closures s)).

(** Calling a registered function with [(slot, roi)]. *)
Definition invoke (cb : callback) (roi : region) : M state unit :=
  match cb with
  | handleDirtySegmentation _ => setDirty_MaskedSegmentation (roi_object roi)
  | subscriber id =>
      modify (fun s => State (base s) (Segmentation_callbacks s) (MaskedSegmentation_meta s)
                             (MaskedSegmentation_setDirty s) (delivered s ++ [(id, roi)])
                             (closures s))
  end.

Fixpoint invoke_all (cbs : list callback) (roi : region) : M state unit :=
  match cbs with
  | [] => mret tt
  | cb :: rest => invoke cb roi;; invoke_all rest roi
  end.

(** Modelled from the spec: [Segmentation.setDirty]; all the registered
    functions are called, each one synchronously. *)
Definition setDirty_Segmentation (a : dirty_args) : M state unit :=
  s ← get;
  invoke_all (Segmentation_callbacks s) (region_of a).

(** Modelled from the spec: [Segmentation.notifyDirty(f)] *)
Definition notifyDirty_Segmentation (f : callback) : M state unit :=
  modify (fun s => State (base s) (Segmentation_callbacks s ++ [f]) (MaskedSegmentation_meta s)
                         (MaskedSegmentation_setDirty s) (delivered s) (closures s)).

(** [def handleDirtySegmentation(slot, roi): ...] makes a function object. *)
Definition make_handleDirtySegmentation : M state callback :=
  s ← get;
  modify (fun s => State (base s) (Segmentation_callbacks s) (MaskedSegmentation_meta s)
                         (MaskedSegmentation_setDirty s) (delivered s) (S (closures s)));;
  mret (handleDirtySegmentation (closures s)).

Definition setupOutputs : M state unit :=
  s ← get;
  b ← try_ (OpCarving_setupOutputs (base s));
  modify (set_base b);;
  modify (fun s => State (base s) (Segmentation_callbacks s)
                         (assignFrom (MaskedSegmentation_meta s) (Segmentation_meta (base s)))
                         (MaskedSegmentation_setDirty s) (delivered s) (closures s));;
  f ← make_handleDirtySegmentation;
  notifyDirty_Segmentation f.

(** The statements that follow the two [return]s in the source are
    never reached. As in [OpHighlightLabel.execute], the model stops at
    [writeInto] for a destination that does not have the roi's extent. *)
Definition execute (i : inputs) (slot : Slot) (roi : Roi) (result : ndarray Z) (s : state)
  : ndarray Z + exn :=
  if bool_decide (slot = MaskedSegmentation) then
    let ravelerLabels := request (RavelerLabels_data i) (roi_start roi) (roi_stop roi) in
    match writeInto (Segmentation_data (base s)) (roi_start roi) (roi_stop roi) result with
    | None => inr ValueError
    | Some result =>
        match where_ (eq_scalar ravelerLabels (CurrentRavelerLabel_value i))
                     (Array result) (Scalar 0) with
        | None => inr ValueError
        | Some w => OpHighlightLabel.numpy_call (assign result w)
        end
    end
  else OpCarving_execute slot roi result (base s).

Fixpoint setDirty_Segmentation_each (l : list dirty_args) : M state unit :=
  match l with
  | [] => mret tt
  | a :: rest => setDirty_Segmentation a;; setDirty_Segmentation_each rest
  end.

Definition propagateDirty (slot : Slot) (roi : Roi) : M state unit :=
  if bool_decide (slot = RavelerLabels) then
    setDirty_MaskedSegmentation (start_stop (roi_start roi) (roi_stop roi))
  else if bool_decide (slot = CurrentRavelerLabel) then
    setDirty_MaskedSegmentation slice_None
  else
    s ← get;
    r ← try_ (OpCarving_propagateDirty slot roi (base s));
    modify (set_base r.1);;
    setDirty_Segmentation_each r.2.

(** Modelled from the spec: a read of an output slot. A slot connected
    to the output of another operator ([HighlightedRavelerObject], by
    [__init__]) is served by that operator; for the others the engine
    allocates the destination and hands it to [execute]. *)
Definition call (i : inputs) (slot : Slot) (start stop : list Z) (junk : Z) (s : state)
  : ndarray Z + exn :=
  if bool_decide (slot = HighlightedRavelerObject) then
    OpHighlightLabel.call_Output (_opHighlighter_inputs i) start stop junk
  else execute i slot (mkRoi start stop) (allocate start stop junk) s.

End WithOpCarving.

(** An operator over a base class that holds no state, with nothing
    registered yet. *)
Definition example_state : state unit :=
  State unit tt [] (mkMeta None None None) [] [] 0.

(** Labels that are the sum of the two coordinates, the current label
    is 2. *)
Definition example_inputs : inputs :=
  Inputs (fun p => match p with [x; y] => (x + y)%Z | _ => 0%Z end)
         (mkMeta (Some [4; 4]) None None) 2.

Arguments State {Base}.
Arguments base {Base}.
Arguments Segmentation_callbacks {Base}.
Arguments MaskedSegmentation_meta {Base}.
Arguments MaskedSegmentation_setDirty {Base}.
Arguments delivered {Base}.
Arguments closures {Base}.
Arguments set_base {Base}.
Arguments setDirty_MaskedSegmentation {Base}.
Arguments invoke {Base}.
Arguments invoke_all {Base}.
Arguments setDirty_Segmentation {Base}.
Arguments notifyDirty_Segmentation {Base}.
Arguments make_handleDirtySegmentation {Base}.
Arguments setupOutputs {Base}.
Arguments execute {Base}.
Arguments setDirty_Segmentation_each {Base}.
Arguments propagateDirty {Base}.
Arguments call {Base}.

(** The functions among the registered ones that are closures of
    [setupOutputs], and the subscribers outside of the operator. *)
Definition handlers (cbs : list callback) : list nat :=
  omap (fun cb => match cb with handleDirtySegmentation c => Some c | _ => None end) cbs.

Definition subscribers (cbs : list callback) : list nat :=
  omap (fun cb => match cb with subscriber i => Some i | _ => None end) cbs.

End OpSplitBodyCarving.

(** ** multicutGui.py: MulticutGuiMixin *)

Module MulticutGui.
Import Eff.

(** The two handlers that [createDrawerControls] connects: the Qt
    signals of the widgets call [configure_operator_from_gui], the dirty
    notifications of the operator slots call
    [configure_gui_from_operator]. *)
Inductive handler : Type :=
| gui_from_operator
| operator_from_gui.

Section WithSolvers.

(** The values of the [Beta] slot and of the spin box, and the value the
    spin box keeps when it is given one (two decimals, between 0.01 and
    0.99). *)
Variable float : Type.
Context `{EqDecision float}.
Variable spinbox_value : float -> float.

(** [opMulticut.AVAILABLE_SOLVER_NAMES] and [opMulticut.DEFAULT_SOLVER_NAME],
    which are not part of the reviewed sources. *)
Variable AVAILABLE_SOLVER_NAMES : list string.
Variable DEFAULT_SOLVER_NAME : string.

(** The attribute [_currently_updating] is read before the file ever
    assigns it; it is taken to exist from the start. *)
Record state : Type := State {
  _currently_updating : bool;
  (** [self.beta_box.value()] *)
  beta_box : float;
  (** [self.solver_name_combo.currentIndex()], -1 when there is none *)
  solver_name_combo : Z;
  (** [op.Beta.value] *)
  Beta : float;
  (** [op.SolverName.value] *)
  SolverName : string
}.

Definition set_currently_updating (b : bool) : M state unit :=
  modify (fun s => State b (beta_box s) (solver_name_combo s) (Beta s) (SolverName s)).

(** [list.index(x)]; [None] stands for [ValueError]. *)
Fixpoint index (l : list string) (x : string) : option Z :=
  match l with
  | [] => None
  | y :: rest =>
      if bool_decide (y = x) then Some 0%Z
      else option_map Z.succ (index rest x)
  end.

(** [QComboBox.currentText()]: the item at the current index, the empty
    string when there is no current item. *)
Definition currentText (i : Z) : string :=
  if (i <? 0)%Z then ""
  else match AVAILABLE_SOLVER_NAMES !! Z.to_nat i with
       | Some name => name
       | None => ""
       end.

Section Handlers.

(** What runs a connected handler, for a Qt signal or a dirty
    notification; the value the handler returns is dropped. *)
Variable signal : handler -> M state unit.

(** [QDoubleSpinBox.setValue]: [valueChanged] is emitted when the value
    of the box changes. *)
Definition beta_box_setValue (v : float) : M state unit :=
  s ← get;
  let v' := spinbox_value v in
  if bool_decide (v' = beta_box s) then mret tt
  else
    modify (fun s => State (_currently_updating s) v' (solver_name_combo s) (Beta s) (SolverName s));;
    signal operator_from_gui.

(** [QComboBox.setCurrentIndex]: an index that is out of range selects
    no item; [currentIndexChanged] is emitted when the index changes. *)
Definition solver_name_combo_setCurrentIndex (i : Z) : M state unit :=
  s ← get;
  let i' := if (0 <=? i)%Z && (i <? Z.of_nat (length AVAILABLE_SOLVER_NAMES))%Z
            then i else (-1)%Z in
  if (i' =? solver_name_combo s)%Z then mret tt
  else
    modify (fun s => State (_currently_updating s) (beta_box s) i' (Beta s) (SolverName s));;
    signal operator_from_gui.

(** Modelled from the spec: [Slot.setValue] assigns the value, marks
    the slot dirty and notifies the subscribers. *)
Definition Beta_setValue (v : float) : M state unit :=
  modify (fun s => State (_currently_updating s) (beta_box s) (solver_name_combo s) v (SolverName s));;
  signal gui_from_operator.

Definition SolverName_setValue (v : string) : M state unit :=
  modify (fun s => State (_currently_updating s) (beta_box s) (solver_name_combo s) (Beta s) v);;
  signal gui_from_operator.

(** [with self.set_updating(): body]. The context manager has no
    try/finally: when the body raises, the line after [yield] is not
    run. *)
Definition set_updating (body : M state unit) : M state unit :=
  s ← get;
  if _currently_updating s then raise AssertionError
  else
    set_currently_updating true;;
    body;;
    set_currently_updating false.

(** The value returned: [Some false] for [return False], [None] for the
    end of the function. *)
Definition configure_gui_from_operator : M state (option bool) :=
  s ← get;
  if _currently_updating s then mret (Some false)
  else
    set_updating (
      s ← get;
      beta_box_setValue (Beta s);;
      s ← get;
      let solver_name := SolverName s in
      solver_index ←
        match index AVAILABLE_SOLVER_NAMES solver_name with
        | Some i => mret i
        | None =>
            (* Override the solver name with the default. *)
            match index AVAILABLE_SOLVER_NAMES DEFAULT_SOLVER_NAME with
            | None => raise ValueError
            | Some i => SolverName_setValue DEFAULT_SOLVER_NAME;; mret i
            end
        end;
      solver_name_combo_setCurrentIndex solver_index);;
    mret None.

Definition configure_operator_from_gui : M state (option bool) :=
  s ← get;
  if _currently_updating s then mret (Some false)
  else
    set_updating (
      s ← get;
      Beta_setValue (beta_box s);;
      s ← get;
      SolverName_setValue (currentText (solver_name_combo s)));;
    mret None.

End Handlers.

(** Running a handler; the calls it causes in turn are nested in it.
    [depth] is the room left on the call stack of the interpreter, which
    raises when it is used up. *)
Fixpoint run (depth : nat) (h : handler) : M state (option bool) :=
  match depth with
  | O => raise RecursionError
  | S d =>
      let signal h' := (run d h';; mret tt) in
      match h with
      | gui_from_operator => configure_gui_from_operator signal
      | operator_from_gui => configure_operator_from_gui signal
      end
  end.

End WithSolvers.

Arguments State {float}.
Arguments _currently_updating {float}.
Arguments beta_box {float}.
Arguments solver_name_combo {float}.
Arguments Beta {float}.
Arguments SolverName {float}.
Arguments set_currently_updating {float}.
Arguments beta_box_setValue {float EqDecision0}.
Arguments solver_name_combo_setCurrentIndex {float}.
Arguments Beta_setValue {float}.
Arguments SolverName_setValue {float}.
Arguments set_updating {float}.
Arguments configure_gui_from_operator {float EqDecision0}.
Arguments configure_operator_from_gui {float}.
Arguments run {float EqDecision0}.

End MulticutGui.

(** ** The dictionary of the dirty flags, by its three entries *)

Module SerializerFlags.
Import Serializer.

Definition flags_of (a b c : bool) : gmap Z bool :=
  <[Section_Labels := a]>
    (<[Section_Classifier := b]> (<[Section_Predictions := c]> ∅)).

End SerializerFlags.

(** ** pixelClassificationSerializer.py: the label sets in the file *)

Module LabelFile.
Import Eff.

(** ['0' * n] *)
Fixpoint zeros (n : nat) : string :=
  match n with
  | O => EmptyString
  | S n' => String "0" (zeros n')
  end.

(** ['{:0<width>d}'.format(n)] for an index [n]: the decimal digits,
    padded with zeros on the left up to the width. *)
Definition format_d (width n : nat) : string :=
  let digits := Py.str (Py.Int (Z.of_nat n)) in
  (zeros (width - String.length digits) ++ digits)%string.

(** ['labels{:03d}'.format(imageIndex)] and ['block{:04d}'.format(blockIndex)] *)
Definition labelGroupName (imageIndex : nat) : string :=
  ("labels" ++ format_d 3 imageIndex)%string.
Definition blockName (blockIndex : nat) : string :=
  ("block" ++ format_d 4 blockIndex)%string.

(** [attrs[key]] *)
Fixpoint attr (key : string) (attrs : list (string * string)) : option string :=
  match attrs with
  | [] => None
  | (k, v) :: rest => if bool_decide (k = key) then Some v else attr key rest
  end.

Section WithData.

(** The arrays of label data. *)
Variable B : Type.

(** [len(dataset)] for the data of a dataset: the size of the first
    axis, [None] ([TypeError]) for a scalar. *)
Variable dataset_len : B -> option nat.

(** An HDF5 object: a group with its members, in the order they were
    created, or a dataset with its data and its attributes. *)
Inductive node : Type :=
| Group (members : list (string * node))
| Dataset (data : B) (attrs : list (string * string)).

(** [sorted(group.items())] compares the names, which are different
    from one another within a group; h5py also lists the members of a
    group ([group.values()]) by name. *)
Definition key_le (p q : string * node) : Prop := String.le p.1 q.1.

#[global] Instance key_le_dec : RelDecision key_le.
Proof. intros p q. unfold key_le. apply _. Defined.

Definition sorted_items (members : list (string * node)) : list (string * node) :=
  merge_sort key_le members.

(** [group.create_group(name)] and [group.create_dataset(name, ...)]:
    h5py raises [ValueError] when the name is taken. *)
Definition name_free (name : string) (members : list (string * node)) : bool :=
  negb (bool_decide (name ∈ map fst members)).

(** The slots of the operator the labels are read from
    ([NonzeroLabelBlocks], one list of slicings per image, and
    [LabelImages]) and written to ([LabelInputs], per image the
    assignments [LabelInputs[index][slicing] = data] made so far). *)
Record slots : Type := Slots {
  NonzeroLabelBlocks : list (list (list Py.slice));
  LabelImages : nat -> list Py.slice -> B;
  LabelInputs : list (list (list Py.slice * B))
}.

(** The inner loop of [_serializeLabels], from [blockIndex] on. When a
    line raises, the group stays as it is by then. *)
Fixpoint write_blocks (read : list Py.slice -> B) (blockIndex : nat)
    (nonZeroBlocks : list (list Py.slice)) (labelGroup : list (string * node))
  : list (string * node) + exn * list (string * node) :=
  match nonZeroBlocks with
  | [] => inl labelGroup
  | slicing :: rest =>
      (* Read the block from the label output *)
      let block := read slicing in
      (* Store the block as a new dataset *)
      if name_free (blockName blockIndex) labelGroup then
        (* Add the slice this block came from as an attribute of the dataset *)
        let dataset := Dataset block [("blockSlice"%string, Slicing.slicingToString slicing)] in
        write_blocks read (S blockIndex) rest
          (labelGroup ++ [(blockName blockIndex, dataset)])%list
      else inr (ValueError, labelGroup)
  end.

(** The outer loop of [_serializeLabels], from [imageIndex] on. The
    group of an image is created before its blocks are written. *)
Fixpoint write_images (read : nat -> list Py.slice -> B) (imageIndex : nat)
    (images : list (list (list Py.slice))) (labelSetDir : list (string * node))
  : list (string * node) + exn * list (string * node) :=
  match images with
  | [] => inl labelSetDir
  | nonZeroBlocks :: rest =>
      (* Create a group for this image *)
      if name_free (labelGroupName imageIndex) labelSetDir then
        match write_blocks (read imageIndex) 0 nonZeroBlocks [] with
        | inl labelGroup =>
            write_images read (S imageIndex) rest
              (labelSetDir ++ [(labelGroupName imageIndex, Group labelGroup)])%list
        | inr (e, labelGroup) =>
            inr (e, (labelSetDir ++ [(labelGroupName imageIndex, Group labelGroup)])%list)
        end
      else inr (ValueError, labelSetDir)
  end.

(** Lines 79-98 of [_serializeLabels]: the group 'LabelSets'. *)
Definition export_labels (l : slots) : node + exn * option node :=
  match write_images (LabelImages l) 0 (NonzeroLabelBlocks l) [] with
  | inl labelSetDir => inl (Group labelSetDir)
  | inr (e, labelSetDir) => inr (e, Some (Group labelSetDir))
  end.

(** [slot.resize(n)] *)
Definition resize (n : nat) (inputs : list (list (list Py.slice * B)))
  : list (list (list Py.slice * B)) :=
  (take n inputs ++ replicate (n - length inputs) [])%list.

(** [self.stringToSlicing( blockData.attrs['blockSlice'] )] and
    [blockData[...]]; a slicing that does not parse is a [ValueError]
    (or an [IndexError], which is not told apart here). *)
Definition read_block (blockData : node) : (list Py.slice * B) + exn :=
  match blockData with
  | Dataset data attrs =>
      match attr "blockSlice" attrs with
      | None => inr KeyError
      | Some text =>
          match Slicing.stringToSlicing text with
          | Some slicing => inl (slicing, data)
          | None => inr ValueError
          end
      end
  | Group _ => inr KeyError
  end.

(** The inner loop of [_deserializeLabels]. When a line raises, the
    assignments made by then stay. *)
Fixpoint assign_blocks (index : nat) (blocks : list node)
    (inputs : list (list (list Py.slice * B)))
  : list (list (list Py.slice * B)) + exn * list (list (list Py.slice * B)) :=
  match blocks with
  | [] => inl inputs
  | blockData :: rest =>
      match read_block blockData with
      | inl assignment =>
          match inputs !! index with
          | Some made =>
              (* Slice in this data to the label input *)
              assign_blocks index rest (<[index := (made ++ [assignment])%list]> inputs)
          | None => inr (IndexError, inputs)
          end
      | inr e => inr (e, inputs)
      end
  end.

(** The outer loop of [_deserializeLabels], from [index] on. *)
Fixpoint assign_images (index : nat) (groups : list (string * node))
    (inputs : list (list (list Py.slice * B)))
  : list (list (list Py.slice * B)) + exn * list (list (list Py.slice * B)) :=
  match groups with
  | [] => inl inputs
  | (groupName, labelGroup) :: rest =>
      match labelGroup with
      | Group members =>
          match assign_blocks index (map snd (sorted_items members)) inputs with
          | inl inputs' => assign_images (S index) rest inputs'
          | inr failure => inr failure
          end
      | Dataset _ _ =>
          (* [labelGroup.values()] on a dataset *)
          inr (ExternalError "AttributeError", inputs)
      end
  end.

(** Lines 158-168 of [_deserializeLabels], for the object found under
    'LabelSets'. The label inputs are resized before the loop: when the
    loop raises, they stay resized, with the assignments made by then. *)
Definition import_labels (labelSetGroup : node) (l : slots) : slots + exn * slots :=
  match labelSetGroup with
  | Group members =>
      let numImages := length members in
      let inputs := resize numImages (LabelInputs l) in
      match assign_images 0 (sorted_items members) inputs with
      | inl inputs' => inl (Slots (NonzeroLabelBlocks l) (LabelImages l) inputs')
      | inr (e, inputs') =>
          inr (e, Slots (NonzeroLabelBlocks l) (LabelImages l) inputs')
      end
  | Dataset data _ =>
      match dataset_len data with
      | None => inr (ExternalError "TypeError", l)
      | Some numImages =>
          (* [labelSetGroup.items()] on a dataset *)
          inr (ExternalError "AttributeError",
               Slots (NonzeroLabelBlocks l) (LabelImages l)
                     (resize numImages (LabelInputs l)))
      end
  end.

End WithData.

Arguments Group {B} _.
Arguments Dataset {B} _ _.
Arguments Slots {B} _ _ _.
Arguments NonzeroLabelBlocks {B} _.
Arguments LabelImages {B} _.
Arguments LabelInputs {B} _.
Arguments key_le {B} _ _.
Arguments sorted_items {B} _.
Arguments name_free {B} _ _.
Arguments write_blocks {B} _ _ _ _.
Arguments write_images {B} _ _ _ _.
Arguments export_labels {B} _.
Arguments resize {B} _ _.
Arguments read_block {B} _.
Arguments assign_blocks {B} _ _ _.
Arguments assign_images {B} _ _ _.
Arguments import_labels {B} _ _ _.

End LabelFile.

(** ** pixelClassificationSerializer.py: Ilastik05ImportDeserializer *)

Module Ilastik05Import.
Import Eff.

(** [sorted(group.items())], by the names of the members. *)
Definition name_le {A : Type} (p q : string * A) : Prop := String.le p.1 q.1.

#[global] Instance name_le_dec {A : Type} : RelDecision (@name_le A).
Proof. intros p q. unfold name_le. apply _. Defined.

Definition sorted_by_name {A : Type} (items : list (string * A)) : list (string * A) :=
  merge_sort name_le items.

(** [group[name]]; [None] stands for [KeyError]. *)
Fixpoint member {A : Type} (name : string) (members : list (string * A)) : option A :=
  match members with
  | [] => None
  | (k, v) :: rest => if bool_decide (k = name) then Some v else member name rest
  end.

(** [slot.resize(n)] *)
Definition resize {A : Type} (n : nat) (subslots : list (list A)) : list (list A) :=
  (take n subslots ++ replicate (n - length subslots) [])%list.

Section WithData.

(** The values of the datasets. *)
Variable B : Type.

(** [ilastikVersion == 0.5], on the value of the dataset 'ilastikVersion'. *)
Variable is_0_5 : B -> bool.

(** The project file, as far as [deserializeFromHdf5] looks at it: the
    value of the dataset 'ilastikVersion' and the members of the group
    'DataSets', which are groups; each of them is absent when the file
    has no member of that name. *)
Record project : Type := Project {
  ilastikVersion : option B;
  DataSets : option (list (string * list (string * LabelFile.node B)))
}.

(** [datasetGroup['labels/data']]; [None] stands for [KeyError], which
    h5py raises when a component of the path cannot be opened. *)
Definition labels_data (datasetGroup : list (string * LabelFile.node B))
  : option (LabelFile.node B) :=
  match member "labels" datasetGroup with
  | Some (LabelFile.Group labels) => member "data" labels
  | _ => None
  end.

(** The loop of [deserializeFromHdf5], from [index] on. The state is
    [LabelInputs]: for each subslot, the arrays assigned to the whole of
    it ([LabelInputs[index][...] = ...]) so far. *)
Fixpoint assign_datasets (index : nat)
    (items : list (string * list (string * LabelFile.node B)))
  : M (list (list B)) unit :=
  match items with
  | [] => mret tt
  | (datasetName, datasetGroup) :: rest =>
      match labels_data datasetGroup with
      | None =>
          (* this project doesn't have labels for this dataset: continue *)
          assign_datasets (S index) rest
      | Some (LabelFile.Dataset value _) =>
          LabelInputs ← get;
          match LabelInputs !! index with
          | Some made =>
              modify (fun LabelInputs => <[index := (made ++ [value])%list]> LabelInputs);;
              assign_datasets (S index) rest
          | None => raise IndexError
          end
      | Some (LabelFile.Group _) =>
          (* [dataset.value] on a group *)
          raise (ExternalError "AttributeError")
      end
  end.

Definition deserializeFromHdf5 (hdf5File : project) : M (list (list B)) unit :=
  (* Check the version *)
  match ilastikVersion hdf5File with
  | None => raise KeyError
  | Some version =>
      if is_0_5 version then
        match DataSets hdf5File with
        | None => raise KeyError
        | Some datasets =>
            let numImages := length datasets in
            modify (resize numImages);;
            assign_datasets 0 (sorted_by_name datasets)
        end
      else mret tt
  end.

(** What the loop assigns for one dataset group. *)
Definition whole_labels (datasetGroup : list (string * LabelFile.node B)) : list B :=
  match labels_data datasetGroup with
  | Some (LabelFile.Dataset value _) => [value]
  | _ => []
  end.

(** A dataset group whose 'labels/data', when there is one, is a dataset. *)
Definition labels_readable (datasetGroup : list (string * LabelFile.node B)) : Prop :=
  match labels_data datasetGroup with
  | Some (LabelFile.Group _) => False
  | _ => True
  end.

End WithData.

Arguments Project {B} _ _.
Arguments ilastikVersion {B} _.
Arguments DataSets {B} _.
Arguments labels_data {B} _.
Arguments assign_datasets {B} _ _.
Arguments deserializeFromHdf5 {B} _ _.
Arguments whole_labels {B} _.
Arguments labels_readable {B} _.

End Ilastik05Import.

(** ** multicutGui.py: subscriptions and layers of MulticutGuiMixin *)

Module MulticutGuiSetup.
Import Eff.

(** The slots of the top-level operator that the GUI uses. *)
Inductive op_slot : Type :=
| Beta | SolverName | EdgeProbabilitiesDict | Output | Superpixels | RawData.

#[global] Instance op_slot_eq_dec : EqDecision op_slot.
Proof. solve_decision. Defined.

(** The callbacks subscribed to dirty notifications: the two bound
    methods of this GUI, and those of other subscribers. *)
Inductive callback : Type :=
| configure_gui_from_operator
| update_probability_edges
| foreign (id : nat).

#[global] Instance callback_eq_dec : EqDecision callback.
Proof. solve_decision. Defined.

Definition own (cb : callback) : bool :=
  match cb with foreign _ => false | _ => true end.

(** The Qt signals of the drawer and the methods connected to them. *)
Inductive qt_signal : Type :=
| beta_box_valueChanged
| solver_name_combo_currentIndexChanged
| update_button_clicked.

Inductive qt_handler : Type :=
| configure_operator_from_gui
| onUpdateMulticutButton.

Inductive color : Type := blue | yellow.

(** [SegmentationEdgesLayer(source)], [SegmentationEdgesLayer(source, default_pen)]
    with the color set on a copy of [DEFAULT_PEN], and the layer that
    [createStandardLayerFromSlot] makes. *)
Inductive layer_kind : Type :=
| SegmentationEdgesLayer (default_pen : option color)
| StandardLayer.

Record layer : Type := Layer {
  kind : layer_kind;
  source : op_slot;
  name : string;
  visible : bool;
  opacity : Q
}.

Record gui : Type := Gui {
  (** [self.__cleanup_fns]: [partial(op_slot.unregisterDirty, callback)] *)
  cleanup_fns : list (op_slot * callback);
  superpixel_edge_layer : option layer;
  (** the connections made with [qt_signal.connect] *)
  connections : list (qt_signal * qt_handler);
  (** the callbacks subscribed at each slot of the operator *)
  dirty_callbacks : op_slot -> list callback;
  (** [op_slot.ready()] *)
  ready : op_slot -> bool;
  (** the requests submitted by [__update_probability_edges] *)
  submitted : nat
}.

Definition set_cleanup_fns (f : list (op_slot * callback)) : M gui unit :=
  modify (fun g => Gui f (superpixel_edge_layer g) (connections g)
                       (dirty_callbacks g) (ready g) (submitted g)).
Definition set_superpixel_edge_layer (l : option layer) : M gui unit :=
  modify (fun g => Gui (cleanup_fns g) l (connections g)
                       (dirty_callbacks g) (ready g) (submitted g)).
Definition set_connections (c : list (qt_signal * qt_handler)) : M gui unit :=
  modify (fun g => Gui (cleanup_fns g) (superpixel_edge_layer g) c
                       (dirty_callbacks g) (ready g) (submitted g)).
Definition set_dirty_callbacks (slot : op_slot) (cbs : list callback) : M gui unit :=
  modify (fun g => Gui (cleanup_fns g) (superpixel_edge_layer g) (connections g)
                       (fun slot' => if bool_decide (slot' = slot) then cbs
                                     else dirty_callbacks g slot')
                       (ready g) (submitted g)).
Definition set_submitted (n : nat) : M gui unit :=
  modify (fun g => Gui (cleanup_fns g) (superpixel_edge_layer g) (connections g)
                       (dirty_callbacks g) (ready g) n).

(** [qt_signal.connect(handler)] *)
Definition connect (signal : qt_signal) (handler : qt_handler) : M gui unit :=
  g ← get; set_connections (connections g ++ [(signal, handler)])%list.

(** Modelled from the spec: [notifyDirty(callback)] subscribes the
    callback to the dirty events of the slot, [unregisterDirty(callback)]
    unsubscribes it. *)
Definition notifyDirty (slot : op_slot) (cb : callback) : M gui unit :=
  g ← get; set_dirty_callbacks slot (dirty_callbacks g slot ++ [cb])%list.

Definition unregisterDirty (slot : op_slot) (cb : callback) : M gui unit :=
  g ← get;
  set_dirty_callbacks slot
    (filter (fun cb' => cb' <> cb) (dirty_callbacks g slot)).

(** [self.__cleanup_fns.append( partial( op_slot.unregisterDirty, callback ) )] *)
Definition cleanup_fns_append (slot : op_slot) (cb : callback) : M gui unit :=
  g ← get; set_cleanup_fns (cleanup_fns g ++ [(slot, cb)])%list.

(** The local function of [createDrawerControls]. *)
Definition configure_update_handlers (signal : qt_signal) (slot : op_slot)
  : M gui unit :=
  connect signal configure_operator_from_gui;;
  notifyDirty slot configure_gui_from_operator;;
  cleanup_fns_append slot configure_gui_from_operator.

(** [createDrawerControls], without the widgets and their layout. *)
Definition createDrawerControls : M gui unit :=
  (* Beta *)
  configure_update_handlers beta_box_valueChanged Beta;;
  (* Solver *)
  configure_update_handlers solver_name_combo_currentIndexChanged SolverName;;
  (* Update Button *)
  connect update_button_clicked onUpdateMulticutButton.

(** [__init_probability_colortable], without the two tables of colors
    and pens. *)
Definition init_probability_colortable : M gui unit :=
  notifyDirty EdgeProbabilitiesDict update_probability_edges;;
  cleanup_fns_append EdgeProbabilitiesDict update_probability_edges.

(** The loop of [stopAndCleanUp]: [for fn in self.__cleanup_fns: fn()]. *)
Fixpoint call_all (fns : list (op_slot * callback)) : M gui unit :=
  match fns with
  | [] => mret tt
  | (slot, cb) :: rest => unregisterDirty slot cb;; call_all rest
  end.

Section WithBase.

(** [LayerViewerGui.stopAndCleanUp], which is not part of the reviewed
    sources. *)
Variable LayerViewerGui_stopAndCleanUp : M gui unit.

Definition stopAndCleanUp : M gui unit :=
  (* Unsubscribe to all signals *)
  g ← get;
  call_all (cleanup_fns g);;
  LayerViewerGui_stopAndCleanUp.

End WithBase.

(** [__update_probability_edges]: the work is submitted in a request,
    the method returns immediately. *)
Definition update_probability_edges_call : M gui unit :=
  g ← get; set_submitted (S (submitted g)).

Definition create_multicut_edge_layer : M gui (option layer) :=
  g ← get;
  if negb (ready g Output) then mret None
  else
    (* Final segmentation -- Edges; off by default *)
    mret (Some (Layer (SegmentationEdgesLayer (Some blue)) Output
                      "Multicut Edges" false 1)).

Definition create_multicut_segmentation_layer : M gui (option layer) :=
  g ← get;
  (* Final segmentation -- Label Image *)
  if negb (ready g Output) then mret None
  else
    mret (Some (Layer StandardLayer Output "Multicut Segmentation" false (1 # 2))).

(** [if layer: layers.append(layer)] *)
Definition append_if (layers : list layer) (l : option layer) : list layer :=
  match l with
  | Some l => (layers ++ [l])%list
  | None => layers
  end.

Definition setupLayers : M gui (list layer) :=
  let layers := [] in
  mc_edge_layer ← create_multicut_edge_layer;
  let layers := append_if layers mc_edge_layer in
  (* Superpixels -- Edge Probabilities *)
  set_superpixel_edge_layer None;;
  g ← get;
  layers ←
    (if ready g Superpixels && ready g EdgeProbabilitiesDict then
       let layer := Layer (SegmentationEdgesLayer None) Superpixels
                          "Superpixel Edge Probabilities" true 1 in
       set_superpixel_edge_layer (Some layer);;
       update_probability_edges_call;; (* Initialize *)
       mret (layers ++ [layer])%list
     else mret layers);
  (* Superpixels -- Edges *)
  let layers :=
    if ready g Superpixels then
      (layers ++ [Layer (SegmentationEdgesLayer (Some yellow)) Superpixels
                        "Superpixel Edges" false 1])%list
    else layers in
  mc_seg_layer ← create_multicut_segmentation_layer;
  let layers := append_if layers mc_seg_layer in
  (* Superpixels *)
  let layers :=
    if ready g Superpixels then
      (layers ++ [Layer StandardLayer Superpixels "Superpixels" false (1 # 2)])%list
    else layers in
  (* Raw Data (grayscale) *)
  let layers :=
    if ready g RawData then
      (layers ++ [Layer StandardLayer RawData "Raw Data" true 1])%list
    else layers in
  mret layers.

(** The set-up methods, which the base class and the applet call in an
    order that the reviewed sources do not fix. *)
Inductive setup_step : Type :=
| step_createDrawerControls
| step_init_probability_colortable.

Definition run_step (st : setup_step) : M gui unit :=
  match st with
  | step_createDrawerControls => createDrawerControls
  | step_init_probability_colortable => init_probability_colortable
  end.

Fixpoint run_steps (steps : list setup_step) : M gui unit :=
  match steps with
  | [] => mret tt
  | st :: rest => run_step st;; run_steps rest
  end.

(** What holds of a state [g] reached from [g0] by set-up methods: the
    callbacks of other subscribers are those of [g0], every callback
    of the GUI that is subscribed has its entry in [cleanup_fns], and
    [cleanup_fns] has entries for callbacks of the GUI only. *)
Definition tracked (g0 g : gui) : Prop :=
  (forall slot,
     filter (fun cb => own cb = false) (dirty_callbacks g slot)
     = dirty_callbacks g0 slot)
  /\ (forall slot cb,
        cb ∈ dirty_callbacks g slot -> own cb = true -> (slot, cb) ∈ cleanup_fns g)
  /\ (forall slot cb, (slot, cb) ∈ cleanup_fns g -> own cb = true).

End MulticutGuiSetup.

(** * Properties *)

(** ** Strings *)

Section StringFacts.
Import Py.

Lemma sapp_cons (x : ascii) (a b : string) : String x a ++ b = String x (a ++ b).
Proof. reflexivity. Qed.

Lemma sapp_nil_l (s : string) : "" ++ s = s.
Proof. reflexivity. Qed.

Lemma sapp_nil_r (s : string) : s ++ "" = s.
Proof. induction s as [|c s IH]; [reflexivity|]. by rewrite sapp_cons, IH. Qed.

Lemma sapp_assoc (a b c : string) : (a ++ b) ++ c = a ++ (b ++ c).
Proof. induction a as [|x a IH]; [reflexivity|]. by rewrite !sapp_cons, IH. Qed.

Lemma drop_last_snoc (s : string) (c : ascii) : drop_last (s ++ String c "") = s.
Proof.
  induction s as [|x s IH]; [reflexivity|].
  rewrite sapp_cons. cbn [drop_last]. rewrite IH.
  destruct s; reflexivity.
Qed.

Lemma strip_ends_brackets (open close : ascii) (body : string) :
  strip_ends (String open (body ++ String close "")) = body.
Proof.
  unfold strip_ends.
  change (String open (body ++ String close "")) with (String open body ++ String close "").
  by rewrite drop_last_snoc.
Qed.

Lemma all_chars_app P (a b : string) :
  all_chars P (a ++ b) = all_chars P a && all_chars P b.
Proof.
  induction a as [|x a IH]; [reflexivity|].
  rewrite sapp_cons. cbn [all_chars]. rewrite IH. by rewrite andb_assoc.
Qed.

Lemma all_chars_impl (P Q : ascii -> bool) (s : string) :
  (forall c, P c = true -> Q c = true) ->
  all_chars P s = true -> all_chars Q s = true.
Proof.
  intros HPQ. induction s as [|c s IH]; [done|].
  cbn [all_chars]. rewrite !andb_true_iff. intros [? ?]. auto.
Qed.

Lemma is_digit_cases (c : ascii) :
  is_digit c = true ->
  Ascii.eqb c "," = false /\ Ascii.eqb c ":" = false /\ Ascii.eqb c "-" = false
  /\ Ascii.eqb c "+" = false /\ is_space c = false.
Proof.
  unfold is_digit. cbn [existsb]. rewrite !orb_true_iff.
  intros H. repeat destruct H as [H|H]; try discriminate;
    apply Ascii.eqb_eq in H; subst c; repeat split; reflexivity.
Qed.

(** Splitting at a separator that the first piece does not contain. *)
Lemma split_app (sep : ascii) (a b : string) :
  all_chars (fun c => negb (Ascii.eqb c sep)) a = true ->
  split sep (a ++ String sep b) = a :: split sep b.
Proof.
  induction a as [|x a IH]; intros Ha.
  - rewrite sapp_nil_l. cbn [split]. by rewrite Ascii.eqb_refl.
  - cbn [all_chars] in Ha. apply andb_true_iff in Ha as [Hx Ha].
    rewrite sapp_cons. cbn [split].
    apply negb_true_iff in Hx. rewrite Hx. by rewrite (IH Ha).
Qed.

Lemma split_none (sep : ascii) (a : string) :
  all_chars (fun c => negb (Ascii.eqb c sep)) a = true ->
  split sep a = [a].
Proof.
  induction a as [|x a IH]; intros Ha; [reflexivity|].
  cbn [all_chars] in Ha. apply andb_true_iff in Ha as [Hx Ha].
  cbn [split]. apply negb_true_iff in Hx. rewrite Hx. by rewrite (IH Ha).
Qed.

Lemma split_join (sep : ascii) (items : list string) :
  items <> [] ->
  Forall (fun s => all_chars (fun c => negb (Ascii.eqb c sep)) s = true) items ->
  split sep (join sep items) = items.
Proof.
  induction items as [|x items IH]; [done|].
  intros _ Hall. inversion Hall as [|? ? Hx Hrest]; subst.
  destruct items as [|y items].
  - cbn [join]. by apply split_none.
  - change (join sep (x :: y :: items)) with (x ++ String sep (join sep (y :: items))).
    rewrite split_app by done. f_equal. by apply IH.
Qed.

Lemma lstrip_id (s : string) :
  all_chars (fun c => negb (is_space c)) s = true -> lstrip s = s.
Proof.
  destruct s as [|c s]; [done|]. cbn [all_chars lstrip].
  intros [Hc _]%andb_true_iff. apply negb_true_iff in Hc. by rewrite Hc.
Qed.

Lemma rstrip_id (s : string) :
  all_chars (fun c => negb (is_space c)) s = true -> rstrip s = s.
Proof.
  induction s as [|c s IH]; [done|]. cbn [all_chars rstrip].
  intros [Hc Hs]%andb_true_iff. rewrite (IH Hs).
  apply negb_true_iff in Hc. rewrite Hc. by destruct s.
Qed.

Lemma strip_id (s : string) :
  all_chars (fun c => negb (is_space c)) s = true -> strip s = s.
Proof. intros Hs. unfold strip. rewrite (lstrip_id _ Hs). by apply rstrip_id. Qed.

End StringFacts.

(** ** Decimal numerals: [int(str(n)) == n] *)

Section DecimalFacts.
Import Py.

Lemma string_of_uint_digits (d : uint) :
  all_chars is_digit (NilEmpty.string_of_uint d) = true.
Proof. induction d; cbn [NilEmpty.string_of_uint all_chars]; rewrite ?IHd; reflexivity. Qed.

Lemma string_of_uint_nonempty (d : uint) :
  d <> Nil -> NilEmpty.string_of_uint d <> "".
Proof. destruct d; [done|discriminate..]. Qed.

Lemma digits_string_of_uint (d : uint) :
  d <> Nil -> digits (NilEmpty.string_of_uint d) = Some (Z.of_uint d).
Proof.
  intros Hd. unfold digits.
  destruct (NilEmpty.string_of_uint d) eqn:E.
  - by apply string_of_uint_nonempty in E.
  - rewrite <- E, NilEmpty.usu. reflexivity.
Qed.

Lemma to_int_cases (z : Z) :
  exists d, d <> Nil /\ (Z.to_int z = Pos d \/ Z.to_int z = Neg d).
Proof.
  destruct z as [|p|p]; cbn [Z.to_int].
  - exists (D0 Nil). split; [discriminate|by left].
  - exists (Pos.to_uint p). split; [apply DecimalPos.Unsigned.to_uint_nonnil|by left].
  - exists (Pos.to_uint p). split; [apply DecimalPos.Unsigned.to_uint_nonnil|by right].
Qed.

(** The text of an integer is made of digits after an optional minus. *)
Lemma str_int_chars (z : Z) :
  all_chars (fun c => is_digit c || Ascii.eqb c "-") (str (Int z)) = true.
Proof.
  assert (Hd : forall d, d <> Nil ->
    all_chars (fun c => is_digit c || Ascii.eqb c "-") (NilZero.string_of_uint d) = true).
  { intros d Hd. replace (NilZero.string_of_uint d) with (NilEmpty.string_of_uint d)
      by (by destruct d).
    apply all_chars_impl with (P := is_digit); [|apply string_of_uint_digits].
    intros c ->. reflexivity. }
  cbn [str]. destruct (to_int_cases z) as (d & Hnil & [-> | ->]);
    cbn [NilZero.string_of_int all_chars]; rewrite Hd by done; reflexivity.
Qed.

Lemma str_int_no (sep : ascii) (z : Z) :
  is_digit sep = false -> Ascii.eqb sep "-" = false ->
  all_chars (fun c => negb (Ascii.eqb c sep)) (str (Int z)) = true.
Proof.
  intros Hdig Hminus.
  apply all_chars_impl with (P := fun c => is_digit c || Ascii.eqb c "-");
    [|apply str_int_chars].
  intros c Hc. apply negb_true_iff. destruct (Ascii.eqb_spec c sep) as [->|]; [|done].
  by rewrite Hdig, Hminus in Hc.
Qed.

Theorem int_str (z : Z) : int (str (Int z)) = Some z.
Proof.
  assert (Hnospace : all_chars (fun c => negb (is_space c)) (str (Int z)) = true).
  { apply all_chars_impl with (P := fun c => is_digit c || Ascii.eqb c "-");
      [|apply str_int_chars].
    intros c [Hc|Hc]%orb_true_iff.
    - apply is_digit_cases in Hc as (_ & _ & _ & _ & ->). reflexivity.
    - apply Ascii.eqb_eq in Hc as ->. reflexivity. }
  unfold int. rewrite (strip_id _ Hnospace).
  rewrite <- (DecimalZ.of_to z) at 2.
  cbn [str]. destruct (to_int_cases z) as (d & Hnil & [-> | ->]);
    cbn [NilZero.string_of_int Z.of_int];
    replace (NilZero.string_of_uint d) with (NilEmpty.string_of_uint d)
      by (by destruct d).
  - pose proof (string_of_uint_digits d) as Hdig.
    pose proof (digits_string_of_uint d Hnil) as Hparse.
    destruct (NilEmpty.string_of_uint d) as [|c r] eqn:E.
    + by apply string_of_uint_nonempty in E.
    + cbn [all_chars] in Hdig. apply andb_true_iff in Hdig as [Hc _].
      apply is_digit_cases in Hc as (_ & _ & -> & -> & _). exact Hparse.
  - rewrite Ascii.eqb_refl, (digits_string_of_uint d Hnil). reflexivity.
Qed.

End DecimalFacts.

(** ** C1: the slicing round trip *)

Section SlicingFacts.
Import Py Slicing.

Lemma fold_left_append_slice (l : list slice) (acc : string) :
  fold_left append_slice l acc
  = acc ++ fold_right (fun s r => slice_text s ++ String "," r) "" l.
Proof.
  revert acc. induction l as [|s l IH]; intros acc; cbn [fold_left fold_right].
  - by rewrite sapp_nil_r.
  - rewrite IH. unfold append_slice, slice_text. by rewrite !sapp_assoc.
Qed.

Lemma items_join (l : list slice) :
  l <> [] ->
  fold_right (fun s r => slice_text s ++ String "," r) "" l
  = join "," (map slice_text l) ++ ",".
Proof.
  induction l as [|s l IH]; [done|]. intros _.
  destruct l as [|s' l].
  - reflexivity.
  - cbn [fold_right] in *. rewrite IH by done.
    change (join "," (map slice_text (s :: s' :: l)))
      with (slice_text s ++ String "," (join "," (map slice_text (s' :: l)))).
    by rewrite !sapp_assoc.
Qed.

(** The string made for a slicing that is not empty. *)
Lemma slicingToString_join (l : list slice) :
  l <> [] ->
  slicingToString l = String "[" (join "," (map slice_text l) ++ "]").
Proof.
  intros Hl. unfold slicingToString.
  rewrite fold_left_append_slice, items_join by done.
  rewrite <- sapp_assoc, drop_last_snoc. reflexivity.
Qed.

Lemma parse_slice_text (a b : Z) :
  parse_slice (slice_text (slice2 a b)) = Some (slice2 a b).
Proof.
  unfold parse_slice, slice_text. cbn [start stop slice2].
  rewrite split_app by (by apply str_int_no).
  rewrite split_none by (by apply str_int_no).
  by rewrite !int_str.
Qed.

Lemma slice_text_no_comma (a b : Z) :
  all_chars (fun c => negb (Ascii.eqb c ",")) (slice_text (slice2 a b)) = true.
Proof.
  unfold slice_text. cbn [start stop slice2].
  rewrite all_chars_app. cbn [all_chars].
  by rewrite !str_int_no.
Qed.

(** The round trip for slices made of two integers, of any sign. *)
Lemma roundtrip_int_slices (l : list (Z * Z)) :
  l <> [] ->
  stringToSlicing (slicingToString (map (fun ab => slice2 ab.1 ab.2) l))
  = Some (map (fun ab => slice2 ab.1 ab.2) l).
Proof.
  intros Hl.
  rewrite slicingToString_join by (by destruct l).
  unfold stringToSlicing. rewrite strip_ends_brackets.
  rewrite split_join.
  - clear Hl. induction l as [|[a b] l IH]; [reflexivity|].
    cbn [map parse_slices fst snd]. by rewrite parse_slice_text, IH.
  - by destruct l.
  - clear Hl. induction l as [|[a b] l IH]; constructor; [|done].
    apply slice_text_no_comma.
Qed.

End SlicingFacts.

Lemma plain_slices (roi : list Py.slice) :
  Forall Slicing.nonneg_bounds roi -> Forall Slicing.no_step roi ->
  exists l, roi = map (fun ab => Py.slice2 ab.1 ab.2) l.
Proof.
  induction roi as [|[a b c] roi IH]; intros Hb Hs.
  - by exists [].
  - inversion Hb as [|? ? (x & y & Hx & Hy & _) Hb']; subst.
    inversion Hs as [|? ? Hc Hs']; subst.
    destruct (IH Hb' Hs') as [l ->].
    unfold Slicing.no_step in Hc. cbn in Hx, Hy, Hc. subst.
    by exists ((x, y) :: l).
Qed.

(** C1 (amended): for every slicing that is not empty and whose slices
    have non-negative integer bounds and no step, parsing the
    serialized form recovers the original:
    [stringToSlicing(slicingToString(roi)) == roi]. *)
Theorem stringToSlicing_slicingToString (roi : list Py.slice) :
  roi <> [] ->
  Forall Slicing.nonneg_bounds roi ->
  Forall Slicing.no_step roi ->
  Slicing.stringToSlicing (Slicing.slicingToString roi) = Some roi.
Proof.
  intros Hne Hb Hs. destruct (plain_slices roi Hb Hs) as [l ->].
  apply roundtrip_int_slices. by destruct l.
Qed.

Lemma stringToSlicing_slicingToString_witness :
  Slicing.stringToSlicing
    (Slicing.slicingToString [Py.slice2 0 10; Py.slice2 0 5; Py.slice2 0 1])
  = Some [Py.slice2 0 10; Py.slice2 0 5; Py.slice2 0 1].
Proof.
  apply stringToSlicing_slicingToString.
  - discriminate.
  - repeat apply Forall_cons_2; try apply Forall_nil_2.
    + exists 0, 10. repeat split; lia.
    + exists 0, 5. repeat split; lia.
    + exists 0, 1. repeat split; lia.
  - repeat apply Forall_cons_2; try apply Forall_nil_2; reflexivity.
Defined.

(** C1, as stated, fails on the empty slicing (the string is "]", which
    does not parse) and on a slice with a step (which the string does
    not record). *)
Lemma stringToSlicing_slicingToString_fails :
  (Forall Slicing.nonneg_bounds []
   /\ Slicing.stringToSlicing (Slicing.slicingToString []) <> Some [])
  /\ (Forall Slicing.nonneg_bounds [Py.Slice (Py.Int 0) (Py.Int 10) (Py.Int 2)]
      /\ Slicing.stringToSlicing
           (Slicing.slicingToString [Py.Slice (Py.Int 0) (Py.Int 10) (Py.Int 2)])
         <> Some [Py.Slice (Py.Int 0) (Py.Int 10) (Py.Int 2)]).
Proof.
  split; split.
  - constructor.
  - discriminate.
  - repeat constructor. exists 0, 10. repeat split; lia.
  - discriminate.
Qed.

Example slicingToString_doc :
  Slicing.slicingToString [Py.slice2 0 10; Py.slice2 0 5; Py.slice2 0 1] = "[0:10,0:5,0:1]".
Proof. reflexivity. Qed.

Example stringToSlicing_doc :
  Slicing.stringToSlicing "[0:1,2:3,4:5]"
  = Some [Py.slice2 0 1; Py.slice2 2 3; Py.slice2 4 5].
Proof. reflexivity. Qed.

Example slicingToString_empty : Slicing.slicingToString [] = "]".
Proof. reflexivity. Qed.

Example stringToSlicing_empty : Slicing.stringToSlicing "]" = None.
Proof. reflexivity. Qed.

Example slicingToString_step :
  Slicing.stringToSlicing
    (Slicing.slicingToString [Py.Slice (Py.Int 0) (Py.Int 10) (Py.Int 2)])
  = Some [Py.slice2 0 10].
Proof. reflexivity. Qed.

Example int_negative : Py.int " -12 " = Some (-12).
Proof. reflexivity. Qed.

(** ** Running stateful code *)

Section EffFacts.
Import Eff.
Context {S : Type}.

Lemma bind_Returned {A B} (c : M S A) (k : A -> M S B) (s s' : S) (b : B) :
  (c ≫= k) s = Returned b s' ->
  exists a s1, c s = Returned a s1 /\ k a s1 = Returned b s'.
Proof.
  unfold mbind, M_bind, bind. destruct (c s) as [a s1|e s1]; [|discriminate].
  intros Hk. by exists a, s1.
Qed.

Lemma bind_run {A B} (c : M S A) (k : A -> M S B) (s s1 : S) (a : A) :
  c s = Returned a s1 -> (c ≫= k) s = k a s1.
Proof. intros Hc. unfold mbind, M_bind, bind. by rewrite Hc. Qed.

Lemma bind_Raised {A B} (c : M S A) (k : A -> M S B) (s s1 : S) (e : exn) :
  c s = Raised e s1 -> (c ≫= k) s = Raised e s1.
Proof. intros Hc. unfold mbind, M_bind, bind. by rewrite Hc. Qed.

Lemma modify_run (f : S -> S) (s : S) : modify f s = Returned tt (f s).
Proof. reflexivity. Qed.

Lemma get_run (s : S) : get s = Returned s s.
Proof. reflexivity. Qed.

Lemma ret_run {A} (a : A) (s : S) : (mret a : M S A) s = Returned a s.
Proof. reflexivity. Qed.

End EffFacts.

(** ** C6: the dirty flags of the serializer *)

Section SerializerFacts.
Import Eff Serializer.

Lemma any_values (m : gmap Z bool) :
  any (values m) = true <-> exists section, m !! section = Some true.
Proof.
  unfold any, values. rewrite existsb_exists. split.
  - intros (b & Hb & ->). apply list_elem_of_In, list_elem_of_fmap in Hb
      as ([k v] & Hv & Hkv). cbn in Hv. subst v.
    exists k. by apply elem_of_map_to_list.
  - intros (k & Hk). exists true. split; [|done].
    apply list_elem_of_In, list_elem_of_fmap. exists (k, true). split; [done|].
    by apply elem_of_map_to_list.
Qed.

Lemma sum_bools_cons (b : bool) (l : list bool) :
  sum_bools (b :: l) = (if b then 1 else 0) + sum_bools l.
Proof. reflexivity. Qed.

Lemma sum_bools_nonneg (l : list bool) : 0 <= sum_bools l.
Proof.
  induction l as [|b l IH]; [done|]. rewrite sum_bools_cons. destruct b; lia.
Qed.

Lemma sum_bools_pos (l : list bool) : In true l -> 0 < sum_bools l.
Proof.
  induction l as [|b l IH]; [done|]. rewrite sum_bools_cons.
  pose proof (sum_bools_nonneg l). intros [->|Hin]; [lia|].
  specialize (IH Hin). destruct b; lia.
Qed.

Lemma sum_values_pos (m : gmap Z bool) (section : Z) :
  m !! section = Some true -> 0 < sum_bools (values m).
Proof.
  intros Hm. apply sum_bools_pos. unfold values.
  apply list_elem_of_In, list_elem_of_fmap. exists (section, true). split; [done|].
  by apply elem_of_map_to_list.
Qed.

Context {Node Clf LabelData : Type}.
Variable export_labels : LabelData -> Node + exn * option Node.
Variable export_classifier : Clf -> Node + exn * option Node.

#[local] Abbreviation state := (Serializer.state Node Clf LabelData).

Lemma clean_flags_lookup (section : Z) (b : bool) :
  clean_flags !! section = Some b -> b = false.
Proof.
  unfold clean_flags, Section_Labels, Section_Classifier, Section_Predictions.
  intros H. repeat (apply lookup_insert_Some in H as [[_ <-]|[_ H]]; [done|]).
  by rewrite lookup_empty in H.
Qed.

Lemma serialize_flags (s s' : state) :
  _serializeToHdf5 export_labels export_classifier s = Returned tt s' ->
  _dirtyFlags s' = clean_flags.
Proof.
  unfold _serializeToHdf5. intros H.
  repeat (apply bind_Returned in H as (? & ? & _ & H)).
  unfold _initDirtyFlags in H. rewrite modify_run in H.
  injection H as <-. reflexivity.
Qed.

Lemma isDirty_iff (s : state) :
  isDirty s = true <-> exists section, _dirtyFlags s !! section = Some true.
Proof. apply any_values. Qed.

Lemma isDirty_clean (s : state) : _dirtyFlags s = clean_flags -> isDirty s = false.
Proof.
  intros Hs. apply not_true_is_false. intros (k & Hk)%isDirty_iff.
  rewrite Hs in Hk. by apply clean_flags_lookup in Hk.
Qed.

Lemma handleDirty_run (section : Z) (s : state) :
  handleDirty section s
  = Returned tt (set_dirtyFlags (<[section := true]> (_dirtyFlags s)) s).
Proof. reflexivity. Qed.

(** C6: after [_serializeToHdf5] completes every dirty flag is [False]
    and [isDirty()] returns [False]; [isDirty()] returns [True] exactly
    when at least one flag is set, which is what the dirty callback
    [handleDirty] does. *)
Theorem serializeToHdf5_clears_dirtyFlags :
  (forall s s' : state,
      _serializeToHdf5 export_labels export_classifier s = Returned tt s' ->
      (forall section,
          section ∈ [Section_Labels; Section_Classifier; Section_Predictions] ->
          _dirtyFlags s' !! section = Some false)
      /\ (forall section b, _dirtyFlags s' !! section = Some b -> b = false)
      /\ isDirty s' = false)
  /\ (forall s : state,
        isDirty s = true <-> exists section, _dirtyFlags s !! section = Some true)
  /\ (forall (s : state) (section : Z),
        exists s', handleDirty section s = Returned tt s'
                   /\ _dirtyFlags s' !! section = Some true
                   /\ isDirty s' = true).
Proof.
  split; [|split].
  - intros s s' Hrun. apply serialize_flags in Hrun. rewrite Hrun.
    split; [|split].
    + intros section Hin. repeat (apply elem_of_cons in Hin as [->|Hin]; [done|]).
      by apply elem_of_nil in Hin.
    + apply clean_flags_lookup.
    + by apply isDirty_clean.
  - apply isDirty_iff.
  - intros s section. eexists. split; [apply handleDirty_run|].
    assert (Hset : _dirtyFlags
                     (set_dirtyFlags (<[section := true]> (_dirtyFlags s)) s)
                   !! section = Some true) by apply lookup_insert_eq.
    split; [exact Hset|]. apply isDirty_iff. by exists section.
Qed.

(** [_serializeToHdf5] does complete when the flags are those of
    [_initDirtyFlags], possibly set by [handleDirty], and writing the
    file does not fail. *)
Lemma serializeToHdf5_returns (s : state) :
  is_Some (_dirtyFlags s !! Section_Labels) ->
  is_Some (_dirtyFlags s !! Section_Classifier) ->
  (forall l, exists n, export_labels l = inl n) ->
  (forall c, exists n, export_classifier c = inl n) ->
  exists s', _serializeToHdf5 export_labels export_classifier s = Returned tt s'.
Proof.
  intros [lab Hlab] [clf Hclf] Hel Hec.
  assert (Hpos : forall section, _dirtyFlags s !! section = Some true ->
             (0 <? sum_bools (values (_dirtyFlags s)))%Z = true).
  { intros section Hsec. apply Z.ltb_lt. by eapply sum_values_pos. }
  unfold _serializeToHdf5, _serializeLabels, _serializeClassifier, getFlag, setFlag,
    emit, use_increment, _initDirtyFlags.
  unfold mbind, M_bind, bind, mret, M_ret, ret, modify, get, raise, try_.
  cbn. rewrite Hlab. destruct lab.
  - rewrite (Hpos _ Hlab). destruct (Hel (labels s)) as [n ->]. cbn.
    rewrite lookup_insert_ne by done. rewrite Hclf. destruct clf; [|eauto].
    destruct (Classifier s) as [[|[v|]|v] k]; cbn; eauto;
      destruct v as [c|]; cbn; eauto; destruct (Hec c) as [g ->]; eauto.
  - cbn. rewrite Hclf. destruct clf; [|eauto].
    rewrite (Hpos _ Hclf).
    destruct (Classifier s) as [[|[v|]|v] k]; cbn; eauto;
      destruct v as [c|]; cbn; eauto; destruct (Hec c) as [g ->]; eauto.
Qed.

End SerializerFacts.

Example serializer_run :
  Serializer._serializeToHdf5 (fun _ => inl tt) (fun _ => inl tt) Serializer.example_state
  = Eff.Returned tt
      (Serializer.State Serializer.clean_flags [50; 100] Serializer.example_file
         (Serializer.Slot (Serializer.Direct (Some tt)) 0)
         (Serializer.Slot (Serializer.Connected None) 0) tt).
Proof. vm_compute. reflexivity. Qed.

Lemma serializeToHdf5_clears_dirtyFlags_witness :
  Serializer.isDirty Serializer.example_state = true
  /\ Serializer.isDirty
       (Eff.final_state
          (Serializer._serializeToHdf5 (fun _ => inl tt) (fun _ => inl tt)
             Serializer.example_state)) = false.
Proof.
  split; [vm_compute; reflexivity|].
  refine (proj2 (proj2 (proj1
            (serializeToHdf5_clears_dirtyFlags (fun _ => inl tt) (fun _ => inl tt))
            Serializer.example_state _ _))).
  vm_compute. reflexivity.
Defined.

(** ** C7: forcing the classifier *)

Section ClassifierFacts.
Import Eff Serializer.
Context {Node Clf LabelData : Type}.
Variable import_classifier : Node -> Clf + exn.

#[local] Abbreviation state := (Serializer.state Node Clf LabelData).

Lemma forceValue_ready {V} (v : V) (sl : slot V) :
  ready (forceValue v sl) = true.
Proof. reflexivity. Qed.

Lemma forceValue_value {V} (v : V) (sl : slot V) :
  value (forceValue v sl) = inl (v, forceValue v sl).
Proof. reflexivity. Qed.

Lemma deserializeClassifier_run (topGroup : gmap string Node) (group : Node)
    (classifier : Clf) (s : state) :
  topGroup !! "Classifier" = Some group ->
  import_classifier group = inl classifier ->
  _deserializeClassifier import_classifier (Some topGroup) s
  = Returned tt
      (set_dirtyFlags (<[Section_Classifier := false]> (_dirtyFlags s))
         (set_classifier_cache (forceValue classifier (classifier_cache s)) s)).
Proof.
  intros Hgroup Hload. unfold _deserializeClassifier. rewrite Hgroup.
  unfold mbind, M_bind, bind, try_. rewrite Hload. reflexivity.
Qed.

(** C7: when [_deserializeClassifier] forces the classifier read from
    the project file into the classifier cache, the cache is ready at
    once, and neither the assignment nor reading the value back asks
    the producer to recompute (retrain) it. *)
Theorem deserializeClassifier_forces_value (topGroup : gmap string Node)
    (group : Node) (classifier : Clf) (s : state) :
  topGroup !! "Classifier" = Some group ->
  import_classifier group = inl classifier ->
  exists s',
    _deserializeClassifier import_classifier (Some topGroup) s = Returned tt s'
    /\ classifier_cache s' = forceValue classifier (classifier_cache s)
    /\ ready (classifier_cache s') = true
    /\ recomputations (classifier_cache s') = recomputations (classifier_cache s)
    /\ value (classifier_cache s') = inl (classifier, classifier_cache s')
    /\ Classifier s' = Classifier s.
Proof.
  intros Hgroup Hload. eexists. split.
  - by apply deserializeClassifier_run with (group := group).
  - repeat split.
Qed.

End ClassifierFacts.

Lemma deserializeClassifier_forces_value_witness :
  Serializer.ready (Serializer.classifier_cache Serializer.example_state) = false
  /\ exists s',
      Serializer._deserializeClassifier (fun _ : unit => inl tt)
        (Some Serializer.example_file) Serializer.example_state = Eff.Returned tt s'
      /\ Serializer.classifier_cache s'
         = Serializer.forceValue tt (Serializer.classifier_cache Serializer.example_state)
      /\ Serializer.ready (Serializer.classifier_cache s') = true
      /\ Serializer.recomputations (Serializer.classifier_cache s')
         = Serializer.recomputations (Serializer.classifier_cache Serializer.example_state)
      /\ Serializer.value (Serializer.classifier_cache s')
         = inl (tt, Serializer.classifier_cache s')
      /\ Serializer.Classifier s' = Serializer.Classifier Serializer.example_state.
Proof.
  split; [reflexivity|].
  apply (deserializeClassifier_forces_value (fun _ : unit => inl tt)
           Serializer.example_file tt tt Serializer.example_state);
    vm_compute; reflexivity.
Defined.

(** ** C2 and C3: what [propagateDirty] marks dirty *)

Section PropagateDirtyFacts.
Import Eff Lazyflow.
Context {Base : Type}.
Variable OpCarving_propagateDirty :
  OpSplitBodyCarving.Slot -> Roi -> Base -> (Base * list dirty_args) + exn.

(** C2: when a scalar input slot changes ([HighlightLabel] of
    [OpHighlightLabel], [CurrentRavelerLabel] of [OpSplitBodyCarving]),
    [propagateDirty] makes one call of [setDirty] on the dependent
    output, with the unbounded marker [slice(None)], which stands for
    the entire domain and for no bounded region, whatever the roi. *)
Theorem propagateDirty_scalar_slot (roi : Roi) :
  (forall s : OpHighlightLabel.state,
      OpHighlightLabel.propagateDirty OpHighlightLabel.HighlightLabel roi s
      = Returned tt
          (OpHighlightLabel.State (OpHighlightLabel.Output_meta s)
             (OpHighlightLabel.Output_setDirty s ++ [slice_None])))
  /\ (forall s : OpSplitBodyCarving.state Base,
        OpSplitBodyCarving.propagateDirty OpCarving_propagateDirty
          OpSplitBodyCarving.CurrentRavelerLabel roi s
        = Returned tt
            (OpSplitBodyCarving.State
               (OpSplitBodyCarving.base s)
               (OpSplitBodyCarving.Segmentation_callbacks s)
               (OpSplitBodyCarving.MaskedSegmentation_meta s)
               (OpSplitBodyCarving.MaskedSegmentation_setDirty s ++ [slice_None])
               (OpSplitBodyCarving.delivered s)
               (OpSplitBodyCarving.closures s)))
  /\ region_of slice_None = EntireDomain
  /\ (forall start stop, region_of slice_None <> Box start stop)
  /\ contains (region_of slice_None) (region_of_roi roi).
Proof. repeat split; done. Qed.

(** C3: when a region-indexed input becomes dirty over a roi ([Input]
    of [OpHighlightLabel], [RavelerLabels] of [OpSplitBodyCarving]),
    [propagateDirty] makes one call of [setDirty] on the output, with
    exactly [(roi.start, roi.stop)]: the dirty region is the roi. *)
Theorem propagateDirty_region_slot (roi : Roi) :
  (forall s : OpHighlightLabel.state,
      OpHighlightLabel.propagateDirty OpHighlightLabel.Input roi s
      = Returned tt
          (OpHighlightLabel.State (OpHighlightLabel.Output_meta s)
             (OpHighlightLabel.Output_setDirty s
              ++ [start_stop (roi_start roi) (roi_stop roi)])))
  /\ (forall s : OpSplitBodyCarving.state Base,
        OpSplitBodyCarving.propagateDirty OpCarving_propagateDirty
          OpSplitBodyCarving.RavelerLabels roi s
        = Returned tt
            (OpSplitBodyCarving.State
               (OpSplitBodyCarving.base s)
               (OpSplitBodyCarving.Segmentation_callbacks s)
               (OpSplitBodyCarving.MaskedSegmentation_meta s)
               (OpSplitBodyCarving.MaskedSegmentation_setDirty s
                ++ [start_stop (roi_start roi) (roi_stop roi)])
               (OpSplitBodyCarving.delivered s)
               (OpSplitBodyCarving.closures s)))
  /\ region_of (start_stop (roi_start roi) (roi_stop roi)) = region_of_roi roi.
Proof. repeat split; done. Qed.

End PropagateDirtyFacts.

Example propagateDirty_Input_doc :
  OpHighlightLabel.propagateDirty OpHighlightLabel.Input
    (Lazyflow.mkRoi [0; 0] [10; 10])
    (OpHighlightLabel.State (Lazyflow.mkMeta None None None) [])
  = Eff.Returned tt
      (OpHighlightLabel.State (Lazyflow.mkMeta None None None)
         [Lazyflow.start_stop [0; 0] [10; 10]]).
Proof. reflexivity. Qed.

Example propagateDirty_unknown_slot :
  OpHighlightLabel.propagateDirty OpHighlightLabel.Output
    (Lazyflow.mkRoi [0; 0] [10; 10])
    (OpHighlightLabel.State (Lazyflow.mkMeta None None None) [])
  = Eff.Raised Eff.AssertionError
      (OpHighlightLabel.State (Lazyflow.mkMeta None None None) []).
Proof. reflexivity. Qed.

Local Open Scope list_scope.

(** ** C4 and C5: [setupOutputs] and the dirty callbacks *)

Section SetupOutputsFacts.
Import Eff Lazyflow OpSplitBodyCarving.
Context {Base : Type}.
Variable Segmentation_meta : Base -> MetaDict.
Variable OpCarving_setupOutputs : Base -> Base + exn.

#[local] Abbreviation op_state := (OpSplitBodyCarving.state Base).
#[local] Abbreviation setupOutputs :=
  (OpSplitBodyCarving.setupOutputs Segmentation_meta OpCarving_setupOutputs).

Lemma OpHighlightLabel_setupOutputs_idempotent (i : OpHighlightLabel.inputs)
    (s : OpHighlightLabel.state) :
  OpHighlightLabel.setupOutputs i s
  = Returned tt (OpHighlightLabel.State (OpHighlightLabel.Input_meta i)
                                        (OpHighlightLabel.Output_setDirty s))
  /\ OpHighlightLabel.setupOutputs i
       (final_state (OpHighlightLabel.setupOutputs i s))
     = OpHighlightLabel.setupOutputs i s.
Proof. split; reflexivity. Qed.

Lemma setupOutputs_run (s : op_state) (b : Base) :
  OpCarving_setupOutputs (base s) = inl b ->
  setupOutputs s
  = Returned tt
      (State b
         (Segmentation_callbacks s ++ [handleDirtySegmentation (closures s)])
         (Segmentation_meta b)
         (MaskedSegmentation_setDirty s) (delivered s) (S (closures s))).
Proof.
  intros Hb. unfold OpSplitBodyCarving.setupOutputs.
  unfold mbind, M_bind, bind, try_, get. rewrite Hb. reflexivity.
Qed.

Lemma invoke_all_run (cbs : list callback) (roi : region) (s : op_state) :
  invoke_all cbs roi s
  = Returned tt
      (State (base s) (Segmentation_callbacks s) (MaskedSegmentation_meta s)
         (MaskedSegmentation_setDirty s
          ++ map (fun _ => roi_object roi) (handlers cbs))
         (delivered s ++ map (fun i => (i, roi)) (subscribers cbs))
         (closures s)).
Proof.
  revert s. induction cbs as [|cb cbs IH]; intros s.
  - cbn. rewrite !app_nil_r. by destruct s.
  - cbn [invoke_all]. unfold mbind, M_bind, bind.
    destruct cb as [c|i]; cbn [invoke setDirty_MaskedSegmentation modify];
      rewrite IH; cbn; by rewrite <- !app_assoc.
Qed.

(** Every registered function is called once, with the region of the
    event. *)
Lemma setDirty_Segmentation_run (a : dirty_args) (s : op_state) :
  setDirty_Segmentation a s
  = Returned tt
      (State (base s) (Segmentation_callbacks s) (MaskedSegmentation_meta s)
         (MaskedSegmentation_setDirty s
          ++ map (fun _ => roi_object (region_of a))
                 (handlers (Segmentation_callbacks s)))
         (delivered s
          ++ map (fun i => (i, region_of a)) (subscribers (Segmentation_callbacks s)))
         (closures s)).
Proof.
  unfold setDirty_Segmentation, mbind, M_bind, bind, get. apply invoke_all_run.
Qed.

Lemma handlers_app (l1 l2 : list callback) :
  handlers (l1 ++ l2) = handlers l1 ++ handlers l2.
Proof. apply omap_app. Qed.

(** C4 (what the code does): a second call of [setupOutputs] with
    unchanged inputs assigns the same metadata again, and it registers
    one more dirty callback on [Segmentation]: the state after the
    second call differs from the state after the first. *)
Theorem setupOutputs_twice_registers_twice (s : op_state) (b1 b2 : Base) :
  OpCarving_setupOutputs (base s) = inl b1 ->
  OpCarving_setupOutputs b1 = inl b2 ->
  Segmentation_meta b2 = Segmentation_meta b1 ->
  exists s1 s2,
    setupOutputs s = Returned tt s1
    /\ setupOutputs s1 = Returned tt s2
    /\ MaskedSegmentation_meta s2 = MaskedSegmentation_meta s1
    /\ Segmentation_callbacks s2
       = Segmentation_callbacks s1 ++ [handleDirtySegmentation (closures s1)]
    /\ length (Segmentation_callbacks s2) = S (length (Segmentation_callbacks s1))
    /\ s2 <> s1.
Proof.
  intros H1 H2 Hmeta.
  eexists. eexists. split; [by apply setupOutputs_run|].
  split; [by apply setupOutputs_run|]. cbn.
  split; [done|]. split; [done|]. split.
  - rewrite !length_app. cbn. lia.
  - intros [= _ _ Hc]. lia.
Qed.

Lemma setupOutputs_times_run (n : nat) (s : op_state) :
  (forall b, exists b', OpCarving_setupOutputs b = inl b') ->
  exists s',
    times n setupOutputs s = Returned tt s'
    /\ handlers (Segmentation_callbacks s')
       = handlers (Segmentation_callbacks s) ++ seq (closures s) n
    /\ subscribers (Segmentation_callbacks s') = subscribers (Segmentation_callbacks s)
    /\ MaskedSegmentation_setDirty s' = MaskedSegmentation_setDirty s
    /\ delivered s' = delivered s
    /\ closures s' = (closures s + n)%nat.
Proof.
  intros Hbase. revert s. induction n as [|n IH]; intros s.
  - exists s. cbn. rewrite app_nil_r. repeat split; lia.
  - destruct (Hbase (base s)) as [b Hb].
    cbn [times]. unfold bind. rewrite (setupOutputs_run s b Hb).
    destruct (IH (State b
         (Segmentation_callbacks s ++ [handleDirtySegmentation (closures s)])
         (Segmentation_meta b)
         (MaskedSegmentation_setDirty s) (delivered s) (S (closures s))))
      as (s' & Hrun & Hh & Hsub & Hlog & Hdel & Hcl).
    exists s'. cbn in *. split; [exact Hrun|].
    rewrite Hh, Hsub, Hlog, Hdel, Hcl.
    unfold handlers, subscribers. rewrite !omap_app. cbn.
    rewrite app_nil_r, <- app_assoc. repeat split; lia.
Qed.

(** C5 (what the code does): once [setupOutputs] has run [n] times,
    one dirty event on [Segmentation] yields [n] calls of
    [MaskedSegmentation.setDirty], each with the region of the event;
    every subscriber outside of the operator is called once. *)
Theorem setDirty_Segmentation_after_setupOutputs (n : nat) (a : dirty_args)
    (s : op_state) :
  (forall b, exists b', OpCarving_setupOutputs b = inl b') ->
  handlers (Segmentation_callbacks s) = [] ->
  exists s1 s2,
    times n setupOutputs s = Returned tt s1
    /\ setDirty_Segmentation a s1 = Returned tt s2
    /\ MaskedSegmentation_setDirty s2
       = MaskedSegmentation_setDirty s ++ repeat (roi_object (region_of a)) n
    /\ delivered s2
       = delivered s
         ++ map (fun i => (i, region_of a)) (subscribers (Segmentation_callbacks s))
    /\ contains (region_of (roi_object (region_of a))) (region_of a).
Proof.
  intros Hbase Hnone.
  destruct (setupOutputs_times_run n s Hbase)
    as (s1 & Hrun & Hh & Hsub & Hlog & Hdel & _).
  eexists s1, _. split; [exact Hrun|].
  split; [apply setDirty_Segmentation_run|]. cbn [MaskedSegmentation_setDirty delivered].
  rewrite Hh, Hnone, Hsub, Hlog, Hdel. cbn [app].
  split; [|split; [done|]].
  - f_equal. generalize (closures s). clear. induction n as [|n IH]; intros c; [done|].
    cbn. by rewrite IH.
  - cbn. destruct (region_of a); [done|]. split; apply Forall2_same_length_lookup;
      (split; [done|]); intros ? ? ? H1 H2; rewrite H1 in H2; injection H2; lia.
Qed.

End SetupOutputsFacts.

Lemma setupOutputs_twice_registers_twice_witness :
  exists s1 s2,
    OpSplitBodyCarving.setupOutputs (fun _ => Lazyflow.mkMeta (Some [10; 10]) None None)
      inl OpSplitBodyCarving.example_state = Eff.Returned tt s1
    /\ OpSplitBodyCarving.setupOutputs (fun _ => Lazyflow.mkMeta (Some [10; 10]) None None)
         inl s1 = Eff.Returned tt s2
    /\ OpSplitBodyCarving.MaskedSegmentation_meta s2
       = OpSplitBodyCarving.MaskedSegmentation_meta s1
    /\ OpSplitBodyCarving.Segmentation_callbacks s2
       = OpSplitBodyCarving.Segmentation_callbacks s1
         ++ [OpSplitBodyCarving.handleDirtySegmentation (OpSplitBodyCarving.closures s1)]
    /\ length (OpSplitBodyCarving.Segmentation_callbacks s2)
       = S (length (OpSplitBodyCarving.Segmentation_callbacks s1))
    /\ s2 <> s1.
Proof.
  apply (setupOutputs_twice_registers_twice
           (fun _ => Lazyflow.mkMeta (Some [10; 10]) None None) inl
           OpSplitBodyCarving.example_state tt tt); reflexivity.
Defined.

Lemma setDirty_Segmentation_after_setupOutputs_witness :
  exists s1 s2,
    Eff.times 2
      (OpSplitBodyCarving.setupOutputs
         (fun _ => Lazyflow.mkMeta (Some [10; 10]) None None) inl)
      OpSplitBodyCarving.example_state = Eff.Returned tt s1
    /\ OpSplitBodyCarving.setDirty_Segmentation
         (Lazyflow.start_stop [0; 0] [10; 10]) s1 = Eff.Returned tt s2
    /\ OpSplitBodyCarving.MaskedSegmentation_setDirty s2
       = [Lazyflow.roi_object (Lazyflow.Box [0; 0] [10; 10]);
          Lazyflow.roi_object (Lazyflow.Box [0; 0] [10; 10])]
    /\ OpSplitBodyCarving.delivered s2 = []
    /\ Lazyflow.contains (Lazyflow.Box [0; 0] [10; 10]) (Lazyflow.Box [0; 0] [10; 10]).
Proof.
  apply (setDirty_Segmentation_after_setupOutputs
           (fun _ => Lazyflow.mkMeta (Some [10; 10]) None None) inl 2
           (Lazyflow.start_stop [0; 0] [10; 10]) OpSplitBodyCarving.example_state).
  - intros b. exists b. reflexivity.
  - reflexivity.
Defined.

Example setupOutputs_twice_then_dirty :
  Eff.final_state
    (Eff.bind
       (Eff.times 2
          (OpSplitBodyCarving.setupOutputs
             (fun _ => Lazyflow.mkMeta (Some [10; 10]) None None) inl))
       (fun _ => OpSplitBodyCarving.setDirty_Segmentation
                   (Lazyflow.start_stop [0; 0] [10; 10]))
       OpSplitBodyCarving.example_state)
  = OpSplitBodyCarving.State tt
      [OpSplitBodyCarving.handleDirtySegmentation 0;
       OpSplitBodyCarving.handleDirtySegmentation 1]
      (Lazyflow.mkMeta (Some [10; 10]) None None)
      [Lazyflow.roi_object (Lazyflow.Box [0; 0] [10; 10]);
       Lazyflow.roi_object (Lazyflow.Box [0; 0] [10; 10])]
      [] 2.
Proof. reflexivity. Qed.

(** ** Arrays and regions *)

Section ArrayFacts.
Import Numpy Lazyflow.

Lemma length_zrange (s e : Z) : length (zrange s e) = Z.to_nat (e - s).
Proof. unfold zrange. by rewrite length_map, length_seq. Qed.

Lemma zrange_lookup (s e x : Z) :
  (s <= x < e)%Z -> zrange s e !! Z.to_nat (x - s) = Some x.
Proof.
  intros Hx. unfold zrange. rewrite list_lookup_fmap, lookup_seq_lt by lia.
  cbn. f_equal. lia.
Qed.

Lemma length_flat_map_uniform {A B} (f : A -> list B) (l : list A) (L : nat) :
  (forall x, length (f x) = L) -> length (flat_map f l) = (length l * L)%nat.
Proof.
  intros Hf. induction l as [|x l IH]; [done|].
  cbn [flat_map length]. rewrite length_app, Hf, IH. lia.
Qed.

Lemma lookup_flat_map_uniform {A B} (f : A -> list B) (l : list A) (L i j : nat)
    (x : A) (y : B) :
  (forall x, length (f x) = L) ->
  l !! i = Some x -> f x !! j = Some y ->
  flat_map f l !! (i * L + j)%nat = Some y.
Proof.
  intros Hf. revert i. induction l as [|z l IH]; intros i Hi Hj; [done|].
  cbn [flat_map]. destruct i as [|i].
  - cbn in Hi. injection Hi as ->. cbn. by apply lookup_app_l_Some.
  - cbn in Hi. rewrite lookup_app_r by (rewrite Hf; lia).
    rewrite Hf. replace (S i * L + j - L)%nat with (i * L + j)%nat by lia.
    by apply IH.
Qed.

Lemma extent_cons (s e : Z) (start stop : list Z) :
  extent (s :: start) (e :: stop) = (e - s)%Z :: extent start stop.
Proof. reflexivity. Qed.

Lemma size_of_cons (n : Z) (shape : list Z) :
  size_of (n :: shape) = (n * size_of shape)%Z.
Proof. reflexivity. Qed.

Lemma coords_cons (s e : Z) (start stop : list Z) :
  coords (s :: start) (e :: stop)
  = flat_map (fun x => map (cons x) (coords start stop)) (zrange s e).
Proof. reflexivity. Qed.

(** A valid region has as many coordinates as its extent has elements. *)
Lemma length_coords (start stop : list Z) :
  valid_roi start stop ->
  Z.of_nat (length (coords start stop)) = size_of (extent start stop).
Proof.
  induction 1 as [|s e start stop Hse _ IH]; [done|].
  rewrite coords_cons, extent_cons, size_of_cons, <- IH.
  rewrite (length_flat_map_uniform _ _ (length (coords start stop)))
    by (intros; apply length_map).
  rewrite length_zrange, Nat2Z.inj_mul, Z2Nat.id; [done|lia].
Qed.

Lemma in_box_valid (start stop p : list Z) :
  in_box start stop p -> valid_roi start stop.
Proof. induction 1; constructor; [lia|done]. Qed.

(** The element at the offset of [p - start] is the one for [p]. *)
Lemma coords_lookup (start stop p : list Z) :
  in_box start stop p ->
  exists o, offset (extent start stop) (zip_with Z.sub p start) = Some o
            /\ (0 <= o)%Z
            /\ coords start stop !! Z.to_nat o = Some p.
Proof.
  induction 1 as [|s e x start stop p Hx Hbox (o & Ho & Hpos & Hlook)].
  - exists 0%Z. repeat split; done.
  - pose proof (length_coords _ _ (in_box_valid _ _ _ Hbox)) as Hlen.
    exists ((x - s) * size_of (extent start stop) + o)%Z.
    rewrite extent_cons, coords_cons.
    cbn [zip_with offset]. rewrite Ho.
    assert (Hin : (0 <=? x - s)%Z && (x - s <? e - s)%Z = true).
    { apply andb_true_iff. split; [apply Z.leb_le|apply Z.ltb_lt]; lia. }
    rewrite Hin. split; [done|]. split; [rewrite <- Hlen; nia|].
    rewrite <- Hlen.
    replace (Z.to_nat ((x - s) * Z.of_nat (length (coords start stop)) + o))
      with (Z.to_nat (x - s) * length (coords start stop) + Z.to_nat o)%nat by nia.
    apply lookup_flat_map_uniform with (x := x).
    + intros. apply length_map.
    + by apply zrange_lookup.
    + by rewrite list_lookup_fmap, Hlook.
Qed.

Lemma getitem_request (v : volume) (start stop p : list Z) :
  in_box start stop p ->
  getitem (request v start stop) (zip_with Z.sub p start) = Some (v p).
Proof.
  intros Hbox. destruct (coords_lookup _ _ _ Hbox) as (o & Ho & _ & Hlook).
  unfold getitem, request. cbn [shape data]. rewrite Ho.
  by rewrite list_lookup_fmap, Hlook.
Qed.

Lemma shapes_eqb_refl (s : list Z) : shapes_eqb s s = true.
Proof. unfold shapes_eqb. by apply bool_decide_eq_true. Qed.

Lemma select_map {A} (c : A -> bool) (x y : A -> Z) (l : list A) :
  select (map c l) (map x l) (map y l)
  = map (fun a => if c a then x a else y a) l.
Proof. induction l as [|a l IH]; [done|]. cbn. by rewrite IH. Qed.

Lemma map_const_length {A B C} (c : C) (l1 : list A) (l2 : list B) :
  length l1 = length l2 -> map (fun _ => c) l1 = map (fun _ => c) l2.
Proof.
  revert l2. induction l1 as [|a l1 IH]; intros [|b l2] Hlen; try done.
  cbn in *. f_equal. apply IH. lia.
Qed.

Lemma writeInto_request (v : volume) (start stop : list Z) (result : ndarray Z) :
  shape result = extent start stop ->
  writeInto v start stop result = Some (request v start stop).
Proof.
  intros Hshape. unfold writeInto, request. rewrite Hshape, shapes_eqb_refl. done.
Qed.

End ArrayFacts.

(** ** C8 and C9: what [execute] returns *)

Section ExecuteFacts.
Import Numpy Lazyflow.
Context {Base : Type}.
Variable Segmentation_data : Base -> volume.
Variable OpCarving_execute :
  OpSplitBodyCarving.Slot -> Roi -> ndarray Z -> Base -> ndarray Z + Eff.exn.

#[local] Abbreviation carving_execute :=
  (OpSplitBodyCarving.execute Segmentation_data OpCarving_execute).
#[local] Abbreviation carving_call :=
  (OpSplitBodyCarving.call Segmentation_data OpCarving_execute).

Lemma length_allocate (start stop : list Z) (junk : Z) :
  length (data (allocate start stop junk)) = length (coords start stop).
Proof. unfold allocate. cbn. apply length_map. Qed.

(** With a label other than 0 the destination is overwritten entirely,
    with label 0 it is filled with zeros. *)
Lemma OpHighlightLabel_execute_run (i : OpHighlightLabel.inputs)
    (start stop : list Z) (result : ndarray Z) :
  shape result = extent start stop ->
  OpHighlightLabel.execute i OpHighlightLabel.Output (mkRoi start stop) result
  = inl (NdArray (extent start stop)
           (if (OpHighlightLabel.HighlightLabel_value i =? 0)%Z
            then map (fun _ => 0%Z) (data result)
            else map (fun p =>
                        if (OpHighlightLabel.Input_data i p
                            =? OpHighlightLabel.HighlightLabel_value i)%Z
                        then 1%Z else 0%Z)
                     (coords start stop))).
Proof.
  intros Hshape. unfold OpHighlightLabel.execute. cbn [roi_start roi_stop].
  rewrite bool_decide_eq_true_2 by done. cbn [negb].
  destruct (OpHighlightLabel.HighlightLabel_value i =? 0)%Z.
  - unfold fill. by rewrite Hshape.
  - rewrite writeInto_request by done.
    unfold where_, eq_scalar, request, elements_as. cbn [shape data].
    rewrite !map_map.
    rewrite (select_map
               (fun p => (OpHighlightLabel.Input_data i p
                          =? OpHighlightLabel.HighlightLabel_value i)%Z)
               (fun _ => 1%Z) (fun _ => 0%Z)).
    unfold assign. cbn [shape data]. by rewrite shapes_eqb_refl.
Qed.

Lemma MaskedSegmentation_execute_run (i : OpSplitBodyCarving.inputs)
    (s : OpSplitBodyCarving.state Base) (start stop : list Z) (result : ndarray Z) :
  shape result = extent start stop ->
  carving_execute i OpSplitBodyCarving.MaskedSegmentation (mkRoi start stop) result s
  = inl (NdArray (extent start stop)
           (map (fun p =>
                   if (OpSplitBodyCarving.RavelerLabels_data i p
                       =? OpSplitBodyCarving.CurrentRavelerLabel_value i)%Z
                   then Segmentation_data (OpSplitBodyCarving.base s) p else 0%Z)
                (coords start stop))).
Proof.
  intros Hshape. unfold OpSplitBodyCarving.execute. cbn [roi_start roi_stop].
  rewrite bool_decide_eq_true_2 by done.
  rewrite writeInto_request by done.
  unfold where_, eq_scalar, request, elements_as. cbn [shape data].
  rewrite shapes_eqb_refl, !map_map.
  rewrite (select_map
             (fun p => (OpSplitBodyCarving.RavelerLabels_data i p
                        =? OpSplitBodyCarving.CurrentRavelerLabel_value i)%Z)
             (Segmentation_data (OpSplitBodyCarving.base s)) (fun _ => 0%Z)).
  unfold assign, OpHighlightLabel.numpy_call. cbn [shape data].
  by rewrite shapes_eqb_refl.
Qed.

Lemma getitem_map_coords {A} (f : list Z -> A) (start stop p : list Z) :
  in_box start stop p ->
  getitem (NdArray (extent start stop) (map f (coords start stop)))
          (zip_with Z.sub p start) = Some (f p).
Proof.
  intros Hbox. destruct (coords_lookup _ _ _ Hbox) as (o & Ho & _ & Hlook).
  unfold getitem. cbn [shape data]. rewrite Ho.
  by rewrite list_lookup_fmap, Hlook.
Qed.

(** A destination of the roi's extent that is well formed has as many
    elements as the roi has coordinates. *)
Lemma length_destination (start stop : list Z) (result : ndarray Z) :
  valid_roi start stop ->
  shape result = extent start stop -> wf result ->
  length (data result) = length (coords start stop).
Proof.
  intros Hvalid Hshape Hwf. unfold wf in Hwf. rewrite Hshape in Hwf.
  apply Nat2Z.inj. by rewrite Hwf, (length_coords _ _ Hvalid).
Qed.

(** C8: for every valid roi, [execute] fills the destination it is
    given, of the roi's extent, and returns it, for [OpHighlightLabel.Output]
    and for [OpSplitBodyCarving.MaskedSegmentation]: the array returned
    has the shape of the destination, which is [stop - start]
    elementwise, it has that many elements, and at every position of
    the roi it holds the data of the output slot, whatever the
    destination held before. A read of the slot, for which the engine
    allocates the destination, returns that array. *)
Theorem execute_returns_roi_extent (ih : OpHighlightLabel.inputs)
    (i : OpSplitBodyCarving.inputs) (s : OpSplitBodyCarving.state Base)
    (start stop : list Z) (junk : Z) :
  valid_roi start stop ->
  (forall result, shape result = extent start stop -> wf result ->
     exists r, OpHighlightLabel.execute ih OpHighlightLabel.Output
                 (mkRoi start stop) result = inl r
               /\ OpHighlightLabel.call_Output ih start stop junk = inl r
               /\ shape r = shape result
               /\ shape r = zip_with Z.sub stop start
               /\ wf r
               /\ forall p, in_box start stop p ->
                    getitem r (zip_with Z.sub p start)
                    = Some (if (OpHighlightLabel.HighlightLabel_value ih =? 0)%Z then 0%Z
                            else if (OpHighlightLabel.Input_data ih p
                                     =? OpHighlightLabel.HighlightLabel_value ih)%Z
                                 then 1%Z else 0%Z))
  /\ (forall result, shape result = extent start stop -> wf result ->
        exists r, carving_execute i OpSplitBodyCarving.MaskedSegmentation
                    (mkRoi start stop) result s = inl r
                  /\ carving_call i OpSplitBodyCarving.MaskedSegmentation
                       start stop junk s = inl r
                  /\ shape r = shape result
                  /\ shape r = zip_with Z.sub stop start
                  /\ wf r
                  /\ forall p, in_box start stop p ->
                       getitem r (zip_with Z.sub p start)
                       = Some (if (OpSplitBodyCarving.RavelerLabels_data i p
                                   =? OpSplitBodyCarving.CurrentRavelerLabel_value i)%Z
                               then Segmentation_data (OpSplitBodyCarving.base s) p
                               else 0%Z)).
Proof.
  intros Hvalid. pose proof (length_coords _ _ Hvalid) as Hlen.
  assert (Hjunk : wf (allocate start stop junk)).
  { unfold wf. by rewrite length_allocate. }
  split.
  - intros result Hshape Hwf.
    exists (NdArray (extent start stop)
              (map (fun p => if (OpHighlightLabel.HighlightLabel_value ih =? 0)%Z then 0%Z
                             else if (OpHighlightLabel.Input_data ih p
                                      =? OpHighlightLabel.HighlightLabel_value ih)%Z
                                  then 1%Z else 0%Z)
                   (coords start stop))).
    assert (Hfilled : forall dest, shape dest = extent start stop -> wf dest ->
              OpHighlightLabel.execute ih OpHighlightLabel.Output (mkRoi start stop) dest
              = inl (NdArray (extent start stop)
                       (map (fun p =>
                               if (OpHighlightLabel.HighlightLabel_value ih =? 0)%Z then 0%Z
                               else if (OpHighlightLabel.Input_data ih p
                                        =? OpHighlightLabel.HighlightLabel_value ih)%Z
                                    then 1%Z else 0%Z)
                            (coords start stop)))).
    { intros dest Hd Hwfd. rewrite OpHighlightLabel_execute_run by done.
      destruct (OpHighlightLabel.HighlightLabel_value ih =? 0)%Z; [|done].
      do 2 f_equal. apply map_const_length. by apply length_destination. }
    split; [by apply Hfilled|].
    split; [by apply Hfilled|].
    split; [by rewrite Hshape|]. split; [done|].
    split; [unfold wf; cbn [shape data]; by rewrite length_map|].
    intros p Hbox.
    by rewrite (getitem_map_coords
                  (fun p => if (OpHighlightLabel.HighlightLabel_value ih =? 0)%Z then 0%Z
                            else if (OpHighlightLabel.Input_data ih p
                                     =? OpHighlightLabel.HighlightLabel_value ih)%Z
                                 then 1%Z else 0%Z)).
  - intros result Hshape Hwf.
    eexists. split; [by apply MaskedSegmentation_execute_run|].
    split.
    { unfold OpSplitBodyCarving.call. rewrite bool_decide_eq_false_2 by done.
      by apply MaskedSegmentation_execute_run. }
    split; [by rewrite Hshape|]. split; [done|].
    split; [unfold wf; cbn [shape data]; by rewrite length_map|].
    intros p Hbox.
    by rewrite (getitem_map_coords
                  (fun p => if (OpSplitBodyCarving.RavelerLabels_data i p
                                =? OpSplitBodyCarving.CurrentRavelerLabel_value i)%Z
                            then Segmentation_data (OpSplitBodyCarving.base s) p
                            else 0%Z)).
Qed.

(** C9: for every roi and every position [p] in it, reading
    [HighlightedRavelerObject] (connected to the output of the
    highlighter) gives 0 at [p] when [CurrentRavelerLabel] is 0, and
    otherwise 1 at [p] if [RavelerLabels] at [p] equals the label and 0
    if it does not. *)
Theorem HighlightedRavelerObject_highlights (i : OpSplitBodyCarving.inputs)
    (s : OpSplitBodyCarving.state Base) (start stop p : list Z) (junk : Z) :
  in_box start stop p ->
  exists r,
    carving_call i OpSplitBodyCarving.HighlightedRavelerObject start stop junk s = inl r
    /\ getitem r (zip_with Z.sub p start)
       = Some (if (OpSplitBodyCarving.CurrentRavelerLabel_value i =? 0)%Z then 0%Z
               else if (OpSplitBodyCarving.RavelerLabels_data i p
                        =? OpSplitBodyCarving.CurrentRavelerLabel_value i)%Z
                    then 1%Z else 0%Z).
Proof.
  intros Hbox. unfold OpSplitBodyCarving.call.
  rewrite bool_decide_eq_true_2 by done.
  unfold OpHighlightLabel.call_Output.
  rewrite OpHighlightLabel_execute_run by done.
  cbn [OpSplitBodyCarving._opHighlighter_inputs OpHighlightLabel.HighlightLabel_value
       OpHighlightLabel.Input_data].
  eexists. split; [done|].
  destruct (OpSplitBodyCarving.CurrentRavelerLabel_value i =? 0)%Z.
  - unfold allocate. cbn [data]. rewrite map_map.
    by rewrite (getitem_map_coords (fun _ => 0%Z)).
  - by rewrite (getitem_map_coords
                  (fun p => if (OpSplitBodyCarving.RavelerLabels_data i p
                                =? OpSplitBodyCarving.CurrentRavelerLabel_value i)%Z
                            then 1%Z else 0%Z)).
Qed.

(** X27: the other output, [MaskedSegmentation], is the segmentation
    where the label is the current one, and 0 elsewhere. *)
Lemma MaskedSegmentation_masks (i : OpSplitBodyCarving.inputs)
    (s : OpSplitBodyCarving.state Base) (start stop p : list Z) (junk : Z) :
  in_box start stop p ->
  exists r,
    carving_call i OpSplitBodyCarving.MaskedSegmentation start stop junk s = inl r
    /\ getitem r (zip_with Z.sub p start)
       = Some (if (OpSplitBodyCarving.RavelerLabels_data i p
                   =? OpSplitBodyCarving.CurrentRavelerLabel_value i)%Z
               then Segmentation_data (OpSplitBodyCarving.base s) p else 0%Z).
Proof.
  intros Hbox. unfold OpSplitBodyCarving.call.
  rewrite bool_decide_eq_false_2 by done.
  rewrite MaskedSegmentation_execute_run by done.
  eexists. split; [done|].
  by rewrite (getitem_map_coords
                (fun p => if (OpSplitBodyCarving.RavelerLabels_data i p
                              =? OpSplitBodyCarving.CurrentRavelerLabel_value i)%Z
                          then Segmentation_data (OpSplitBodyCarving.base s) p
                          else 0%Z)).
Qed.

End ExecuteFacts.

Lemma execute_returns_roi_extent_witness :
  (exists r,
      OpHighlightLabel.execute
        (OpSplitBodyCarving._opHighlighter_inputs OpSplitBodyCarving.example_inputs)
        OpHighlightLabel.Output (Lazyflow.mkRoi [0; 1] [2; 4])
        (Numpy.NdArray [2; 3] [9; 9; 9; 9; 9; 9]) = inl r
      /\ Numpy.shape r = [2; 3] /\ Numpy.wf r
      /\ Numpy.getitem r [1; 0] = Some 1)
  /\ (exists r,
        OpSplitBodyCarving.execute (fun _ _ => 7) (fun _ _ r _ => inl r)
          OpSplitBodyCarving.example_inputs OpSplitBodyCarving.MaskedSegmentation
          (Lazyflow.mkRoi [0; 1] [2; 4]) (Numpy.NdArray [2; 3] [9; 9; 9; 9; 9; 9])
          OpSplitBodyCarving.example_state = inl r
        /\ Numpy.shape r = [2; 3] /\ Numpy.wf r
        /\ Numpy.getitem r [1; 0] = Some 7).
Proof.
  pose proof (execute_returns_roi_extent (fun _ _ => 7) (fun _ _ r _ => inl r)
                (OpSplitBodyCarving._opHighlighter_inputs OpSplitBodyCarving.example_inputs)
                OpSplitBodyCarving.example_inputs OpSplitBodyCarving.example_state
                [0; 1] [2; 4] 9) as H.
  assert (Hvalid : Lazyflow.valid_roi [0; 1] [2; 4]).
  { unfold Lazyflow.valid_roi. repeat constructor; lia. }
  assert (Hbox : Lazyflow.in_box [0; 1] [2; 4] [1; 1]).
  { repeat constructor; lia. }
  destruct (H Hvalid) as [H1 H2]. split.
  - destruct (H1 (Numpy.NdArray [2; 3] [9; 9; 9; 9; 9; 9]) eq_refl eq_refl)
      as (r & Hr & _ & _ & Hshape & Hwf & Hat).
    exists r. split; [exact Hr|]. split; [exact Hshape|]. split; [exact Hwf|].
    exact (Hat [1; 1] Hbox).
  - destruct (H2 (Numpy.NdArray [2; 3] [9; 9; 9; 9; 9; 9]) eq_refl eq_refl)
      as (r & Hr & _ & _ & Hshape & Hwf & Hat).
    exists r. split; [exact Hr|]. split; [exact Hshape|]. split; [exact Hwf|].
    exact (Hat [1; 1] Hbox).
Defined.

Lemma HighlightedRavelerObject_highlights_witness :
  exists r,
    OpSplitBodyCarving.call (fun _ _ => 7) (fun _ _ r _ => inl r)
      OpSplitBodyCarving.example_inputs OpSplitBodyCarving.HighlightedRavelerObject
      [0; 1] [2; 4] 9 OpSplitBodyCarving.example_state = inl r
    /\ Numpy.getitem r [1; 0] = Some 1.
Proof.
  apply (HighlightedRavelerObject_highlights (fun _ _ => 7) (fun _ _ r _ => inl r)
           OpSplitBodyCarving.example_inputs OpSplitBodyCarving.example_state
           [0; 1] [2; 4] [1; 1] 9).
  repeat constructor; lia.
Defined.

Example HighlightedRavelerObject_doc :
  OpSplitBodyCarving.call (fun _ _ => 7) (fun _ _ r _ => inl r)
    OpSplitBodyCarving.example_inputs OpSplitBodyCarving.HighlightedRavelerObject
    [0; 1] [2; 4] 9 OpSplitBodyCarving.example_state
  = inl (Numpy.NdArray [2; 3] [0; 1; 0; 1; 0; 0]).
Proof. reflexivity. Qed.

Example MaskedSegmentation_doc :
  OpSplitBodyCarving.call (fun _ _ => 7) (fun _ _ r _ => inl r)
    OpSplitBodyCarving.example_inputs OpSplitBodyCarving.MaskedSegmentation
    [0; 1] [2; 4] 9 OpSplitBodyCarving.example_state
  = inl (Numpy.NdArray [2; 3] [0; 7; 0; 7; 0; 0]).
Proof. reflexivity. Qed.

(** ** C10: the re-entrancy guard of the multicut GUI *)

Section GuiFacts.
Import Eff MulticutGui.
Context {float : Type} `{EqDecision float}.
Variable spinbox_value : float -> float.
Variable AVAILABLE_SOLVER_NAMES : list string.
Variable DEFAULT_SOLVER_NAME : string.

#[local] Abbreviation gui_state := (MulticutGui.state float).
#[local] Abbreviation run :=
  (MulticutGui.run spinbox_value AVAILABLE_SOLVER_NAMES DEFAULT_SOLVER_NAME).

Lemma run_S (d : nat) (h : handler) :
  run (S d) h
  = match h with
    | gui_from_operator =>
        configure_gui_from_operator spinbox_value AVAILABLE_SOLVER_NAMES
          DEFAULT_SOLVER_NAME (fun h' => run d h';; mret tt)
    | operator_from_gui =>
        configure_operator_from_gui AVAILABLE_SOLVER_NAMES (fun h' => run d h';; mret tt)
    end.
Proof. reflexivity. Qed.

Lemma run_guarded (d : nat) (h : handler) (s : gui_state) :
  _currently_updating s = true -> run (S d) h s = Returned (Some false) s.
Proof.
  intros Hs. rewrite run_S.
  destruct h; unfold configure_gui_from_operator, configure_operator_from_gui;
    unfold mbind, M_bind, bind, get; by rewrite Hs.
Qed.

Lemma signal_guarded (d : nat) (h : handler) (s : gui_state) :
  _currently_updating s = true -> (run (S d) h;; mret tt) s = Returned tt s.
Proof. intros Hs. unfold mbind, M_bind, bind. by rewrite run_guarded. Qed.

Lemma index_In (l : list string) (x : string) :
  In x l -> exists i, index l x = Some i.
Proof.
  induction l as [|y l IH]; [done|]. intros [->|Hin]; cbn [index].
  - rewrite bool_decide_eq_true_2 by done. eauto.
  - destruct (bool_decide (y = x)); [eauto|].
    destruct (IH Hin) as [i ->]. cbn. eauto.
Qed.

Lemma operator_from_gui_run (d : nat) (s : gui_state) :
  _currently_updating s = false ->
  run (S (S d)) operator_from_gui s
  = Returned None
      (State false (beta_box s) (solver_name_combo s) (beta_box s)
             (currentText AVAILABLE_SOLVER_NAMES (solver_name_combo s))).
Proof.
  intros Hs. rewrite run_S. unfold configure_operator_from_gui, set_updating.
  unfold Beta_setValue, SolverName_setValue, set_currently_updating,
    mbind, M_bind, bind, mret, M_ret, ret, get, modify, raise.
  cbn -[MulticutGui.run]. rewrite Hs. cbn -[MulticutGui.run]. rewrite Hs.
  rewrite run_guarded by done. cbn -[MulticutGui.run].
  rewrite run_guarded by done. reflexivity.
Qed.

Lemma index_range (l : list string) (x : string) (i : Z) :
  index l x = Some i -> (0 <= i < Z.of_nat (length l))%Z.
Proof.
  revert i. induction l as [|y l IH]; intros i; [done|]. cbn [index length].
  destruct (bool_decide (y = x)).
  - intros [= <-]. lia.
  - destruct (index l x) as [j|]; [|done]. intros [= <-].
    specialize (IH j eq_refl). lia.
Qed.

Lemma setCurrentIndex_guarded (d : nat) (i : Z) (s : gui_state) :
  _currently_updating s = true ->
  (0 <= i < Z.of_nat (length AVAILABLE_SOLVER_NAMES))%Z ->
  solver_name_combo_setCurrentIndex AVAILABLE_SOLVER_NAMES
    (fun h' => run (S d) h';; mret tt) i s
  = Returned tt (State true (beta_box s) i (Beta s) (SolverName s)).
Proof.
  intros Hs Hi. unfold solver_name_combo_setCurrentIndex.
  unfold mbind, M_bind, bind, mret, M_ret, ret, get, modify.
  assert (Hin : (0 <=? i)%Z && (i <? Z.of_nat (length AVAILABLE_SOLVER_NAMES))%Z = true).
  { apply andb_true_iff. split; [apply Z.leb_le|apply Z.ltb_lt]; lia. }
  rewrite Hin. destruct (Z.eqb_spec i (solver_name_combo s)) as [->|_].
  - destruct s; cbn in *. by subst.
  - rewrite run_guarded by done. by rewrite Hs.
Qed.

Lemma beta_box_setValue_guarded (d : nat) (v : float) (s : gui_state) :
  _currently_updating s = true ->
  beta_box_setValue spinbox_value (fun h' => run (S d) h';; mret tt) v s
  = Returned tt (State true (spinbox_value v) (solver_name_combo s) (Beta s) (SolverName s)).
Proof.
  intros Hs. unfold beta_box_setValue.
  unfold mbind, M_bind, bind, mret, M_ret, ret, get, modify.
  case_bool_decide as Hv.
  - destruct s; cbn in *. by subst.
  - rewrite run_guarded by done. by rewrite Hs.
Qed.

Lemma SolverName_setValue_guarded (d : nat) (v : string) (s : gui_state) :
  _currently_updating s = true ->
  SolverName_setValue (fun h' => run (S d) h';; mret tt) v s
  = Returned tt (State true (beta_box s) (solver_name_combo s) (Beta s) v).
Proof.
  intros Hs. unfold SolverName_setValue.
  unfold mbind, M_bind, bind, mret, M_ret, ret, modify.
  rewrite run_guarded by done. by rewrite Hs.
Qed.

Lemma Beta_setValue_guarded (d : nat) (v : float) (s : gui_state) :
  _currently_updating s = true ->
  Beta_setValue (fun h' => run (S d) h';; mret tt) v s
  = Returned tt (State true (beta_box s) (solver_name_combo s) v (SolverName s)).
Proof.
  intros Hs. unfold Beta_setValue.
  unfold mbind, M_bind, bind, mret, M_ret, ret, modify.
  rewrite run_guarded by done. by rewrite Hs.
Qed.

Lemma set_updating_run (body : M gui_state unit) (s s1 : gui_state) :
  _currently_updating s = false ->
  body (State true (beta_box s) (solver_name_combo s) (Beta s) (SolverName s))
  = Returned tt s1 ->
  set_updating body s
  = Returned tt (State false (beta_box s1) (solver_name_combo s1) (Beta s1) (SolverName s1)).
Proof.
  intros Hs Hbody. unfold set_updating, set_currently_updating.
  unfold mbind, M_bind, bind, get, modify. rewrite Hs. by rewrite Hbody.
Qed.

Lemma guarded_run (body : M gui_state unit) (s s1 : gui_state) :
  _currently_updating s = false ->
  body (State true (beta_box s) (solver_name_combo s) (Beta s) (SolverName s))
  = Returned tt s1 ->
  (s0 ← get;
   if _currently_updating s0 then mret (Some false)
   else set_updating body;; mret None) s
  = Returned None
      (State false (beta_box s1) (solver_name_combo s1) (Beta s1) (SolverName s1)).
Proof.
  intros Hs Hbody. unfold mbind at 1, M_bind at 1, bind at 1. rewrite get_run, Hs.
  by rewrite (bind_run _ _ _ _ _ (set_updating_run body s s1 Hs Hbody)).
Qed.

(** Without a default solver among the available ones the handler
    raises inside [set_updating], and the flag stays set. *)
Lemma gui_from_operator_raises (d : nat) (s : gui_state) :
  _currently_updating s = false ->
  index AVAILABLE_SOLVER_NAMES (SolverName s) = None ->
  index AVAILABLE_SOLVER_NAMES DEFAULT_SOLVER_NAME = None ->
  run (S (S d)) gui_from_operator s
  = Raised ValueError
      (State true (spinbox_value (Beta s)) (solver_name_combo s) (Beta s) (SolverName s)).
Proof.
  intros Hs Hname Hdef. rewrite run_S.
  unfold configure_gui_from_operator, set_updating, set_currently_updating.
  rewrite (bind_run _ _ _ _ _ (get_run _)), Hs.
  apply bind_Raised.
  rewrite (bind_run _ _ _ _ _ (get_run _)), Hs.
  rewrite (bind_run _ _ _ _ _ (modify_run _ _)).
  apply bind_Raised.
  rewrite (bind_run _ _ _ _ _ (get_run _)).
  erewrite bind_run by (by apply beta_box_setValue_guarded).
  rewrite (bind_run _ _ _ _ _ (get_run _)). cbn [SolverName]. rewrite Hname, Hdef.
  reflexivity.
Qed.


End GuiFacts.



Example gui_from_operator_unknown_solver :
  MulticutGui.run (fun v : Z => Z.max 1 (Z.min 99 v)) ["Nifty"; "Cplex"] "Cplex"
    2 MulticutGui.gui_from_operator (MulticutGui.State false 50 0 120 "Gurobi")
  = Eff.Returned None (MulticutGui.State false 99 1 120 "Cplex").
Proof. vm_compute. reflexivity. Qed.

Example operator_from_gui_doc :
  MulticutGui.run (fun v : Z => Z.max 1 (Z.min 99 v)) ["Nifty"; "Cplex"] "Nifty"
    2 MulticutGui.operator_from_gui (MulticutGui.State false 50 1 10 "Nifty")
  = Eff.Returned None (MulticutGui.State false 50 1 50 "Cplex").
Proof. vm_compute. reflexivity. Qed.

Example handler_needs_two_frames :
  MulticutGui.run (fun v : Z => Z.max 1 (Z.min 99 v)) ["Nifty"; "Cplex"] "Nifty"
    1 MulticutGui.operator_from_gui (MulticutGui.State false 50 1 10 "Nifty")
  = Eff.Raised Eff.RecursionError (MulticutGui.State true 50 1 50 "Nifty").
Proof. vm_compute. reflexivity. Qed.

(** * Further properties of the sources *)

(** ** Slicings: what is written and what is read *)

Section SlicingEdges.
Import Py Slicing.
Local Open Scope string_scope.

Lemma str_no (sep : ascii) (v : value) :
  is_digit sep = false -> Ascii.eqb sep "-" = false ->
  all_chars (fun c => negb (Ascii.eqb c sep)) "None" = true ->
  all_chars (fun c => negb (Ascii.eqb c sep)) (str v) = true.
Proof. intros Hd Hm Hn. destruct v as [|z]; [exact Hn|by apply str_int_no]. Qed.

Lemma slice_text_no_comma_any (s : slice) :
  all_chars (fun c => negb (Ascii.eqb c ",")) (slice_text s) = true.
Proof.
  unfold slice_text. rewrite all_chars_app. cbn [all_chars].
  by rewrite !str_no.
Qed.

(** The pieces [stringToSlicing] works on, for a slicing that was
    written by [slicingToString]. *)
Lemma stringToSlicing_slicingToString_pieces (l : list slice) :
  l <> [] ->
  stringToSlicing (slicingToString l) = parse_slices (map slice_text l).
Proof.
  intros Hl. rewrite slicingToString_join by done.
  unfold stringToSlicing. rewrite strip_ends_brackets, split_join; [done| |].
  - by destruct l.
  - clear Hl. induction l; constructor; [apply slice_text_no_comma_any|done].
Qed.

Lemma parse_slice_ends (s : slice) :
  parse_slice (slice_text s)
  = match int (str (start s)) with
    | Some a => match int (str (stop s)) with
                | Some b => Some (slice2 a b)
                | None => None
                end
    | None => None
    end.
Proof.
  unfold parse_slice, slice_text.
  rewrite split_app by (by apply str_no).
  by rewrite split_none by (by apply str_no).
Qed.

(** X1: the round trip holds for integer bounds of any sign. *)
Theorem roundtrip_any_sign (roi : list slice) :
  roi <> [] ->
  Forall (fun s => exists a b : Z, s = slice2 a b) roi ->
  stringToSlicing (slicingToString roi) = Some roi.
Proof.
  intros Hne Hall. rewrite stringToSlicing_slicingToString_pieces by done.
  clear Hne. induction Hall as [|s l (a & b & ->) _ IH]; [done|].
  cbn [map parse_slices]. rewrite parse_slice_ends. cbn [start stop slice2].
  by rewrite !int_str, IH.
Qed.

Lemma parse_slices_None (l1 l2 : list string) (x : string) :
  parse_slice x = None -> parse_slices (l1 ++ x :: l2) = None.
Proof.
  intros Hx. induction l1 as [|y l1 IH]; cbn [app parse_slices].
  - by rewrite Hx.
  - destruct (parse_slice y); [|done]. by rewrite IH.
Qed.

(** X2: a slice with an open bound ([None]) is written, as the text
    "None", but the string cannot be read back. *)
Theorem open_bound_not_read_back (roi : list slice) (s : slice) :
  s ∈ roi ->
  start s = None_ \/ stop s = None_ ->
  stringToSlicing (slicingToString roi) = None.
Proof.
  intros Hin Hopen.
  rewrite stringToSlicing_slicingToString_pieces by (intros ->; by apply elem_of_nil in Hin).
  apply list_elem_of_split in Hin as (l1 & l2 & ->).
  rewrite map_app. cbn [map]. apply parse_slices_None.
  rewrite parse_slice_ends. destruct Hopen as [-> | ->]; [done|].
  by destruct (int (str (start s))).
Qed.

Lemma split_cons (sep : ascii) (s : string) :
  exists h t, split sep s = h :: t.
Proof.
  induction s as [|c s (h & t & IH)]; [by eexists _, _|].
  cbn [split]. destruct (Ascii.eqb c sep); [by eexists _, _|].
  rewrite IH. by eexists _, _.
Qed.

Lemma parse_slice_plain (x : string) (s : slice) :
  parse_slice x = Some s -> exists a b, s = slice2 a b.
Proof.
  unfold parse_slice. destruct (split ":" x) as [|e0 [|e1 ?]]; try done.
  destruct (int e0) as [a|]; [|done]. destruct (int e1) as [b|]; [|done].
  intros [= <-]. eauto.
Qed.

Lemma parse_slices_plain (pieces : list string) (roi : list slice) :
  parse_slices pieces = Some roi ->
  length roi = length pieces
  /\ Forall (fun s => exists a b : Z, start s = Int a /\ stop s = Int b
                                      /\ step s = None_) roi.
Proof.
  revert roi. induction pieces as [|x pieces IH]; intros roi; cbn [parse_slices].
  - intros [= <-]. split; [done|constructor].
  - destruct (parse_slice x) as [s|] eqn:Hx; [|done].
    destruct (parse_slices pieces) as [sls|]; [|done].
    intros [= <-]. destruct (IH sls eq_refl) as [Hlen Hall].
    split; [cbn; by rewrite Hlen|]. constructor; [|done].
    apply parse_slice_plain in Hx as (a & b & ->). by exists a, b.
Qed.

(** X3: whatever the string, a slicing that [stringToSlicing] returns is
    never empty, and its slices have two integer bounds and no step. *)
Theorem stringToSlicing_result (text : string) (roi : list slice) :
  stringToSlicing text = Some roi ->
  roi <> []
  /\ Forall (fun s => exists a b : Z, start s = Int a /\ stop s = Int b
                                      /\ step s = None_) roi.
Proof.
  unfold stringToSlicing.
  destruct (split_cons "," (strip_ends text)) as (h & t & ->).
  intros [Hlen Hall]%parse_slices_plain. split; [|done].
  intros ->. discriminate Hlen.
Qed.

Lemma all_chars_drop_last P (s : string) :
  all_chars P s = true -> all_chars P (drop_last s) = true.
Proof.
  induction s as [|c s IH]; [done|]. cbn [all_chars drop_last].
  intros [Hc Hs]%andb_true_iff. destruct s; [done|].
  cbn [all_chars] in *. by rewrite Hc, IH.
Qed.

Lemma all_chars_strip_ends P (s : string) :
  all_chars P s = true -> all_chars P (strip_ends s) = true.
Proof.
  intros Hs%all_chars_drop_last. unfold strip_ends.
  destruct (drop_last s); [done|]. cbn [all_chars drop_first] in *.
  by apply andb_true_iff in Hs as [_ ?].
Qed.

Lemma split_head_chars P (sep : ascii) (s h : string) (t : list string) :
  all_chars P s = true -> split sep s = h :: t -> all_chars P h = true.
Proof.
  revert h t. induction s as [|c s IH]; intros h t; cbn [all_chars split].
  - by intros _ [= <- _].
  - intros [Hc Hs]%andb_true_iff. destruct (Ascii.eqb c sep); [by intros [= <- _]|].
    destruct (split sep s) as [|h' t'] eqn:E.
    + intros [= <- _]. cbn [all_chars]. by rewrite Hc.
    + intros [= <- _]. cbn [all_chars]. by rewrite Hc, (IH h' t').
Qed.

(** X4: a string without any colon is not a slicing: reading it fails
    (the first piece has no second end). *)
Theorem stringToSlicing_needs_colon (text : string) :
  all_chars (fun c => negb (Ascii.eqb c ":")) text = true ->
  stringToSlicing text = None.
Proof.
  intros Htext%all_chars_strip_ends. unfold stringToSlicing.
  destruct (split_cons "," (strip_ends text)) as (h & t & E). rewrite E.
  pose proof (split_head_chars _ _ _ _ _ Htext E) as Hh.
  cbn [parse_slices]. unfold parse_slice. by rewrite (split_none _ _ Hh).
Qed.

(** X5: the first and the last character are dropped without a look at
    them: any two delimiters read like the brackets, and a string of
    fewer than two characters reads like the empty one. *)
Theorem stringToSlicing_delimiters (opening closing : ascii) (body : string) :
  stringToSlicing (String opening (body ++ String closing ""))
  = stringToSlicing (String "[" (body ++ "]"))
  /\ stringToSlicing (String opening "") = stringToSlicing ""
  /\ stringToSlicing "" = None.
Proof.
  split; [|done]. unfold stringToSlicing. by rewrite !strip_ends_brackets.
Qed.

End SlicingEdges.

Lemma roundtrip_any_sign_witness :
  Slicing.stringToSlicing
    (Slicing.slicingToString [Py.slice2 (-5) (-1); Py.slice2 0 7])
  = Some [Py.slice2 (-5) (-1); Py.slice2 0 7].
Proof.
  apply roundtrip_any_sign; [discriminate|].
  repeat apply Forall_cons_2; try apply Forall_nil_2; eexists _, _; reflexivity.
Defined.

Lemma open_bound_not_read_back_witness :
  Slicing.slicingToString [Py.slice2 0 3; Py.Slice Py.None_ (Py.Int 5) Py.None_]
  = "[0:3,None:5]"%string
  /\ Slicing.stringToSlicing
       (Slicing.slicingToString [Py.slice2 0 3; Py.Slice Py.None_ (Py.Int 5) Py.None_])
     = None.
Proof.
  split; [reflexivity|].
  apply (open_bound_not_read_back _ (Py.Slice Py.None_ (Py.Int 5) Py.None_)).
  - repeat constructor.
  - left. reflexivity.
Defined.

Lemma stringToSlicing_result_witness :
  [Py.slice2 1 2; Py.slice2 3 4] <> []
  /\ Forall (fun s => exists a b : Z, Py.start s = Py.Int a /\ Py.stop s = Py.Int b
                                      /\ Py.step s = Py.None_)
            [Py.slice2 1 2; Py.slice2 3 4].
Proof.
  apply (stringToSlicing_result "( +1 :2:9, 03:4 )"). vm_compute. reflexivity.
Defined.

Lemma stringToSlicing_needs_colon_witness :
  Slicing.stringToSlicing "[0-10,0-5]" = None.
Proof. apply stringToSlicing_needs_colon. reflexivity. Defined.

(** ** The serializer: what is written, and what happens on failure *)

Section SerializerEdges.
Import Eff Serializer.
Context {Node Clf LabelData : Type}.
Variable export_labels : LabelData -> Node + exn * option Node.
Variable import_labels : Node -> LabelData -> LabelData + exn * LabelData.
Variable export_classifier : Clf -> Node + exn * option Node.
Variable import_classifier : Node -> Clf + exn.

#[local] Abbreviation sstate := (Serializer.state Node Clf LabelData).
#[local] Abbreviation serialize :=
  (_serializeToHdf5 export_labels export_classifier).

Ltac eff_unfold :=
  unfold _serializeToHdf5, _serializeLabels, _serializeClassifier,
    _deserializeFromHdf5, _deserializeLabels, _deserializeClassifier,
    getFlag, setFlag, emit, use_increment, _initDirtyFlags,
    mbind, M_bind, bind, mret, M_ret, ret, modify, get, raise, try_.

(** X6: when neither the labels nor the classifier are dirty,
    [_serializeToHdf5] writes nothing and emits no progress, whatever
    the flag of the predictions says; it clears the flags all the
    same. *)
Theorem serialize_predictions_only (s : sstate) :
  _dirtyFlags s !! Section_Labels = Some false ->
  _dirtyFlags s !! Section_Classifier = Some false ->
  serialize s = Returned tt (set_dirtyFlags clean_flags s).
Proof.
  intros Hl Hc. eff_unfold. cbn. rewrite Hl. cbn. by rewrite Hc.
Qed.

(** X7: after [_serializeClassifier] the file has a 'Classifier' entry
    exactly when the classifier slot delivered a classifier: an entry
    left by an earlier save is removed when the slot is not ready or
    holds [None]. *)
Theorem serializeClassifier_entry (s s' : sstate) :
  _serializeClassifier export_classifier s = Returned tt s' ->
  _dirtyFlags s' !! Section_Classifier = Some false
  /\ (is_Some (topGroup s' !! "Classifier")
      <-> exists c sl, value (Classifier s) = inl (Some c, sl)).
Proof.
  eff_unfold. cbn.
  destruct (Classifier s) as [[|[v|]|v] n]; cbn.
  - intros [= <-]. cbn. split; [apply lookup_insert_eq|].
    rewrite lookup_delete_eq. split; [by intros []|by intros (? & ? & ?)].
  - destruct v as [c|]; cbn.
    + destruct (export_classifier c) as [g|[e [g|]]]; [|done|done].
      intros [= <-]. cbn.
      split; [apply lookup_insert_eq|]. rewrite lookup_insert_eq. split; eauto.
    + intros [= <-]. cbn. split; [apply lookup_insert_eq|].
      rewrite lookup_delete_eq. split; [by intros []|by intros (? & ? & ?)].
  - intros [= <-]. cbn. split; [apply lookup_insert_eq|].
    rewrite lookup_delete_eq. split; [by intros []|by intros (? & ? & ?)].
  - destruct v as [c|]; cbn.
    + destruct (export_classifier c) as [g|[e [g|]]]; [|done|done].
      intros [= <-]. cbn.
      split; [apply lookup_insert_eq|]. rewrite lookup_insert_eq. split; eauto.
    + intros [= <-]. cbn. split; [apply lookup_insert_eq|].
      rewrite lookup_delete_eq. split; [by intros []|by intros (? & ? & ?)].
Qed.

(** X8: when writing the labels fails, the exception leaves
    [_serializeToHdf5] with the flags as they were and no progress
    emitted, so the serializer still reports dirty. The file has
    changed all the same: the old 'LabelSets' entry is gone, and in its
    place is the new group as far as it was written when the exception
    came ([written]). *)
Theorem serialize_labels_failure (s : sstate) (e : exn) (written : option Node) :
  _dirtyFlags s !! Section_Labels = Some true ->
  export_labels (labels s) = inr (e, written) ->
  exists s', serialize s = Raised e s'
             /\ _dirtyFlags s' = _dirtyFlags s
             /\ progressSignal s' = progressSignal s
             /\ isDirty s' = true
             /\ topGroup s' !! "LabelSets" = written.
Proof.
  intros Hl He.
  exists (set_topGroup
            (match written with
             | Some labelSetDir =>
                 <["LabelSets" := labelSetDir]> (delete "LabelSets" (topGroup s))
             | None => delete "LabelSets" (topGroup s)
             end) s).
  split.
  { eff_unfold. cbn. rewrite Hl. cbn. rewrite He. by destruct written. }
  split; [done|]. split; [done|]. split.
  - apply isDirty_iff. by exists Section_Labels.
  - cbn. destruct written; [apply lookup_insert_eq|apply lookup_delete_eq].
Qed.

(** X9: when writing the classifier fails, its flag has been cleared
    already: if nothing else was dirty, the serializer reports clean
    although the save failed. The entry of an earlier save is gone; the
    file holds a 'Classifier' entry exactly when the exception came
    after the copy into the project file was made ([written]). *)
Theorem serialize_classifier_failure (s : sstate) (c : Clf) (sl : slot (option Clf))
    (e : exn) (written : option Node) :
  _dirtyFlags s = <[Section_Classifier := true]> clean_flags ->
  value (Classifier s) = inl (Some c, sl) ->
  export_classifier c = inr (e, written) ->
  exists s', serialize s = Raised e s'
             /\ isDirty s' = false
             /\ topGroup s' !! "Classifier" = written.
Proof.
  intros Hflags Hv He.
  assert (Hl : _dirtyFlags s !! Section_Labels = Some false) by (by rewrite Hflags).
  assert (Hc : _dirtyFlags s !! Section_Classifier = Some true) by (by rewrite Hflags).
  assert (Hclean : forall s' : sstate,
             _dirtyFlags s' = <[Section_Classifier := false]> (_dirtyFlags s) ->
             isDirty s' = false).
  { intros s' Hs'. apply not_true_is_false. intros (k & Hk)%isDirty_iff.
    rewrite Hs', Hflags in Hk.
    destruct (decide (k = Section_Classifier)) as [->|Hne].
    - by rewrite lookup_insert_eq in Hk.
    - rewrite !lookup_insert_ne in Hk by done. by apply clean_flags_lookup in Hk. }
  exists (State (<[Section_Classifier := false]> (_dirtyFlags s)) (progressSignal s)
                (match written with
                 | Some group => <["Classifier" := group]> (delete "Classifier" (topGroup s))
                 | None => delete "Classifier" (topGroup s)
                 end)
                sl (classifier_cache s) (labels s)).
  split.
  - eff_unfold. cbn. rewrite Hl. cbn. rewrite Hc. cbn.
    destruct (Classifier s) as [[|[v|]|v] n]; cbn in *; try done;
      injection Hv as -> <-; cbn; rewrite He; by destruct written.
  - split; [by apply Hclean|]. cbn.
    destruct written; [apply lookup_insert_eq|apply lookup_delete_eq].
Qed.

End SerializerEdges.

Section SerializerLoad.
Import Eff Serializer.
Context {Node Clf LabelData : Type}.
Variable export_labels : LabelData -> Node + exn * option Node.
Variable import_labels : Node -> LabelData -> LabelData + exn * LabelData.
Variable export_classifier : Clf -> Node + exn * option Node.
Variable import_classifier : Node -> Clf + exn.

#[local] Abbreviation lstate := (Serializer.state Node Clf LabelData).
#[local] Abbreviation deserialize :=
  (_deserializeFromHdf5 import_labels import_classifier).

Ltac load_unfold :=
  unfold _serializeToHdf5, _serializeLabels, _serializeClassifier,
    _deserializeFromHdf5, _deserializeLabels, _deserializeClassifier,
    getFlag, setFlag, emit, use_increment, _initDirtyFlags,
    mbind, M_bind, bind, mret, M_ret, ret, modify, get, raise, try_.

(** X10: loading a project. Without a group nothing happens; a group
    without 'LabelSets' makes [_deserializeFromHdf5] raise [KeyError]
    right after the progress 0, with the flags untouched; a group
    without 'Classifier' is accepted: the labels are read, the progress
    goes 0, 50, 100, both flags are cleared and the classifier cache is
    left alone. *)
Theorem deserialize_missing_parts (s : lstate) :
  deserialize None s = Returned tt s
  /\ (forall g, g !! "LabelSets" = None ->
        deserialize (Some g) s
        = Raised KeyError
            (State (_dirtyFlags s) (progressSignal s ++ [0]) (topGroup s)
                   (Classifier s) (classifier_cache s) (labels s)))
  /\ (forall g n l,
        g !! "LabelSets" = Some n -> g !! "Classifier" = None ->
        import_labels n (labels s) = inl l ->
        deserialize (Some g) s
        = Returned tt
            (State (<[Section_Classifier := false]>
                      (<[Section_Labels := false]> (_dirtyFlags s)))
                   (progressSignal s ++ [0; 50; 100]) (topGroup s)
                   (Classifier s) (classifier_cache s) l)).
Proof.
  split; [done|]. split.
  - intros g Hg. load_unfold. cbn. by rewrite Hg.
  - intros g n l Hn Hc Hl. load_unfold. cbn. rewrite Hn. cbn. rewrite Hl. cbn.
    rewrite Hc. cbn. by rewrite <- !app_assoc.
Qed.


End SerializerLoad.

Section SerializerProgress.
Import Eff Serializer.
Context {Node Clf LabelData : Type}.
Variable export_labels : LabelData -> Node + exn * option Node.
Variable export_classifier : Clf -> Node + exn * option Node.

#[local] Abbreviation pstate := (Serializer.state Node Clf LabelData).

Lemma flags_of_dom (m : gmap Z bool) :
  dom m = {[Section_Labels; Section_Classifier; Section_Predictions]} ->
  exists a b c, m = SerializerFlags.flags_of a b c.
Proof.
  intros Hdom.
  assert (Hk : forall k, k ∈ dom m -> is_Some (m !! k)) by (intros k; apply elem_of_dom).
  destruct (Hk Section_Labels) as [a Ha]; [rewrite Hdom; set_solver|].
  destruct (Hk Section_Classifier) as [b Hb]; [rewrite Hdom; set_solver|].
  destruct (Hk Section_Predictions) as [c Hc]; [rewrite Hdom; set_solver|].
  exists a, b, c. apply map_eq. intros k. unfold SerializerFlags.flags_of.
  destruct (decide (k = Section_Labels)) as [->|]; [by rewrite lookup_insert_eq|].
  rewrite lookup_insert_ne by done.
  destruct (decide (k = Section_Classifier)) as [->|]; [by rewrite lookup_insert_eq|].
  rewrite lookup_insert_ne by done.
  destruct (decide (k = Section_Predictions)) as [->|]; [by rewrite lookup_insert_eq|].
  rewrite lookup_insert_ne, lookup_empty by done.
  apply not_elem_of_dom. rewrite Hdom. set_solver.
Qed.

Lemma sum_flags_of (a b c : bool) :
  sum_bools (values (SerializerFlags.flags_of a b c))
  = ((if a then 1 else 0) + (if b then 1 else 0) + (if c then 1 else 0))%Z.
Proof. destruct a, b, c; vm_compute; reflexivity. Qed.

Lemma serializeLabels_keeps (s sa : pstate) :
  _serializeLabels export_labels s = Returned tt sa ->
  progressSignal sa = progressSignal s
  /\ _dirtyFlags sa !! Section_Classifier = _dirtyFlags s !! Section_Classifier.
Proof.
  unfold _serializeLabels, setFlag.
  unfold mbind, M_bind, bind, mret, M_ret, ret, modify, get, try_. cbn.
  destruct (export_labels (labels s)) as [g|[e [g|]]]; [|done|done]. intros [= <-]. cbn.
  split; [done|]. by rewrite lookup_insert_ne.
Qed.

Lemma serializeClassifier_keeps (s sa : pstate) :
  _serializeClassifier export_classifier s = Returned tt sa ->
  progressSignal sa = progressSignal s.
Proof.
  unfold _serializeClassifier, setFlag.
  unfold mbind, M_bind, bind, mret, M_ret, ret, modify, get, try_. cbn.
  destruct (Classifier s) as [[|[v|]|v] k]; cbn; try (by intros [= <-]);
    destruct v as [c|]; cbn; try (by intros [= <-]);
    destruct (export_classifier c) as [g|[e [g|]]]; try done; by intros [= <-].
Qed.

Lemma step_progress (body : M pstate unit) (increment : option Z) (progress : Z)
    (dirty : bool) (s s3 : pstate) (p : Z) :
  (if dirty
   then body;; i ← use_increment increment; emit (progress + i)%Z;;
        mret (progress + i)%Z
   else mret progress) s = Returned p s3 ->
  if dirty
  then exists i sa, increment = Some i /\ p = (progress + i)%Z
                    /\ body s = Returned tt sa
                    /\ progressSignal s3 = progressSignal sa ++ [p]
                    /\ _dirtyFlags s3 = _dirtyFlags sa
  else p = progress /\ s3 = s.
Proof.
  destruct dirty; [|by intros [= <- <-]].
  intros ([] & sa & Hbody & H)%bind_Returned.
  apply bind_Returned in H as (i & sb & Hinc & H).
  apply bind_Returned in H as ([] & sc & Hemit & H).
  injection H as <- <-.
  destruct increment as [j|]; [|done]. injection Hinc as <- <-.
  injection Hemit as <-. exists j, sa. by repeat split.
Qed.

(** X12: the progress values [_serializeToHdf5] emits are between 1
    and 100, one for every section it writes; when the flag of the
    predictions is set, which are never written, the progress does not
    reach 100. *)
Theorem serialize_progress (s s' : pstate) :
  dom (_dirtyFlags s) = {[Section_Labels; Section_Classifier; Section_Predictions]} ->
  _serializeToHdf5 export_labels export_classifier s = Returned tt s' ->
  exists emitted,
    progressSignal s' = progressSignal s ++ emitted
    /\ Forall (fun v => 0 < v <= 100)%Z emitted
    /\ (_dirtyFlags s !! Section_Predictions = Some true -> 100%Z ∉ emitted).
Proof.
  intros (a & b & c & Hflags)%flags_of_dom Hrun.
  unfold _serializeToHdf5 in Hrun. rewrite (bind_run _ _ _ _ _ (get_run s)) in Hrun.
  rewrite Hflags, sum_flags_of in Hrun.
  apply bind_Returned in Hrun as (lab & s2 & Hlab & Hrun).
  unfold getFlag in Hlab. rewrite (bind_run _ _ _ _ _ (get_run s)), Hflags in Hlab.
  change (SerializerFlags.flags_of a b c !! Section_Labels) with (Some a) in Hlab.
  injection Hlab as <- <-.
  apply bind_Returned in Hrun as (p & s3 & Hstep1 & Hrun).
  apply step_progress in Hstep1.
  apply bind_Returned in Hrun as (clf & s4 & Hclf & Hrun).
  unfold getFlag in Hclf. rewrite (bind_run _ _ _ _ _ (get_run s3)) in Hclf.
  apply bind_Returned in Hrun as (p' & s5 & Hstep2 & Hrun).
  apply step_progress in Hstep2.
  injection Hrun as <-. cbn [progressSignal set_dirtyFlags].
  assert (Hb : _dirtyFlags s3 !! Section_Classifier = Some b).
  { destruct a.
    - destruct Hstep1 as (i & sa & _ & _ & Hbody & _ & ->).
      apply serializeLabels_keeps in Hbody as [_ ->]. by rewrite Hflags.
    - destruct Hstep1 as [_ ->]. by rewrite Hflags. }
  rewrite Hb in Hclf. injection Hclf as <- <-.
  rewrite Hflags. change (SerializerFlags.flags_of a b c !! Section_Predictions) with (Some c).
  destruct a, b.
  - destruct Hstep1 as (i & sa & Hi & -> & Hbody & Hp3 & _).
    destruct Hstep2 as (j & sb & Hj & -> & Hbody2 & Hp5 & _).
    apply serializeLabels_keeps in Hbody as [Hpa _].
    apply serializeClassifier_keeps in Hbody2.
    exists [0 + i; 0 + i + j]%Z. rewrite Hp5, Hbody2, Hp3, Hpa, <- app_assoc.
    split; [done|]. destruct c; cbn in Hi, Hj; injection Hi as <-; injection Hj as <-.
    + split; [repeat (apply Forall_cons_2; [split; [reflexivity|discriminate]|]); apply Forall_nil_2|]. intros _ Hin.
      apply elem_of_cons in Hin as [Hin|Hin]; [done|].
      apply elem_of_cons in Hin as [Hin|Hin]; [done|]. by apply elem_of_nil in Hin.
    + split; [repeat (apply Forall_cons_2; [split; [reflexivity|discriminate]|]); apply Forall_nil_2|]. done.
  - destruct Hstep1 as (i & sa & Hi & -> & Hbody & Hp3 & _).
    destruct Hstep2 as [_ ->].
    apply serializeLabels_keeps in Hbody as [Hpa _].
    exists [0 + i]%Z. rewrite Hp3, Hpa.
    split; [done|]. destruct c; cbn in Hi; injection Hi as <-.
    + split; [repeat (apply Forall_cons_2; [split; [reflexivity|discriminate]|]); apply Forall_nil_2|]. intros _ Hin.
      apply elem_of_cons in Hin as [Hin|Hin]; [done|]. by apply elem_of_nil in Hin.
    + split; [repeat (apply Forall_cons_2; [split; [reflexivity|discriminate]|]); apply Forall_nil_2|]. done.
  - destruct Hstep1 as [-> ->].
    destruct Hstep2 as (j & sb & Hj & -> & Hbody2 & Hp5 & _).
    apply serializeClassifier_keeps in Hbody2.
    exists [0 + j]%Z. rewrite Hp5, Hbody2.
    split; [done|]. destruct c; cbn in Hj; injection Hj as <-.
    + split; [repeat (apply Forall_cons_2; [split; [reflexivity|discriminate]|]); apply Forall_nil_2|]. intros _ Hin.
      apply elem_of_cons in Hin as [Hin|Hin]; [done|]. by apply elem_of_nil in Hin.
    + split; [repeat (apply Forall_cons_2; [split; [reflexivity|discriminate]|]); apply Forall_nil_2|]. done.
  - destruct Hstep1 as [-> ->]. destruct Hstep2 as [_ ->].
    exists []. rewrite app_nil_r. split; [done|]. split; [constructor|].
    intros _ Hin. by apply elem_of_nil in Hin.
Qed.

End SerializerProgress.

Lemma serialize_predictions_only_witness :
  Serializer._serializeToHdf5 (fun _ : unit => inl tt) (fun _ : unit => inl tt)
    (Serializer.State (SerializerFlags.flags_of false false true) [] ∅
       (Serializer.Slot (Serializer.Direct (Some tt)) 0)
       (Serializer.Slot (Serializer.Connected None) 0) tt)
  = Eff.Returned tt
      (Serializer.State Serializer.clean_flags [] (∅ : gmap string unit)
         (Serializer.Slot (Serializer.Direct (Some tt)) 0)
         (Serializer.Slot (Serializer.Connected None) 0) tt).
Proof.
  apply (serialize_predictions_only (fun _ : unit => inl tt) (fun _ : unit => inl tt));
    vm_compute; reflexivity.
Defined.

Lemma serializeClassifier_entry_witness :
  Serializer._dirtyFlags
    (Eff.final_state
       (Serializer._serializeClassifier (fun _ : unit => inl tt)
          Serializer.example_state))
  !! Serializer.Section_Classifier = Some false
  /\ (is_Some
        (Serializer.topGroup
           (Eff.final_state
              (Serializer._serializeClassifier (fun _ : unit => inl tt)
                 Serializer.example_state)) !! "Classifier"%string)
      <-> exists c sl,
          Serializer.value (Serializer.Classifier Serializer.example_state)
          = inl (Some c, sl)).
Proof.
  apply (serializeClassifier_entry (fun _ : unit => inl tt) Serializer.example_state).
  vm_compute. reflexivity.
Defined.

Lemma serialize_labels_failure_witness :
  exists s',
    Serializer._serializeToHdf5
      (fun _ : unit => inr (Eff.ExternalError "disk full", Some ["labels000"]))
      (fun _ : unit => inl ["Forest0000"])
      (Serializer.State (SerializerFlags.flags_of true false false) []
         (<["LabelSets"%string := ["labels000"; "labels001"]]> ∅)
         (Serializer.Slot (Serializer.Direct (Some tt)) 0)
         (Serializer.Slot (Serializer.Connected None) 0) tt)
    = Eff.Raised (Eff.ExternalError "disk full") s'
    /\ Serializer._dirtyFlags s' = SerializerFlags.flags_of true false false
    /\ Serializer.progressSignal s' = []
    /\ Serializer.isDirty s' = true
    /\ Serializer.topGroup s' !! "LabelSets"%string = Some ["labels000"].
Proof.
  apply (serialize_labels_failure
           (fun _ : unit => inr (Eff.ExternalError "disk full", Some ["labels000"]))
           (fun _ : unit => inl ["Forest0000"])
           (Serializer.State (SerializerFlags.flags_of true false false) []
              (<["LabelSets"%string := ["labels000"; "labels001"]]> ∅)
              (Serializer.Slot (Serializer.Direct (Some tt)) 0)
              (Serializer.Slot (Serializer.Connected None) 0) tt)
           (Eff.ExternalError "disk full") (Some ["labels000"])); reflexivity.
Defined.

Lemma serialize_classifier_failure_witness :
  exists s',
    Serializer._serializeToHdf5 (fun _ : unit => inl ["labels000"])
      (fun _ : unit => inr (Eff.ExternalError "cannot remove", Some ["Forest0000"]))
      (Serializer.State (<[Serializer.Section_Classifier := true]> Serializer.clean_flags)
         [] (<["Classifier"%string := ["Forest0000"; "Forest0001"]]> ∅)
         (Serializer.Slot (Serializer.Direct (Some tt)) 0)
         (Serializer.Slot (Serializer.Connected None) 0) tt)
    = Eff.Raised (Eff.ExternalError "cannot remove") s'
    /\ Serializer.isDirty s' = false
    /\ Serializer.topGroup s' !! "Classifier"%string = Some ["Forest0000"].
Proof.
  apply (serialize_classifier_failure (fun _ : unit => inl ["labels000"])
           (fun _ : unit => inr (Eff.ExternalError "cannot remove", Some ["Forest0000"]))
           _ tt (Serializer.Slot (Serializer.Direct (Some tt)) 0)); reflexivity.
Defined.

Lemma deserialize_missing_parts_witness :
  Serializer._deserializeFromHdf5 (fun (_ : unit) (l : unit) => inl l)
    (fun _ : unit => inl tt) (Some (<["LabelSets"%string := tt]> ∅))
    Serializer.example_state
  = Eff.Returned tt
      (Serializer.State
         (<[Serializer.Section_Classifier := false]>
            (<[Serializer.Section_Labels := false]>
               (Serializer._dirtyFlags Serializer.example_state)))
         [0; 50; 100] ∅
         (Serializer.Slot (Serializer.Direct (Some tt)) 0)
         (Serializer.Slot (Serializer.Connected None) 0) tt).
Proof.
  apply (proj2 (proj2 (deserialize_missing_parts (fun (_ : unit) (l : unit) => inl l)
                         (fun _ : unit => inl tt) Serializer.example_state))
           (<["LabelSets"%string := tt]> ∅) tt tt); vm_compute; reflexivity.
Defined.


Lemma serialize_progress_witness :
  exists emitted,
    Serializer.progressSignal
      (Eff.final_state
         (Serializer._serializeToHdf5 (fun _ : unit => inl tt) (fun _ : unit => inl tt)
            (Serializer.State (SerializerFlags.flags_of true true true) [] ∅
               (Serializer.Slot (Serializer.Direct (Some tt)) 0)
               (Serializer.Slot (Serializer.Connected None) 0) tt)))
    = [] ++ emitted
    /\ Forall (fun v => 0 < v <= 100)%Z emitted
    /\ (SerializerFlags.flags_of true true true !! Serializer.Section_Predictions
        = Some true -> 100%Z ∉ emitted).
Proof.
  apply (serialize_progress (fun _ : unit => inl tt) (fun _ : unit => inl tt)
           (Serializer.State (SerializerFlags.flags_of true true true) [] ∅
              (Serializer.Slot (Serializer.Direct (Some tt)) 0)
              (Serializer.Slot (Serializer.Connected None) 0) tt)).
  - vm_compute. reflexivity.
  - vm_compute. reflexivity.
Defined.

Example serialize_progress_thirds :
  Serializer.progressSignal
    (Eff.final_state
       (Serializer._serializeToHdf5 (fun _ : unit => inl tt) (fun _ : unit => inl tt)
          (Serializer.State (SerializerFlags.flags_of true true true) [] ∅
             (Serializer.Slot (Serializer.Direct (Some tt)) 0)
             (Serializer.Slot (Serializer.Connected None) 0) tt)))
  = [33; 66].
Proof. vm_compute. reflexivity. Qed.

Section HighlightRun.
Import Numpy Lazyflow.
Context {Base : Type}.
Variable Segmentation_data : Base -> volume.
Variable OpCarving_execute :
  OpSplitBodyCarving.Slot -> Roi -> ndarray Z -> Base -> ndarray Z + Eff.exn.

Lemma HighlightedRavelerObject_highlights_run (i : OpSplitBodyCarving.inputs)
    (s : OpSplitBodyCarving.state Base) (start stop p : list Z) (junk : Z) :
  in_box start stop p ->
  exists r,
    OpSplitBodyCarving.call Segmentation_data OpCarving_execute i
      OpSplitBodyCarving.HighlightedRavelerObject start stop junk s = inl r
    /\ getitem r (zip_with Z.sub p start)
       = Some (if (OpSplitBodyCarving.CurrentRavelerLabel_value i =? 0)%Z then 0%Z
               else if (OpSplitBodyCarving.RavelerLabels_data i p
                        =? OpSplitBodyCarving.CurrentRavelerLabel_value i)%Z
                    then 1%Z else 0%Z).
Proof.
  intros Hbox. unfold OpSplitBodyCarving.call.
  rewrite bool_decide_eq_true_2 by done.
  unfold OpHighlightLabel.call_Output.
  rewrite OpHighlightLabel_execute_run by done.
  cbn [OpSplitBodyCarving._opHighlighter_inputs OpHighlightLabel.HighlightLabel_value
       OpHighlightLabel.Input_data].
  eexists. split; [done|].
  destruct (OpSplitBodyCarving.CurrentRavelerLabel_value i =? 0)%Z.
  - unfold allocate. cbn [data]. rewrite map_map.
    by rewrite (getitem_map_coords (fun _ => 0%Z)).
  - by rewrite (getitem_map_coords
                  (fun p => if (OpSplitBodyCarving.RavelerLabels_data i p
                                =? OpSplitBodyCarving.CurrentRavelerLabel_value i)%Z
                            then 1%Z else 0%Z)).
Qed.

End HighlightRun.

(** ** The operators: masks, shapes and empty regions *)

Section OperatorEdges.
Import Numpy Lazyflow.
Context {Base : Type}.
Variable Segmentation_data : Base -> volume.
Variable OpCarving_execute :
  OpSplitBodyCarving.Slot -> Roi -> ndarray Z -> Base -> ndarray Z + Eff.exn.

#[local] Abbreviation op_call :=
  (OpSplitBodyCarving.call Segmentation_data OpCarving_execute).

(** X13: whatever the input and the label, the array
    [OpHighlightLabel.execute] returns for a destination of the roi's
    extent holds nothing but 0 and 1. *)
Theorem highlight_is_binary (i : OpHighlightLabel.inputs) (start stop : list Z)
    (result : ndarray Z) :
  shape result = extent start stop ->
  exists r,
    OpHighlightLabel.execute i OpHighlightLabel.Output (mkRoi start stop) result = inl r
    /\ Forall (fun v => v = 0 \/ v = 1)%Z (data r).
Proof.
  intros Hshape. rewrite OpHighlightLabel_execute_run by done.
  eexists. split; [done|]. cbn [data].
  destruct (_ =? _)%Z; apply Forall_forall; intros v Hv;
    apply list_elem_of_In, in_map_iff in Hv as (x & <- & _); [by left|].
  destruct (_ =? _)%Z; auto.
Qed.

(** X14: with label 0 the input is not read at all: for every roi and
    every destination, also one whose shape is not the roi's extent,
    [OpHighlightLabel.execute] returns the destination filled with
    zeros, and the result depends neither on the input nor on the roi. *)
Theorem highlight_label_zero (i i' : OpHighlightLabel.inputs) (roi roi' : Roi)
    (result : ndarray Z) :
  OpHighlightLabel.HighlightLabel_value i = 0%Z ->
  OpHighlightLabel.HighlightLabel_value i' = 0%Z ->
  OpHighlightLabel.execute i OpHighlightLabel.Output roi result
  = inl (NdArray (shape result) (map (fun _ => 0%Z) (data result)))
  /\ OpHighlightLabel.execute i OpHighlightLabel.Output roi result
     = OpHighlightLabel.execute i' OpHighlightLabel.Output roi' result.
Proof.
  intros Hi Hi'. unfold OpHighlightLabel.execute.
  rewrite bool_decide_eq_true_2 by done. cbn [negb].
  by rewrite Hi, Hi'.
Qed.

(** X15: the two outputs of [OpSplitBodyCarving] fit together when the
    current label is not 0: the masked segmentation is the segmentation
    times the highlighted object. With label 0 nothing is highlighted,
    yet the masked segmentation keeps the segmentation wherever the
    raveler label is 0. *)
Theorem masked_is_segmentation_times_highlight (i : OpSplitBodyCarving.inputs)
    (s : OpSplitBodyCarving.state Base) (start stop p : list Z) (junk : Z) :
  in_box start stop p ->
  exists rh rm h m,
    op_call i OpSplitBodyCarving.HighlightedRavelerObject start stop junk s = inl rh
    /\ op_call i OpSplitBodyCarving.MaskedSegmentation start stop junk s = inl rm
    /\ getitem rh (zip_with Z.sub p start) = Some h
    /\ getitem rm (zip_with Z.sub p start) = Some m
    /\ (OpSplitBodyCarving.CurrentRavelerLabel_value i <> 0
        -> m = Segmentation_data (OpSplitBodyCarving.base s) p * h)%Z
    /\ (OpSplitBodyCarving.CurrentRavelerLabel_value i = 0
        -> h = 0
           /\ m = if (OpSplitBodyCarving.RavelerLabels_data i p =? 0)
                  then Segmentation_data (OpSplitBodyCarving.base s) p else 0)%Z.
Proof.
  intros Hbox.
  destruct (HighlightedRavelerObject_highlights_run Segmentation_data
              OpCarving_execute i s start stop p junk Hbox) as (rh & Hrh & Hh).
  unfold OpSplitBodyCarving.call at 2.
  rewrite bool_decide_eq_false_2 by done.
  rewrite MaskedSegmentation_execute_run by done.
  eexists rh, _, _, _. split; [exact Hrh|]. split; [done|].
  split; [exact Hh|]. split.
  { apply (getitem_map_coords
             (fun p => if (OpSplitBodyCarving.RavelerLabels_data i p
                           =? OpSplitBodyCarving.CurrentRavelerLabel_value i)%Z
                       then Segmentation_data (OpSplitBodyCarving.base s) p
                       else 0%Z)), Hbox. }
  split.
  - intros Hl%Z.eqb_neq. rewrite Hl.
    destruct (OpSplitBodyCarving.RavelerLabels_data i p =? _)%Z; lia.
  - intros ->. done.
Qed.

End OperatorEdges.

Section EmptyRegion.
Import Numpy Lazyflow.
Context {Base : Type}.
Variable Segmentation_data : Base -> volume.
Variable OpCarving_execute :
  OpSplitBodyCarving.Slot -> Roi -> ndarray Z -> Base -> ndarray Z + Eff.exn.

Lemma coords_empty (start stop : list Z) (k : nat) (a : Z) :
  start !! k = Some a -> stop !! k = Some a -> coords start stop = [].
Proof.
  revert stop k. induction start as [|s start IH]; intros [|e stop] k; try done.
  destruct k as [|k]; cbn [lookup list_lookup]; rewrite coords_cons.
  - intros [= ->] [= ->]. unfold zrange. by rewrite Z.sub_diag.
  - intros Hs He. rewrite (IH stop k Hs He). by induction (zrange s e).
Qed.

(** X16: a region that is empty along one axis is served without an
    error, by arrays that have the extent of the region and no
    element. *)
Theorem empty_region (i : OpSplitBodyCarving.inputs)
    (s : OpSplitBodyCarving.state Base) (start stop : list Z) (k : nat) (a junk : Z) :
  start !! k = Some a -> stop !! k = Some a ->
  OpSplitBodyCarving.call Segmentation_data OpCarving_execute i
    OpSplitBodyCarving.HighlightedRavelerObject start stop junk s
  = inl (NdArray (extent start stop) [])
  /\ OpSplitBodyCarving.call Segmentation_data OpCarving_execute i
       OpSplitBodyCarving.MaskedSegmentation start stop junk s
     = inl (NdArray (extent start stop) []).
Proof.
  intros Hs He. pose proof (coords_empty _ _ _ _ Hs He) as Hc. split.
  - unfold OpSplitBodyCarving.call. rewrite bool_decide_eq_true_2 by done.
    unfold OpHighlightLabel.call_Output.
    rewrite OpHighlightLabel_execute_run by done.
    unfold allocate. cbn [data]. rewrite Hc. by destruct (_ =? _)%Z.
  - unfold OpSplitBodyCarving.call. rewrite bool_decide_eq_false_2 by done.
    rewrite MaskedSegmentation_execute_run by done. by rewrite Hc.
Qed.

End EmptyRegion.

Lemma highlight_is_binary_witness :
  exists r,
    OpHighlightLabel.execute
      (OpSplitBodyCarving._opHighlighter_inputs OpSplitBodyCarving.example_inputs)
      OpHighlightLabel.Output (Lazyflow.mkRoi [0; 1] [2; 4])
      (Numpy.NdArray [2; 3] [9; 9; 9; 9; 9; 9]) = inl r
    /\ Forall (fun v => v = 0 \/ v = 1)%Z (Numpy.data r).
Proof. apply highlight_is_binary. reflexivity. Defined.

Lemma highlight_label_zero_witness :
  OpHighlightLabel.execute
    (OpHighlightLabel.Inputs (fun _ => 5%Z) (Lazyflow.mkMeta None None None) 0)
    OpHighlightLabel.Output (Lazyflow.mkRoi [0; 1] [2; 4])
    (Numpy.NdArray [2; 2] [9; 9; 9; 9])
  = inl (Numpy.NdArray [2; 2] [0; 0; 0; 0]%Z)
  /\ OpHighlightLabel.execute
       (OpHighlightLabel.Inputs (fun _ => 5%Z) (Lazyflow.mkMeta None None None) 0)
       OpHighlightLabel.Output (Lazyflow.mkRoi [0; 1] [2; 4])
       (Numpy.NdArray [2; 2] [9; 9; 9; 9])
     = OpHighlightLabel.execute
         (OpHighlightLabel.Inputs (fun _ => 0%Z) (Lazyflow.mkMeta None None None) 0)
         OpHighlightLabel.Output (Lazyflow.mkRoi [3] [8])
         (Numpy.NdArray [2; 2] [9; 9; 9; 9]).
Proof.
  apply (highlight_label_zero
           (OpHighlightLabel.Inputs (fun _ => 5%Z) (Lazyflow.mkMeta None None None) 0)
           (OpHighlightLabel.Inputs (fun _ => 0%Z) (Lazyflow.mkMeta None None None) 0)
           (Lazyflow.mkRoi [0; 1] [2; 4]) (Lazyflow.mkRoi [3] [8])
           (Numpy.NdArray [2; 2] [9; 9; 9; 9])); reflexivity.
Defined.

Lemma MaskedSegmentation_masks_witness :
  exists r,
    OpSplitBodyCarving.call (fun _ _ => 7%Z) (fun _ _ r _ => inl r)
      OpSplitBodyCarving.example_inputs OpSplitBodyCarving.MaskedSegmentation
      [0; 1] [2; 4] 9 OpSplitBodyCarving.example_state = inl r
    /\ Numpy.getitem r [1; 0] = Some 7%Z.
Proof.
  apply (MaskedSegmentation_masks (fun _ _ => 7%Z) (fun _ _ r _ => inl r)
           OpSplitBodyCarving.example_inputs OpSplitBodyCarving.example_state
           [0; 1] [2; 4] [1; 1] 9).
  repeat constructor; lia.
Defined.

Lemma masked_is_segmentation_times_highlight_witness :
  exists rh rm h m,
    OpSplitBodyCarving.call (fun _ _ => 7%Z) (fun _ _ r _ => inl r)
      OpSplitBodyCarving.example_inputs OpSplitBodyCarving.HighlightedRavelerObject
      [0; 1] [2; 4] 9 OpSplitBodyCarving.example_state = inl rh
    /\ OpSplitBodyCarving.call (fun _ _ => 7%Z) (fun _ _ r _ => inl r)
         OpSplitBodyCarving.example_inputs OpSplitBodyCarving.MaskedSegmentation
         [0; 1] [2; 4] 9 OpSplitBodyCarving.example_state = inl rm
    /\ Numpy.getitem rh [1; 0] = Some h
    /\ Numpy.getitem rm [1; 0] = Some m
    /\ (2 <> 0 -> m = 7 * h)%Z
    /\ (2 = 0 -> h = 0 /\ m = if (2 =? 0) then 7 else 0)%Z.
Proof.
  apply (masked_is_segmentation_times_highlight (fun _ _ => 7%Z) (fun _ _ r _ => inl r)
           OpSplitBodyCarving.example_inputs OpSplitBodyCarving.example_state
           [0; 1] [2; 4] [1; 1] 9).
  repeat constructor; lia.
Defined.

Lemma empty_region_witness :
  OpSplitBodyCarving.call (fun _ _ => 7%Z) (fun _ _ r _ => inl r)
    OpSplitBodyCarving.example_inputs OpSplitBodyCarving.HighlightedRavelerObject
    [0; 3] [2; 3] 9 OpSplitBodyCarving.example_state
  = inl (Numpy.NdArray [2; 0] [])
  /\ OpSplitBodyCarving.call (fun _ _ => 7%Z) (fun _ _ r _ => inl r)
       OpSplitBodyCarving.example_inputs OpSplitBodyCarving.MaskedSegmentation
       [0; 3] [2; 3] 9 OpSplitBodyCarving.example_state
     = inl (Numpy.NdArray [2; 0] []).
Proof.
  apply (empty_region (fun _ _ => 7%Z) (fun _ _ r _ => inl r)
           OpSplitBodyCarving.example_inputs OpSplitBodyCarving.example_state
           [0; 3] [2; 3] 1 3 9); reflexivity.
Defined.

(** ** The multicut GUI: what the two handlers leave behind *)

Section GuiSync.
Import Eff MulticutGui.
Context {float : Type} `{EqDecision float}.
Variable spinbox_value : float -> float.
Variable AVAILABLE_SOLVER_NAMES : list string.
Variable DEFAULT_SOLVER_NAME : string.

#[local] Abbreviation gstate := (MulticutGui.state float).
#[local] Abbreviation run :=
  (MulticutGui.run spinbox_value AVAILABLE_SOLVER_NAMES DEFAULT_SOLVER_NAME).

Lemma index_lookup (l : list string) (x : string) (i : Z) :
  index l x = Some i -> l !! Z.to_nat i = Some x.
Proof.
  revert i. induction l as [|y l IH]; intros i; [done|]. cbn [index].
  case_bool_decide as Hy.
  - intros [= <-]. by subst.
  - destruct (index l x) as [j|] eqn:Hj; [|done]. intros [= <-].
    pose proof (index_range _ _ _ Hj). rewrite Z2Nat.inj_succ by lia.
    by apply IH.
Qed.

Lemma index_None (l : list string) (x : string) :
  index l x = None -> ~ In x l.
Proof.
  induction l as [|y l IH]; [by intros _ []|]. cbn [index].
  case_bool_decide as Hy; [done|].
  destruct (index l x); [done|]. intros _ [?|?]; [done|by apply IH].
Qed.

Lemma index_NoDup (l : list string) (n : nat) (x : string) :
  NoDup l -> l !! n = Some x -> index l x = Some (Z.of_nat n).
Proof.
  intros Hnd. revert n. induction Hnd as [|y l Hy _ IH]; intros n; [done|].
  destruct n as [|n]; cbn [lookup list_lookup index].
  - intros [= ->]. by rewrite bool_decide_eq_true_2.
  - intros Hn. rewrite bool_decide_eq_false_2.
    + rewrite (IH n Hn). cbn. f_equal. lia.
    + intros ->. apply Hy. by eapply list_elem_of_lookup_2.
Qed.

Lemma currentText_index (x : string) (i : Z) :
  index AVAILABLE_SOLVER_NAMES x = Some i ->
  currentText AVAILABLE_SOLVER_NAMES i = x.
Proof.
  intros Hi. pose proof (index_range _ _ _ Hi). unfold currentText.
  rewrite (proj2 (Z.ltb_ge i 0)) by lia. by rewrite (index_lookup _ _ _ Hi).
Qed.

Lemma gui_from_operator_known (s : gstate) (i : Z) (d : nat) :
  _currently_updating s = false ->
  index AVAILABLE_SOLVER_NAMES (SolverName s) = Some i ->
  run (S (S d)) gui_from_operator s
  = Returned None (State false (spinbox_value (Beta s)) i (Beta s) (SolverName s)).
Proof.
  intros Hs Hi. rewrite run_S. unfold configure_gui_from_operator.
  rewrite guarded_run
    with (s1 := State true (spinbox_value (Beta s)) i (Beta s) (SolverName s));
    [reflexivity|exact Hs|].
  rewrite (bind_run _ _ _ _ _ (get_run _)).
  erewrite bind_run by (by apply beta_box_setValue_guarded).
  rewrite (bind_run _ _ _ _ _ (get_run _)). cbn [SolverName]. rewrite Hi.
  erewrite bind_run by reflexivity.
  rewrite setCurrentIndex_guarded; [reflexivity|done|by eapply index_range].
Qed.

Lemma gui_from_operator_unknown (s : gstate) (i : Z) (d : nat) :
  _currently_updating s = false ->
  index AVAILABLE_SOLVER_NAMES (SolverName s) = None ->
  index AVAILABLE_SOLVER_NAMES DEFAULT_SOLVER_NAME = Some i ->
  run (S (S d)) gui_from_operator s
  = Returned None (State false (spinbox_value (Beta s)) i (Beta s) DEFAULT_SOLVER_NAME).
Proof.
  intros Hs Hn Hi. rewrite run_S. unfold configure_gui_from_operator.
  rewrite guarded_run
    with (s1 := State true (spinbox_value (Beta s)) i (Beta s) DEFAULT_SOLVER_NAME);
    [reflexivity|exact Hs|].
  rewrite (bind_run _ _ _ _ _ (get_run _)).
  erewrite bind_run by (by apply beta_box_setValue_guarded).
  rewrite (bind_run _ _ _ _ _ (get_run _)). cbn [SolverName]. rewrite Hn, Hi.
  erewrite bind_run.
  2:{ erewrite bind_run by (by apply SolverName_setValue_guarded). reflexivity. }
  rewrite setCurrentIndex_guarded; [reflexivity|done|by eapply index_range].
Qed.

(** X17: when [configure_gui_from_operator] has run, the combo box
    shows the solver the operator holds, which is an available one,
    and the spin box shows the value of [Beta] as the box keeps it. A
    solver that is available is left alone, another one is replaced by
    the default; [Beta] is never written. *)
Theorem gui_follows_operator (s : gstate) :
  In DEFAULT_SOLVER_NAME AVAILABLE_SOLVER_NAMES ->
  _currently_updating s = false ->
  exists s',
    (forall d, run (S (S d)) gui_from_operator s = Returned None s')
    /\ currentText AVAILABLE_SOLVER_NAMES (solver_name_combo s') = SolverName s'
    /\ In (SolverName s') AVAILABLE_SOLVER_NAMES
    /\ beta_box s' = spinbox_value (Beta s)
    /\ Beta s' = Beta s
    /\ (In (SolverName s) AVAILABLE_SOLVER_NAMES -> SolverName s' = SolverName s)
    /\ (~ In (SolverName s) AVAILABLE_SOLVER_NAMES -> SolverName s' = DEFAULT_SOLVER_NAME).
Proof.
  intros Hdef Hs.
  destruct (index AVAILABLE_SOLVER_NAMES (SolverName s)) as [i|] eqn:Hi.
  - eexists. split; [intros d; by apply gui_from_operator_known|].
    cbn. split; [by apply currentText_index|].
    assert (Hin : In (SolverName s) AVAILABLE_SOLVER_NAMES).
    { apply list_elem_of_In. eapply list_elem_of_lookup_2. by apply index_lookup. }
    repeat split; done.
  - destruct (index_In _ _ Hdef) as [i Hi'].
    eexists. split; [intros d; by apply gui_from_operator_unknown|].
    cbn. split; [by apply currentText_index|].
    repeat split; try done. intros Hin. by apply index_None in Hi.
Qed.

(** X18: [configure_operator_from_gui] copies the value of the spin box
    and the selected solver to the operator and leaves the widgets as
    they are; with a selection in range the solver is an available
    one. *)
Theorem operator_follows_gui (s : gstate) :
  _currently_updating s = false ->
  (0 <= solver_name_combo s < Z.of_nat (length AVAILABLE_SOLVER_NAMES))%Z ->
  exists s' name,
    (forall d, run (S (S d)) operator_from_gui s = Returned None s')
    /\ AVAILABLE_SOLVER_NAMES !! Z.to_nat (solver_name_combo s) = Some name
    /\ SolverName s' = name
    /\ Beta s' = beta_box s
    /\ beta_box s' = beta_box s
    /\ solver_name_combo s' = solver_name_combo s
    /\ _currently_updating s' = false.
Proof.
  intros Hs Hrange.
  destruct (lookup_lt_is_Some_2 AVAILABLE_SOLVER_NAMES (Z.to_nat (solver_name_combo s)))
    as [name Hname]; [lia|].
  eexists _, name. split; [intros d; by apply operator_from_gui_run|].
  cbn. split; [done|]. unfold currentText.
  rewrite (proj2 (Z.ltb_ge _ 0)) by lia. by rewrite Hname.
Qed.

(** X19: the two handlers do not drift: after
    [configure_operator_from_gui], a run of
    [configure_gui_from_operator] changes nothing, provided the
    available solvers are pairwise different, one of them is selected,
    and the spin box keeps the value it shows. *)
Theorem handlers_are_stable (s : gstate) :
  NoDup AVAILABLE_SOLVER_NAMES ->
  _currently_updating s = false ->
  (0 <= solver_name_combo s < Z.of_nat (length AVAILABLE_SOLVER_NAMES))%Z ->
  spinbox_value (beta_box s) = beta_box s ->
  exists s1,
    (forall d, run (S (S d)) operator_from_gui s = Returned None s1)
    /\ (forall d, run (S (S d)) gui_from_operator s1 = Returned None s1).
Proof.
  intros Hnd Hs Hrange Hbox.
  destruct (lookup_lt_is_Some_2 AVAILABLE_SOLVER_NAMES (Z.to_nat (solver_name_combo s)))
    as [name Hname]; [lia|].
  eexists. split; [intros d; by apply operator_from_gui_run|].
  intros d. rewrite (gui_from_operator_known _ (solver_name_combo s)); cbn.
  - by rewrite Hbox.
  - done.
  - unfold currentText. rewrite (proj2 (Z.ltb_ge _ 0)) by lia. rewrite Hname.
    rewrite (index_NoDup _ _ _ Hnd Hname). f_equal. lia.
Qed.

(** X20: [set_updating] has no try/finally. When the body of
    [configure_gui_from_operator] raises (the solver of the operator
    and the default solver are both unavailable), the flag stays set,
    and from then on both handlers return [False] without doing
    anything. *)
Theorem flag_stuck_after_exception (s : gstate) (d : nat) :
  _currently_updating s = false ->
  index AVAILABLE_SOLVER_NAMES (SolverName s) = None ->
  index AVAILABLE_SOLVER_NAMES DEFAULT_SOLVER_NAME = None ->
  exists s1,
    run (S (S d)) gui_from_operator s = Raised ValueError s1
    /\ _currently_updating s1 = true
    /\ forall h d', run (S d') h s1 = Returned (Some false) s1.
Proof.
  intros Hs Hn Hdef. eexists. split; [by apply gui_from_operator_raises|].
  split; [done|]. intros h d'. by apply run_guarded.
Qed.

End GuiSync.

Lemma gui_follows_operator_witness :
  exists s',
    (forall d,
        MulticutGui.run (fun v : Z => Z.max 1 (Z.min 99 v)) ["Nifty"; "Cplex"]%string
          "Nifty" (S (S d)) MulticutGui.gui_from_operator
          (MulticutGui.State false 50 0 120 "Gurobi") = Eff.Returned None s')
    /\ MulticutGui.currentText ["Nifty"; "Cplex"]%string (MulticutGui.solver_name_combo s')
       = MulticutGui.SolverName s'
    /\ In (MulticutGui.SolverName s') ["Nifty"; "Cplex"]%string
    /\ MulticutGui.beta_box s' = 99%Z
    /\ MulticutGui.Beta s' = 120%Z
    /\ (In "Gurobi"%string ["Nifty"; "Cplex"]%string
        -> MulticutGui.SolverName s' = "Gurobi"%string)
    /\ (~ In "Gurobi"%string ["Nifty"; "Cplex"]%string
        -> MulticutGui.SolverName s' = "Nifty"%string).
Proof.
  apply (gui_follows_operator (fun v : Z => Z.max 1 (Z.min 99 v))
           ["Nifty"; "Cplex"]%string "Nifty" (MulticutGui.State false 50 0 120 "Gurobi")).
  - simpl. auto.
  - reflexivity.
Defined.

Lemma operator_follows_gui_witness :
  exists s' name,
    (forall d,
        MulticutGui.run (fun v : Z => Z.max 1 (Z.min 99 v)) ["Nifty"; "Cplex"]%string
          "Nifty" (S (S d)) MulticutGui.operator_from_gui
          (MulticutGui.State false 50 1 10 "Nifty") = Eff.Returned None s')
    /\ ["Nifty"; "Cplex"]%string !! Z.to_nat 1 = Some name
    /\ MulticutGui.SolverName s' = name
    /\ MulticutGui.Beta s' = 50%Z
    /\ MulticutGui.beta_box s' = 50%Z
    /\ MulticutGui.solver_name_combo s' = 1%Z
    /\ MulticutGui._currently_updating s' = false.
Proof.
  apply (operator_follows_gui (fun v : Z => Z.max 1 (Z.min 99 v))
           ["Nifty"; "Cplex"]%string "Nifty" (MulticutGui.State false 50 1 10 "Nifty")).
  - reflexivity.
  - simpl. lia.
Defined.

Lemma handlers_are_stable_witness :
  exists s1,
    (forall d,
        MulticutGui.run (fun v : Z => Z.max 1 (Z.min 99 v)) ["Nifty"; "Cplex"]%string
          "Nifty" (S (S d)) MulticutGui.operator_from_gui
          (MulticutGui.State false 50 1 10 "Nifty") = Eff.Returned None s1)
    /\ (forall d,
          MulticutGui.run (fun v : Z => Z.max 1 (Z.min 99 v)) ["Nifty"; "Cplex"]%string
            "Nifty" (S (S d)) MulticutGui.gui_from_operator s1 = Eff.Returned None s1).
Proof.
  apply (handlers_are_stable (fun v : Z => Z.max 1 (Z.min 99 v))
           ["Nifty"; "Cplex"]%string "Nifty" (MulticutGui.State false 50 1 10 "Nifty")).
  - apply (bool_decide_unpack (NoDup ["Nifty"; "Cplex"]%string)). vm_compute. exact I.
  - reflexivity.
  - simpl. lia.
  - reflexivity.
Defined.

Lemma flag_stuck_after_exception_witness :
  exists s1,
    MulticutGui.run (fun v : Z => Z.max 1 (Z.min 99 v)) ["Nifty"; "Cplex"]%string
      "Gurobi" 2 MulticutGui.gui_from_operator
      (MulticutGui.State false 50 0 120 "Opengm") = Eff.Raised Eff.ValueError s1
    /\ MulticutGui._currently_updating s1 = true
    /\ forall h d',
        MulticutGui.run (fun v : Z => Z.max 1 (Z.min 99 v)) ["Nifty"; "Cplex"]%string
          "Gurobi" (S d') h s1 = Eff.Returned (Some false) s1.
Proof.
  apply (flag_stuck_after_exception (fun v : Z => Z.max 1 (Z.min 99 v))
           ["Nifty"; "Cplex"]%string "Gurobi"
           (MulticutGui.State false 50 0 120 "Opengm") 0); reflexivity.
Defined.


(** ** The label sets: saved, then loaded *)

Section NameOrder.

Lemma string_compare_refl (s : string) : String.compare s s = Eq.
Proof.
  induction s as [|c s IH]; [done|]. cbn [String.compare].
  unfold Ascii.compare. by rewrite N.compare_refl.
Qed.

Lemma ltb_le_ne (a b : string) :
  String.ltb a b = true -> String.le a b /\ a <> b.
Proof.
  unfold String.ltb, String.le, String.leb.
  destruct (String.compare a b) eqn:E; try done. intros _. split; [done|].
  intros ->. rewrite string_compare_refl in E. discriminate.
Qed.

Lemma names_increasing (f : nat -> string) (N : nat) :
  forallb (fun i => String.ltb (f i) (f (S i))) (seq 0 (N - 1)) = true ->
  forall i j, (i < j < N)%nat -> String.le (f i) (f j) /\ f i <> f j.
Proof.
  intros Hall.
  assert (Hstep : forall i, (S i < N)%nat -> String.le (f i) (f (S i)) /\ f i <> f (S i)).
  { intros i Hi. apply ltb_le_ne.
    rewrite forallb_forall in Hall. apply Hall, in_seq. lia. }
  intros i j [Hij HjN]. induction j as [|j IH]; [lia|].
  destruct (decide (i = j)) as [->|Hne]; [by apply Hstep|].
  destruct IH as [Hle Hneq]; [lia..|].
  destruct (Hstep j HjN) as [Hle' Hneq'].
  split; [by etrans|]. intros Heq. rewrite Heq in Hle.
  apply Hneq'. by apply (anti_symm String.le).
Qed.

Lemma labelGroupName_increasing (i j : nat) :
  (i < j < 1000)%nat ->
  String.le (LabelFile.labelGroupName i) (LabelFile.labelGroupName j)
  /\ LabelFile.labelGroupName i <> LabelFile.labelGroupName j.
Proof. apply names_increasing. vm_compute. reflexivity. Qed.

Lemma blockName_increasing (i j : nat) :
  (i < j < 10000)%nat ->
  String.le (LabelFile.blockName i) (LabelFile.blockName j)
  /\ LabelFile.blockName i <> LabelFile.blockName j.
Proof. apply names_increasing. vm_compute. reflexivity. Qed.

End NameOrder.

Section LabelFileFacts.
Import Eff LabelFile.
Context {B : Type}.
Variable dataset_len : B -> option nat.

#[local] Abbreviation import_labels := (LabelFile.import_labels dataset_len).

#[local] Abbreviation block_entry read :=
  (fun (k : nat) (slicing : list Py.slice) =>
     (blockName k,
      Dataset (read slicing)
        [("blockSlice"%string, Slicing.slicingToString slicing)])).

#[local] Abbreviation ok_slicing :=
  (fun slicing : list Py.slice =>
     slicing <> [] /\ Forall (fun s => exists a b : Z, s = Py.slice2 a b) slicing).

Lemma zip_with_seq_fst {A C} (name : nat -> string) (f : nat -> A -> C)
    (k : nat) (l : list A) :
  map fst (zip_with (fun j x => (name j, f j x)) (seq k (length l)) l)
  = map name (seq k (length l)).
Proof.
  revert k. induction l as [|x l IH]; intros k; [done|].
  cbn. by rewrite IH.
Qed.

Lemma name_free_seq {A} (name : nat -> string) (N k : nat)
    (members : list (string * node A)) :
  (forall i j, (i < j < N)%nat -> String.le (name i) (name j) /\ name i <> name j) ->
  (k < N)%nat ->
  map fst members = map name (seq 0 k) ->
  name_free (name k) members = true.
Proof.
  intros Hinc Hk Hnames. unfold name_free. rewrite Hnames.
  apply negb_true_iff, bool_decide_eq_false_2.
  intros (j & Heq & Hj%elem_of_seq)%list_elem_of_fmap.
  destruct (Hinc j k) as [_ Hne]; [lia|]. by apply Hne.
Qed.

Lemma write_blocks_run (read : list Py.slice -> B) (k : nat)
    (blocks : list (list Py.slice)) (g : list (string * node B)) :
  (k + length blocks <= 10000)%nat ->
  map fst g = map blockName (seq 0 k) ->
  write_blocks read k blocks g
  = inl (g ++ zip_with (block_entry read) (seq k (length blocks)) blocks).
Proof.
  revert k g. induction blocks as [|slicing blocks IH]; intros k g Hk Hg.
  - cbn. by rewrite app_nil_r.
  - cbn [write_blocks length seq zip_with] in *.
    rewrite (name_free_seq blockName 10000) by (done || lia || apply blockName_increasing).
    rewrite IH.
    + by rewrite <- app_assoc.
    + lia.
    + rewrite map_app, Hg, seq_S, map_app. done.
Qed.

#[local] Abbreviation image_entry read :=
  (fun (i : nat) (blocks : list (list Py.slice)) =>
     (labelGroupName i,
      Group (zip_with (block_entry (read i)) (seq 0 (length blocks)) blocks))).

Lemma write_images_run (read : nat -> list Py.slice -> B) (k : nat)
    (images : list (list (list Py.slice))) (dir : list (string * node B)) :
  (k + length images <= 1000)%nat ->
  Forall (fun blocks => length blocks <= 10000)%nat images ->
  map fst dir = map labelGroupName (seq 0 k) ->
  write_images read k images dir
  = inl (dir ++ zip_with (image_entry read) (seq k (length images)) images).
Proof.
  revert k dir. induction images as [|blocks images IH]; intros k dir Hk Hall Hdir.
  - cbn. by rewrite app_nil_r.
  - inversion Hall as [|? ? Hblocks Hrest]; subst.
    cbn [write_images length seq zip_with] in *.
    rewrite (name_free_seq labelGroupName 1000)
      by (done || lia || apply labelGroupName_increasing).
    rewrite write_blocks_run by (done || (cbn; lia)). cbn [app].
    rewrite IH.
    + by rewrite <- app_assoc.
    + lia.
    + done.
    + rewrite map_app, Hdir, seq_S, map_app. done.
Qed.

Lemma sorted_names (name : nat -> string) (N k n : nat) :
  (forall i j, (i < j < N)%nat -> String.le (name i) (name j) /\ name i <> name j) ->
  (k + n <= N)%nat ->
  StronglySorted String.le (map name (seq k n)) /\ NoDup (map name (seq k n)).
Proof.
  intros Hinc. revert k. induction n as [|n IH]; intros k Hk.
  - split; constructor.
  - cbn [seq map]. destruct (IH (S k)) as [Hs Hnd]; [lia|]. split.
    + constructor; [done|]. apply Forall_forall.
      intros x (j & -> & Hj%elem_of_seq)%list_elem_of_fmap. apply Hinc. lia.
    + constructor; [|done].
      intros (j & Heq & Hj%elem_of_seq)%list_elem_of_fmap.
      destruct (Hinc k j) as [_ Hne]; [lia|]. by apply Hne.
Qed.

Lemma StronglySorted_keys {A} (l : list (string * node A)) :
  StronglySorted String.le (map fst l) -> StronglySorted key_le l.
Proof.
  induction l as [|p l IH]; [constructor|].
  cbn [map]. intros Hs. apply StronglySorted_inv in Hs as [Hl Hp].
  constructor; [by apply IH|].
  apply Forall_forall. intros q Hq. unfold key_le.
  rewrite Forall_forall in Hp. apply Hp. by apply list_elem_of_fmap_2.
Qed.

Lemma NoDup_keys {A} (l : list (string * node A)) (x y : string * node A) :
  NoDup (map fst l) -> x ∈ l -> y ∈ l -> x.1 = y.1 -> x = y.
Proof.
  induction l as [|p l IH]; [by intros _ ?%elem_of_nil|].
  cbn [map]. intros [Hp Hnd]%NoDup_cons Hx Hy Heq.
  apply elem_of_cons in Hx as [->|Hx]; apply elem_of_cons in Hy as [->|Hy].
  - done.
  - exfalso. apply Hp. rewrite Heq. by apply list_elem_of_fmap_2.
  - exfalso. apply Hp. rewrite <- Heq. by apply list_elem_of_fmap_2.
  - by apply IH.
Qed.

#[local] Instance key_le_trans {A} : Transitive (key_le (B:=A)).
Proof. intros x y z. unfold key_le. apply transitivity. Qed.

#[local] Instance key_le_total {A} : Total (key_le (B:=A)).
Proof. intros x y. unfold key_le. apply (total String.le). Qed.

(** Members that were created in the order of their names are listed
    in the order they were created. *)
Lemma sorted_items_id {A} (l : list (string * node A)) :
  StronglySorted String.le (map fst l) -> NoDup (map fst l) ->
  sorted_items l = l.
Proof.
  intros Hs Hnd. unfold sorted_items.
  apply (StronglySorted_unique_strong key_le).
  - intros x1 x2 Hx1 Hx2 H12 H21.
    apply (NoDup_keys l); [done| |done|].
    + by rewrite <- (merge_sort_Permutation key_le l).
    + by apply (anti_symm String.le).
  - apply StronglySorted_merge_sort; apply _.
  - by apply StronglySorted_keys.
  - apply merge_sort_Permutation.
Qed.

Lemma zip_with_seq_snd {A C} (name : nat -> string) (f : A -> C) (k : nat) (l : list A) :
  map snd (zip_with (fun j x => (name j, f x)) (seq k (length l)) l) = map f l.
Proof.
  revert k. induction l as [|x l IH]; intros k; [done|]. cbn. by rewrite IH.
Qed.

Lemma assign_blocks_run (read : list Py.slice -> B) (index : nat)
    (blocks : list (list Py.slice)) (inputs : list (list (list Py.slice * B)))
    (made : list (list Py.slice * B)) :
  inputs !! index = Some made ->
  Forall ok_slicing blocks ->
  assign_blocks index
    (map (fun slicing =>
            Dataset (read slicing)
              [("blockSlice"%string, Slicing.slicingToString slicing)]) blocks)
    inputs
  = inl (<[index := made ++ map (fun slicing => (slicing, read slicing)) blocks]> inputs).
Proof.
  revert inputs made. induction blocks as [|slicing blocks IH]; intros inputs made Hi Hall.
  - cbn. by rewrite app_nil_r, list_insert_id.
  - inversion Hall as [|? ? [Hne Hint] Hrest]; subst.
    cbn [map assign_blocks read_block attr].
    rewrite bool_decide_eq_true_2 by done.
    rewrite (roundtrip_any_sign _ Hne Hint), Hi.
    rewrite (IH _ (made ++ [(slicing, read slicing)])); [|..|done].
    + by rewrite list_insert_insert_eq, <- app_assoc.
    + apply list_lookup_insert_eq. by eapply lookup_lt_Some.
Qed.

Lemma assign_images_run (read : nat -> list Py.slice -> B) (k : nat)
    (images : list (list (list Py.slice))) (inputs : list (list (list Py.slice * B))) :
  Forall (fun blocks => length blocks <= 10000 /\ Forall ok_slicing blocks)%nat images ->
  (forall j, (j < length images)%nat -> inputs !! (k + j)%nat = Some []) ->
  exists inputs',
    assign_images k (zip_with (image_entry read) (seq k (length images)) images) inputs
    = inl inputs'
    /\ length inputs' = length inputs
    /\ (forall i, (i < k)%nat -> inputs' !! i = inputs !! i)
    /\ (forall j blocks,
          images !! j = Some blocks ->
          inputs' !! (k + j)%nat
          = Some (map (fun slicing => (slicing, read (k + j)%nat slicing)) blocks)).
Proof.
  revert k inputs. induction images as [|blocks images IH]; intros k inputs Hall Hempty.
  - exists inputs. repeat split; done.
  - inversion Hall as [|? ? [Hlen Hok] Hrest]; subst.
    cbn [length seq zip_with assign_images].
    assert (Hnames := sorted_names blockName 10000 0 (length blocks)
                        blockName_increasing ltac:(lia)).
    rewrite sorted_items_id
      by (rewrite (zip_with_seq_fst blockName
                     (fun _ slicing => Dataset (read k slicing) _)); apply Hnames).
    rewrite (zip_with_seq_snd blockName
               (fun slicing => Dataset (read k slicing)
                  [("blockSlice"%string, Slicing.slicingToString slicing)])).
    assert (Hk : inputs !! k = Some []).
    { specialize (Hempty 0%nat). rewrite Nat.add_0_r in Hempty. apply Hempty. cbn. lia. }
    rewrite (assign_blocks_run (read k) k blocks inputs [] Hk Hok). cbn [app].
    destruct (IH (S k)
                (<[k := map (fun slicing => (slicing, read k slicing)) blocks]> inputs)
                Hrest) as (inputs' & Hrun & Hlen' & Hkeep & Hget).
    { intros j Hj. rewrite list_lookup_insert_ne by lia.
      replace (S k + j)%nat with (k + S j)%nat by lia. apply Hempty. cbn. lia. }
    exists inputs'. split; [exact Hrun|]. split; [by rewrite Hlen', length_insert|].
    split.
    + intros i Hi. rewrite Hkeep by lia. by rewrite list_lookup_insert_ne by lia.
    + intros [|j] blocks' Hj.
      * cbn in Hj. injection Hj as <-. rewrite Nat.add_0_r, Hkeep by lia.
        apply list_lookup_insert_eq. by eapply lookup_lt_Some.
      * cbn in Hj. replace (k + S j)%nat with (S k + j)%nat by lia. by apply Hget.
Qed.

Lemma labels_export_import (l l0 : slots B) :
  (length (NonzeroLabelBlocks l) <= 1000)%nat ->
  Forall (fun blocks => length blocks <= 10000 /\ Forall ok_slicing blocks)%nat
         (NonzeroLabelBlocks l) ->
  LabelInputs l0 = [] ->
  exists g l1,
    export_labels l = inl g
    /\ import_labels g l0 = inl l1
    /\ length (LabelInputs l1) = length (NonzeroLabelBlocks l)
    /\ forall i blocks,
        NonzeroLabelBlocks l !! i = Some blocks ->
        LabelInputs l1 !! i
        = Some (map (fun slicing => (slicing, LabelImages l i slicing)) blocks).
Proof.
  intros Hn Hall Hfresh.
  assert (Hnames := sorted_names labelGroupName 1000 0 (length (NonzeroLabelBlocks l))
                      labelGroupName_increasing ltac:(lia)).
  destruct (assign_images_run (LabelImages l) 0 (NonzeroLabelBlocks l)
              (replicate (length (NonzeroLabelBlocks l)) []) Hall)
    as (inputs' & Hrun & Hlen & _ & Hget).
  { intros j Hj. apply lookup_replicate. split; [done|lia]. }
  exists (Group (zip_with (image_entry (LabelImages l))
                   (seq 0 (length (NonzeroLabelBlocks l))) (NonzeroLabelBlocks l))).
  exists (Slots (NonzeroLabelBlocks l0) (LabelImages l0) inputs').
  split.
  { unfold export_labels. rewrite write_images_run; [done|cbn; lia| |done].
    eapply Forall_impl; [exact Hall|]. by intros ? [? _]. }
  split.
  { unfold LabelFile.import_labels.
    rewrite sorted_items_id
      by (rewrite (zip_with_seq_fst labelGroupName (fun i blocks => Group _));
          apply Hnames).
    rewrite Hfresh. unfold resize.
    rewrite length_zip_with, length_seq, Nat.min_id, Nat.sub_0_r, take_nil.
    cbn [app length]. by rewrite Hrun. }
  cbn [LabelInputs]. split.
  - by rewrite Hlen, length_replicate.
  - intros i blocks Hi. by apply (Hget i blocks).
Qed.

(** X21: label blocks that [_serializeLabels] wrote are assigned by
    [_deserializeLabels] to the label input of the same image, under
    the same slicing and in the same order, for up to 1000 images
    with up to 10000 blocks each (the names 'labels%03d' and
    'block%04d' then sort like the indices) and slicings that are not
    empty and have integer bounds. Both methods clear the flag of the
    labels. *)
Theorem labels_saved_then_loaded {Clf : Type}
    (s s0 : Serializer.state (node B) Clf (slots B)) :
  (length (NonzeroLabelBlocks (Serializer.labels s)) <= 1000)%nat ->
  Forall (fun blocks => length blocks <= 10000 /\ Forall ok_slicing blocks)%nat
         (NonzeroLabelBlocks (Serializer.labels s)) ->
  LabelInputs (Serializer.labels s0) = [] ->
  exists s1 s2,
    Serializer._serializeLabels export_labels s = Returned tt s1
    /\ Serializer._deserializeLabels import_labels (Serializer.topGroup s1) s0
       = Returned tt s2
    /\ Serializer._dirtyFlags s1 !! Serializer.Section_Labels = Some false
    /\ Serializer._dirtyFlags s2 !! Serializer.Section_Labels = Some false
    /\ length (LabelInputs (Serializer.labels s2))
       = length (NonzeroLabelBlocks (Serializer.labels s))
    /\ forall i blocks,
        NonzeroLabelBlocks (Serializer.labels s) !! i = Some blocks ->
        LabelInputs (Serializer.labels s2) !! i
        = Some (map (fun slicing =>
                       (slicing, LabelImages (Serializer.labels s) i slicing)) blocks).
Proof.
  intros Hn Hall Hfresh.
  destruct (labels_export_import (Serializer.labels s) (Serializer.labels s0)
              Hn Hall Hfresh) as (g & l1 & Hexp & Himp & Hlen & Hget).
  eexists _, _. split.
  { unfold Serializer._serializeLabels, Serializer.setFlag.
    unfold mbind, M_bind, bind, modify, get, try_. cbn. rewrite Hexp. reflexivity. }
  split.
  { unfold Serializer._deserializeLabels, Serializer.setFlag. cbn.
    rewrite lookup_insert_eq.
    unfold mbind, M_bind, bind, modify, get, try_. cbn. rewrite Himp. reflexivity. }
  cbn. split; [apply lookup_insert_eq|]. split; [apply lookup_insert_eq|].
  split; [exact Hlen|exact Hget].
Qed.

End LabelFileFacts.

Lemma labels_saved_then_loaded_witness :
  exists s1 s2,
    Serializer._serializeLabels LabelFile.export_labels
      (Serializer.State Serializer.clean_flags [] ∅
         (Serializer.Slot (Serializer.Connected None) 0)
         (Serializer.Slot (Serializer.Connected (None : option unit)) 0)
         (LabelFile.Slots [[[Py.slice2 0 2; Py.slice2 0 3]; [Py.slice2 4 6; Py.slice2 1 2]]; []]
            (fun i slicing => (Z.of_nat i, length slicing)) [])) = Eff.Returned tt s1
    /\ Serializer._deserializeLabels (LabelFile.import_labels (fun _ => None))
         (Serializer.topGroup s1)
         (Serializer.State Serializer.clean_flags [] ∅
            (Serializer.Slot (Serializer.Connected None) 0)
            (Serializer.Slot (Serializer.Connected (None : option unit)) 0)
            (LabelFile.Slots [] (fun _ _ => (0%Z, 0%nat)) [])) = Eff.Returned tt s2
    /\ Serializer._dirtyFlags s1 !! Serializer.Section_Labels = Some false
    /\ Serializer._dirtyFlags s2 !! Serializer.Section_Labels = Some false
    /\ length (LabelFile.LabelInputs (Serializer.labels s2)) = 2%nat
    /\ forall i blocks,
        [[[Py.slice2 0 2; Py.slice2 0 3]; [Py.slice2 4 6; Py.slice2 1 2]]; []] !! i
        = Some blocks ->
        LabelFile.LabelInputs (Serializer.labels s2) !! i
        = Some (map (fun slicing => (slicing, (Z.of_nat i, length slicing))) blocks).
Proof.
  apply (labels_saved_then_loaded (fun _ => None)
           (Serializer.State Serializer.clean_flags [] ∅
              (Serializer.Slot (Serializer.Connected None) 0)
              (Serializer.Slot (Serializer.Connected (None : option unit)) 0)
              (LabelFile.Slots
                 [[[Py.slice2 0 2; Py.slice2 0 3]; [Py.slice2 4 6; Py.slice2 1 2]]; []]
                 (fun i slicing => (Z.of_nat i, length slicing)) []))).
  - simpl. lia.
  - repeat (apply Forall_cons_2 || apply Forall_nil_2 || split);
      try (apply Nat.leb_le; reflexivity); try discriminate;
      eexists _, _; reflexivity.
  - reflexivity.
Defined.

Example label_file_doc :
  LabelFile.export_labels
    (LabelFile.Slots [[[Py.slice2 0 2; Py.slice2 0 3]]; []]
       (fun i _ => Z.of_nat i) [])
  = inl (LabelFile.Group
           [("labels000"%string,
             LabelFile.Group
               [("block0000"%string,
                 LabelFile.Dataset 0%Z [("blockSlice"%string, "[0:2,0:3]"%string)])]);
            ("labels001"%string, LabelFile.Group [])]).
Proof. vm_compute. reflexivity. Qed.

(** A block whose 'blockSlice' cannot be read stops the import with
    the label inputs resized and the blocks before it assigned. *)
Example import_labels_partial :
  LabelFile.import_labels (fun _ : Z => None)
    (LabelFile.Group
       [("labels000"%string,
         LabelFile.Group
           [("block0000"%string,
             LabelFile.Dataset 7%Z [("blockSlice"%string, "[0:2,0:3]"%string)]);
            ("block0001"%string,
             LabelFile.Dataset 8%Z [("blockSlice"%string, "[0:2,0:x]"%string)])]);
        ("labels001"%string, LabelFile.Group [])])
    (LabelFile.Slots [] (fun _ _ => 0%Z) [])
  = inr (Eff.ValueError,
         LabelFile.Slots [] (fun _ _ => 0%Z) [[([Py.slice2 0 2; Py.slice2 0 3], 7%Z)]; []]).
Proof. vm_compute. reflexivity. Qed.

(** With more than 1000 images the names no longer sort like the
    indices: the group of image 1000 comes right after the group of
    image 100. *)
Example labelGroupName_1000 :
  match LabelFile.export_labels
          (LabelFile.Slots (replicate 1001 []) (fun _ _ => tt) []) with
  | inl (LabelFile.Group members) =>
      map fst (take 3 (drop 100 (LabelFile.sorted_items members)))
  | _ => []
  end = ["labels100"; "labels1000"; "labels101"]%string.
Proof. vm_compute. reflexivity. Qed.

(** ** Importing the labels of an ilastik 0.5 project *)

Section ImportFacts.
Import Eff Ilastik05Import.
Local Open Scope list_scope.

Context {B : Type}.

Lemma resize_length {A : Type} (n : nat) (subslots : list (list A)) :
  length (resize n subslots) = n.
Proof.
  unfold resize. rewrite length_app, length_take, length_replicate. lia.
Qed.

Lemma resize_lookup {A : Type} (n i : nat) (subslots : list (list A)) :
  (i < n)%nat ->
  resize n subslots !! i = Some (default [] (subslots !! i)).
Proof.
  intros Hi. unfold resize.
  destruct (decide (i < length subslots)%nat) as [Hlt|Hge].
  - rewrite lookup_app_l by (rewrite length_take; lia).
    rewrite lookup_take_lt by lia.
    destruct (lookup_lt_is_Some_2 subslots i Hlt) as [x ->]. reflexivity.
  - rewrite lookup_app_r by (rewrite length_take; lia).
    rewrite length_take.
    rewrite (lookup_ge_None_2 subslots i) by lia. cbn.
    apply lookup_replicate. split; [done|lia].
Qed.

Lemma assign_datasets_run
    (items : list (string * list (string * LabelFile.node B))) :
  forall (k : nat) (inputs : list (list B)),
  Forall (fun item => labels_readable item.2) items ->
  (k + length items <= length inputs)%nat ->
  exists inputs',
    assign_datasets k items inputs = Returned tt inputs'
    /\ length inputs' = length inputs
    /\ (forall j, (j < k)%nat -> inputs' !! j = inputs !! j)
    /\ (forall j item, items !! j = Some item ->
          inputs' !! (k + j)%nat
          = Some (default [] (inputs !! (k + j)%nat) ++ whole_labels item.2)).
Proof.
  induction items as [|[name g] rest IH]; intros k inputs Hok Hlen.
  - exists inputs. repeat split; try done.
  - apply Forall_cons in Hok as [Hg Hrest]. cbn in Hlen, Hg.
    unfold labels_readable in Hg.
    cbn [assign_datasets]. unfold whole_labels.
    destruct (labels_data g) as [[?|value attrs]|] eqn:Hd; [done| |].
    + destruct (lookup_lt_is_Some_2 inputs k ltac:(lia)) as [made Hmade].
      destruct (IH (S k) (<[k := made ++ [value]]> inputs) Hrest
                  ltac:(rewrite length_insert; lia))
        as (inputs' & Hrun & Hlen' & Hbefore & Hat).
      exists inputs'. split.
      { unfold mbind, M_bind, bind, get, modify. cbn. rewrite Hmade. cbn.
        exact Hrun. }
      split; [by rewrite Hlen', length_insert|].
      split.
      { intros j Hj. rewrite Hbefore by lia.
        apply list_lookup_insert_ne. lia. }
      intros [|j] item Hitem.
      * injection Hitem as <-. cbn [snd]. rewrite Hd.
        rewrite Nat.add_0_r, Hbefore by lia.
        rewrite list_lookup_insert_eq by lia. by rewrite Hmade.
      * cbn in Hitem. replace (k + S j)%nat with (S k + j)%nat by lia.
        rewrite (Hat j item Hitem).
        rewrite list_lookup_insert_ne by lia. reflexivity.
    + destruct (IH (S k) inputs Hrest ltac:(lia))
        as (inputs' & Hrun & Hlen' & Hbefore & Hat).
      exists inputs'. split; [exact Hrun|]. split; [exact Hlen'|].
      split; [intros j Hj; apply Hbefore; lia|].
      intros [|j] item Hitem.
      * injection Hitem as <-. cbn [snd]. rewrite Hd.
        rewrite Nat.add_0_r, Hbefore by lia.
        destruct (lookup_lt_is_Some_2 inputs k ltac:(lia)) as [made ->].
        cbn. by rewrite app_nil_r.
      * cbn in Hitem. replace (k + S j)%nat with (S k + j)%nat by lia.
        exact (Hat j item Hitem).
Qed.

(** X22: [Ilastik05ImportDeserializer.deserializeFromHdf5] changes the
    label inputs for version 0.5 only. For a file of another version it
    returns without a change; for a file that has no 'ilastikVersion'
    at all it does not return either, it raises [KeyError]. *)
Theorem import05_only_version_05 (is_0_5 : B -> bool) (hdf5File : project B)
    (inputs : list (list B)) :
  (forall version, ilastikVersion hdf5File = Some version -> is_0_5 version = false) ->
  deserializeFromHdf5 is_0_5 hdf5File inputs
  = match ilastikVersion hdf5File with
    | Some _ => Returned tt inputs
    | None => Raised KeyError inputs
    end.
Proof.
  intros Hv. unfold deserializeFromHdf5.
  destruct (ilastikVersion hdf5File) as [version|]; [|reflexivity].
  rewrite (Hv version eq_refl). reflexivity.
Qed.

(** X23: for a 0.5 project the label inputs are resized to the number
    of datasets, and the dataset that comes [i]-th by name has its
    'labels/data' assigned to subslot [i]: a dataset without labels is
    skipped, but still counts for the index of those after it. What a
    subslot held before the import stays in it. *)
Theorem import05_assigns (is_0_5 : B -> bool) (version : B)
    (datasets : list (string * list (string * LabelFile.node B)))
    (inputs : list (list B)) :
  is_0_5 version = true ->
  Forall (fun item => labels_readable item.2) datasets ->
  exists inputs',
    deserializeFromHdf5 is_0_5 (Project (Some version) (Some datasets)) inputs
    = Returned tt inputs'
    /\ length inputs' = length datasets
    /\ forall i item, sorted_by_name datasets !! i = Some item ->
         inputs' !! i = Some (default [] (inputs !! i) ++ whole_labels item.2).
Proof.
  intros Hv Hok.
  assert (Hperm : sorted_by_name datasets ≡ₚ datasets)
    by apply merge_sort_Permutation.
  assert (Hlen : length (sorted_by_name datasets) = length datasets)
    by (by rewrite Hperm).
  destruct (assign_datasets_run (sorted_by_name datasets) 0
              (resize (length datasets) inputs))
    as (inputs' & Hrun & Hlen' & _ & Hat).
  { by rewrite Hperm. }
  { rewrite resize_length. lia. }
  exists inputs'. split.
  { unfold deserializeFromHdf5. cbn. rewrite Hv.
    unfold mbind, M_bind, bind, modify. exact Hrun. }
  split; [by rewrite Hlen', resize_length|].
  intros i item Hitem.
  specialize (Hat i item Hitem). cbn [Nat.add] in Hat. rewrite Hat.
  rewrite resize_lookup; [reflexivity|].
  apply lookup_lt_Some in Hitem. lia.
Qed.

End ImportFacts.

Lemma import05_only_version_05_witness :
  Ilastik05Import.deserializeFromHdf5 (fun v => (v =? 5)%Z)
    (Ilastik05Import.Project (Some 6%Z) None) [[1%Z]]
  = Eff.Returned tt [[1%Z]].
Proof.
  apply (import05_only_version_05 (fun v => (v =? 5)%Z)
           (Ilastik05Import.Project (Some 6%Z) None) [[1%Z]]).
  intros version [= <-]. reflexivity.
Defined.

Lemma import05_assigns_witness :
  exists inputs',
    Ilastik05Import.deserializeFromHdf5 (fun v => (v =? 5)%Z)
      (Ilastik05Import.Project (Some 5%Z)
         (Some [("b"%string,
                 [("labels"%string,
                   LabelFile.Group [("data"%string, LabelFile.Dataset 7%Z [])])]);
                ("a"%string, [])]))
      [[1%Z]]
    = Eff.Returned tt inputs'
    /\ length inputs' = 2%nat
    /\ forall i item,
         Ilastik05Import.sorted_by_name
           [("b"%string,
             [("labels"%string,
               LabelFile.Group [("data"%string, LabelFile.Dataset 7%Z [])])]);
            ("a"%string, [])] !! i = Some item ->
         inputs' !! i
         = Some (default [] ([[1%Z]] !! i) ++ Ilastik05Import.whole_labels item.2)%list.
Proof.
  apply (import05_assigns (fun v => (v =? 5)%Z) 5%Z
           [("b"%string,
             [("labels"%string,
               LabelFile.Group [("data"%string, LabelFile.Dataset 7%Z [])])]);
            ("a"%string, [])]
           [[1%Z]]).
  - reflexivity.
  - repeat (apply Forall_cons_2 || apply Forall_nil_2); exact I.
Defined.

(** The second dataset by name gets the labels, the first one keeps
    what it had. *)
Example import05_doc :
  Ilastik05Import.deserializeFromHdf5 (fun v => (v =? 5)%Z)
    (Ilastik05Import.Project (Some 5%Z)
       (Some [("b"%string,
               [("labels"%string,
                 LabelFile.Group [("data"%string, LabelFile.Dataset 7%Z [])])]);
              ("a"%string, [])]))
    [[1%Z]]
  = Eff.Returned tt [[1%Z]; [7%Z]].
Proof. vm_compute. reflexivity. Qed.

(** ** The multicut GUI: layers and subscriptions *)

Section LayerFacts.
Import Eff MulticutGuiSetup.
Local Open Scope list_scope.

Ltac layers_cases g :=
  unfold setupLayers, create_multicut_edge_layer,
    create_multicut_segmentation_layer, update_probability_edges_call,
    set_superpixel_edge_layer, set_submitted, append_if;
  unfold mbind, M_bind, mret, M_ret, bind, ret, modify, get;
  destruct g as [fns stored made subscribed is_ready requests]; cbn;
  destruct (is_ready Output) eqn:HOutput;
  destruct (is_ready Superpixels) eqn:HSuperpixels;
  destruct (is_ready EdgeProbabilitiesDict) eqn:HEdgeProbabilitiesDict;
  destruct (is_ready RawData) eqn:HRawData;
  repeat (progress (cbn;
            rewrite ?HOutput, ?HSuperpixels, ?HEdgeProbabilitiesDict, ?HRawData)).

(** X24: [setupLayers] returns layers with names that differ from one
    another, each for a slot that is ready; the layer 'Multicut Edges',
    which [onUpdateMulticutButton] looks up by its name, is among them
    exactly when [Output] is ready. *)
Theorem setupLayers_names (g : gui) :
  exists layers g',
    setupLayers g = Returned layers g'
    /\ NoDup (map name layers)
    /\ (forall l, l ∈ layers -> ready g (source l) = true)
    /\ ("Multicut Edges"%string ∈ map name layers <-> ready g Output = true).
Proof.
  layers_cases g; eexists _, _; (split; [reflexivity|]);
    (split; [apply (bool_decide_unpack _); vm_compute; exact I|]);
    (split; [intros l Hl;
             repeat (apply elem_of_cons in Hl as [->|Hl]; [assumption|]);
             by apply elem_of_nil in Hl|]);
    (split; [intros Hin; try reflexivity;
             exfalso; revert Hin; apply (bool_decide_unpack _); vm_compute; exact I
            |intros Hr; try discriminate Hr;
             apply (bool_decide_unpack _); vm_compute; exact I]).
Qed.

(** X25: after [setupLayers] the attribute [superpixel_edge_layer] is
    the layer 'Superpixel Edge Probabilities' of the returned list, and
    nothing when the list has none: whatever it held before is dropped.
    The layer is made, and one request to update its pens is submitted,
    exactly when [Superpixels] and [EdgeProbabilitiesDict] are both
    ready. *)
Theorem setupLayers_superpixel_edge_layer (g : gui) :
  exists layers g',
    setupLayers g = Returned layers g'
    /\ superpixel_edge_layer g'
       = head (filter (fun l => name l = "Superpixel Edge Probabilities"%string) layers)
    /\ (is_Some (superpixel_edge_layer g')
        <-> ready g Superpixels = true /\ ready g EdgeProbabilitiesDict = true)
    /\ submitted g'
       = match superpixel_edge_layer g' with
         | Some _ => S (submitted g)
         | None => submitted g
         end.
Proof.
  layers_cases g; eexists _, _; (split; [reflexivity|]); cbn;
    (split; [vm_compute; reflexivity|]);
    (split; [|reflexivity]);
    (split; [intros [l Hl]; try discriminate Hl; by split
            |intros [H1 H2]; try discriminate H1; try discriminate H2; by eexists]).
Qed.

End LayerFacts.

Section CleanupFacts.
Import Eff MulticutGuiSetup.
Local Open Scope list_scope.

Lemma filter_in_ext {A : Type} (P Q : A -> Prop)
    `{forall x, Decision (P x)} `{forall x, Decision (Q x)} (l : list A) :
  (forall x, x ∈ l -> P x <-> Q x) -> filter P l = filter Q l.
Proof.
  induction l as [|a l IH]; intros Hext; [reflexivity|].
  rewrite !filter_cons.
  rewrite IH by (intros x Hx; apply Hext; by right).
  destruct (decide (P a)) as [Hp|Hp], (decide (Q a)) as [Hq|Hq]; try reflexivity.
  - exfalso. apply Hq, Hext; [by left|exact Hp].
  - exfalso. apply Hp, Hext; [by left|exact Hq].
Qed.

Lemma filter_all {A : Type} (P : A -> Prop) `{forall x, Decision (P x)}
    (l : list A) :
  (forall x, x ∈ l -> P x) -> filter P l = l.
Proof.
  induction l as [|a l IH]; intros Hall; [reflexivity|].
  rewrite filter_cons_True by (apply Hall; by left).
  f_equal. apply IH. intros x Hx. apply Hall. by right.
Qed.

Lemma call_all_run (fns : list (op_slot * callback)) :
  forall g, exists g',
    call_all fns g = Returned tt g'
    /\ cleanup_fns g' = cleanup_fns g
    /\ connections g' = connections g
    /\ forall slot,
         dirty_callbacks g' slot
         = filter (fun cb => (slot, cb) ∉ fns) (dirty_callbacks g slot).
Proof.
  induction fns as [|[slot cb] rest IH]; intros g.
  - exists g. repeat split; try reflexivity.
    intros slot. induction (dirty_callbacks g slot) as [|x l IHl]; [reflexivity|].
    rewrite filter_cons_True by apply not_elem_of_nil. by f_equal.
  - cbn [call_all].
    unfold unregisterDirty, set_dirty_callbacks.
    unfold mbind, M_bind, bind, get, modify. cbn.
    match goal with |- context [call_all rest ?g1] =>
      destruct (IH g1) as (g' & Hrun & Hfns & Hconn & Hcbs) end.
    exists g'. split; [exact Hrun|]. cbn in Hfns, Hconn, Hcbs.
    split; [exact Hfns|]. split; [exact Hconn|].
    intros slot'. rewrite Hcbs.
    case_bool_decide as Hslot.
    + subst slot'. rewrite list_filter_filter. apply filter_in_ext.
      intros x _. rewrite not_elem_of_cons. split.
      * intros [Hrest Hx]. split; [congruence|exact Hrest].
      * intros [Hx Hrest]. split; [exact Hrest|congruence].
    + apply filter_in_ext. intros x _. rewrite not_elem_of_cons. split.
      * intros Hrest. split; [congruence|exact Hrest].
      * intros [_ Hrest]. exact Hrest.
Qed.

Lemma subscribe_tracked (g0 g : gui) (slot : op_slot) (cb : callback)
    (stored : option layer) (made : list (qt_signal * qt_handler))
    (is_ready : op_slot -> bool) (requests : nat) :
  own cb = true ->
  tracked g0 g ->
  tracked g0
    (Gui (cleanup_fns g ++ [(slot, cb)]) stored made
         (fun slot' => if bool_decide (slot' = slot)
                       then dirty_callbacks g slot ++ [cb]
                       else dirty_callbacks g slot')
         is_ready requests).
Proof.
  intros Hcb (Hforeign & Hown & Hfns). split; [|split]; cbn.
  - intros slot'. case_bool_decide as Hslot; [subst slot'|apply Hforeign].
    rewrite filter_app, Hforeign.
    rewrite filter_cons_False by (by rewrite Hcb). apply app_nil_r.
  - intros slot' cb' Hin Hcb'. rewrite elem_of_app, list_elem_of_singleton.
    case_bool_decide as Hslot; [subst slot'|left; by apply Hown].
    apply elem_of_app in Hin as [Hin|Hin%list_elem_of_singleton].
    + left. by apply Hown.
    + right. by subst cb'.
  - intros slot' cb' [Hin|Hin%list_elem_of_singleton]%elem_of_app.
    + by apply (Hfns slot').
    + by injection Hin as -> ->.
Qed.

Lemma run_step_tracked (st : setup_step) (g0 g : gui) :
  tracked g0 g ->
  exists g',
    run_step st g = Returned tt g'
    /\ tracked g0 g'
    /\ (forall c, c ∈ connections g -> c ∈ connections g')
    /\ (st = step_createDrawerControls ->
        (beta_box_valueChanged, configure_operator_from_gui) ∈ connections g').
Proof.
  intros Htracked. destruct st.
  - set (g1 := Gui (cleanup_fns g ++ [(Beta, configure_gui_from_operator)])
                   (superpixel_edge_layer g)
                   (connections g ++ [(beta_box_valueChanged, configure_operator_from_gui)])
                   (fun slot' => if bool_decide (slot' = Beta)
                                 then dirty_callbacks g Beta ++ [configure_gui_from_operator]
                                 else dirty_callbacks g slot')
                   (ready g) (submitted g)).
    exists (Gui (cleanup_fns g1 ++ [(SolverName, configure_gui_from_operator)])
                (superpixel_edge_layer g1)
                ((connections g1
                  ++ [(solver_name_combo_currentIndexChanged, configure_operator_from_gui)])
                 ++ [(update_button_clicked, onUpdateMulticutButton)])
                (fun slot' => if bool_decide (slot' = SolverName)
                              then dirty_callbacks g1 SolverName ++ [configure_gui_from_operator]
                              else dirty_callbacks g1 slot')
                (ready g1) (submitted g1)).
    split; [reflexivity|]. split; [|split].
    + apply (subscribe_tracked g0 g1 SolverName configure_gui_from_operator);
        [reflexivity|].
      apply (subscribe_tracked g0 g Beta configure_gui_from_operator);
        [reflexivity|exact Htracked].
    + intros c Hc. cbn. rewrite !elem_of_app. by left; left; left.
    + intros _. cbn. rewrite !elem_of_app, !list_elem_of_singleton. by left; left; right.
  - exists (Gui (cleanup_fns g ++ [(EdgeProbabilitiesDict, update_probability_edges)])
                (superpixel_edge_layer g) (connections g)
                (fun slot' => if bool_decide (slot' = EdgeProbabilitiesDict)
                              then dirty_callbacks g EdgeProbabilitiesDict
                                   ++ [update_probability_edges]
                              else dirty_callbacks g slot')
                (ready g) (submitted g)).
    split; [reflexivity|]. split; [|split].
    + apply (subscribe_tracked g0 g EdgeProbabilitiesDict update_probability_edges);
        [reflexivity|exact Htracked].
    + intros c Hc. exact Hc.
    + discriminate.
Qed.

Lemma run_steps_tracked (steps : list setup_step) (g0 : gui) :
  forall g,
  tracked g0 g ->
  exists g',
    run_steps steps g = Returned tt g'
    /\ tracked g0 g'
    /\ (forall c, c ∈ connections g -> c ∈ connections g')
    /\ (step_createDrawerControls ∈ steps ->
        (beta_box_valueChanged, configure_operator_from_gui) ∈ connections g').
Proof.
  induction steps as [|st rest IH]; intros g Htracked.
  - exists g. split; [reflexivity|]. split; [exact Htracked|].
    split; [done|]. by intros ?%elem_of_nil.
  - destruct (run_step_tracked st g0 g Htracked) as (g1 & Hrun1 & Ht1 & Hc1 & Hnew1).
    destruct (IH g1 Ht1) as (g' & Hrun & Ht & Hc & Hnew).
    exists g'. split.
    { cbn [run_steps]. unfold mbind, M_bind, bind. by rewrite Hrun1. }
    split; [exact Ht|]. split; [by intros c Hin; apply Hc, Hc1|].
    intros [<-|Hin]%elem_of_cons; [by apply Hc, Hnew1|by apply Hnew].
Qed.

(** X26: [stopAndCleanUp] takes back every subscription that
    [createDrawerControls] and [__init_probability_colortable] made at
    the slots of the operator, in whatever order and however often they
    ran since [__init__] emptied [__cleanup_fns]: the slots are left
    with the callbacks they had before. The connections to the Qt
    signals of the widgets are not taken back. *)
Theorem stopAndCleanUp_unsubscribes (LayerViewerGui_stopAndCleanUp : M gui unit)
    (steps : list setup_step) (g : gui) :
  cleanup_fns g = [] ->
  (forall slot cb, cb ∈ dirty_callbacks g slot -> own cb = false) ->
  exists g1 g2,
    run_steps steps g = Returned tt g1
    /\ stopAndCleanUp LayerViewerGui_stopAndCleanUp g1
       = LayerViewerGui_stopAndCleanUp g2
    /\ (forall slot, dirty_callbacks g2 slot = dirty_callbacks g slot)
    /\ connections g2 = connections g1
    /\ (step_createDrawerControls ∈ steps ->
        (beta_box_valueChanged, configure_operator_from_gui) ∈ connections g2).
Proof.
  intros Hempty Hforeign.
  assert (Htracked : tracked g g).
  { split; [|split].
    - intros slot. apply filter_all. intros cb Hin. by apply (Hforeign slot).
    - intros slot cb Hin Hcb. rewrite (Hforeign slot cb Hin) in Hcb. discriminate.
    - intros slot cb. rewrite Hempty. by intros ?%elem_of_nil. }
  destruct (run_steps_tracked steps g g Htracked)
    as (g1 & Hrun & (Hforeign1 & Hown1 & Hfns1) & Hconn & Hnew).
  destruct (call_all_run (cleanup_fns g1) g1) as (g2 & Hcall & _ & Hconn2 & Hcbs).
  exists g1, g2. split; [exact Hrun|]. split.
  { unfold stopAndCleanUp, mbind, M_bind, bind, get. by rewrite Hcall. }
  split.
  { intros slot. rewrite Hcbs, <- Hforeign1. apply filter_in_ext.
    intros cb Hin. split.
    - intros Hnot. destruct (own cb) eqn:Hcb; [|reflexivity].
      exfalso. by apply Hnot, Hown1.
    - intros Hcb Hin'. apply Hfns1 in Hin'. congruence. }
  split; [exact Hconn2|].
  intros Hin. rewrite Hconn2. by apply Hnew.
Qed.

End CleanupFacts.

Lemma stopAndCleanUp_unsubscribes_witness :
  exists g1 g2,
    MulticutGuiSetup.run_steps
      [MulticutGuiSetup.step_init_probability_colortable;
       MulticutGuiSetup.step_createDrawerControls]
      (MulticutGuiSetup.Gui [] None []
         (fun slot => match slot with
                      | MulticutGuiSetup.Beta => [MulticutGuiSetup.foreign 0]
                      | _ => []
                      end)
         (fun _ => true) 0)
    = Eff.Returned tt g1
    /\ MulticutGuiSetup.stopAndCleanUp (Eff.ret tt) g1 = Eff.ret tt g2
    /\ (forall slot,
          MulticutGuiSetup.dirty_callbacks g2 slot
          = match slot with
            | MulticutGuiSetup.Beta => [MulticutGuiSetup.foreign 0]
            | _ => []
            end)
    /\ MulticutGuiSetup.connections g2 = MulticutGuiSetup.connections g1
    /\ (MulticutGuiSetup.step_createDrawerControls
        ∈ [MulticutGuiSetup.step_init_probability_colortable;
           MulticutGuiSetup.step_createDrawerControls] ->
        (MulticutGuiSetup.beta_box_valueChanged,
         MulticutGuiSetup.configure_operator_from_gui)
        ∈ MulticutGuiSetup.connections g2).
Proof.
  apply (stopAndCleanUp_unsubscribes (Eff.ret tt)
           [MulticutGuiSetup.step_init_probability_colortable;
            MulticutGuiSetup.step_createDrawerControls]
           (MulticutGuiSetup.Gui [] None []
              (fun slot => match slot with
                           | MulticutGuiSetup.Beta => [MulticutGuiSetup.foreign 0]
                           | _ => []
                           end)
              (fun _ => true) 0)).
  - reflexivity.
  - intros slot cb Hin. destruct slot; simpl in Hin;
      try (by apply elem_of_nil in Hin).
    apply list_elem_of_singleton in Hin. subst cb. reflexivity.
Defined.

(** The layers of a project in which everything but the multicut
    output is ready, from the top. *)
Example setupLayers_doc :
  match MulticutGuiSetup.setupLayers
          (MulticutGuiSetup.Gui [] None [] (fun _ => [])
             (fun slot => negb (bool_decide (slot = MulticutGuiSetup.Output))) 0) with
  | Eff.Returned layers _ => map MulticutGuiSetup.name layers
  | Eff.Raised _ _ => []
  end
  = ["Superpixel Edge Probabilities"; "Superpixel Edges"; "Superpixels"; "Raw Data"]%string.
Proof. vm_compute. reflexivity. Qed.
